(** * EssayFlow AI: the essay-processing pipeline, embedded and verified

    A shallow embedding of the processing core of the essay-grading
    assistant:

    - [types.ts]           the essay record and its status enums;
    - [persistence.ts]     reviving essays from local storage, saving them;
    - [handwritingOcr.ts]  the OCR client (upload, adaptive polling), the
                           slugs and the image link of the markdown copy;
    - [aiAgent.ts]         the model router and [processEssayAgent];
    - [App.tsx]            the steps, the retry, the processing queue,
                           submissions and clearing.

    Asynchronous code is written in a small monad that threads a logical
    clock and a trace of observable events and that can throw; everything
    the browser or a vendor decides (HTTP responses, the wall clock, the
    moment the user aborts) is read from a [World] record of oracles.

    Conventions.  Attempt counts, HTTP status codes, the options of the
    OCR client and the wall clock are integers ([Z]); a delay in
    milliseconds is a [JS.number], a rational or an infinity, since a
    [Retry-After] header can hold any decimal literal.  Arithmetic is
    exact: the rounding of IEEE doubles is not modelled, and zero has no
    sign.  Strings are given in UTF-8, as the string literals of this file
    are; [trim] strips the white space of ECMAScript, [toLowerCase] acts
    on the ASCII range.  An optional property is an [option]: [None]
    reads [undefined]; [truthy] is JavaScript truthiness of an optional
    string. *)

From Stdlib Require Import String Ascii ZArith QArith List Bool Lia.
Import ListNotations.
Open Scope string_scope.
Open Scope Z_scope.

(* ===================================================================== *)
(** * JavaScript string and option helpers *)
(* ===================================================================== *)

Module JS.

(** Truthiness of a string: only the empty string is falsy. *)
Definition truthyStr (s : string) : bool :=
  match s with EmptyString => false | String _ _ => true end.

(** Truthiness of an optional string property ([undefined] is falsy). *)
Definition truthy (o : option string) : bool :=
  match o with Some s => truthyStr s | None => false end.

(** [a || b] where both sides are optional strings. *)
Definition orOpt (a b : option string) : option string :=
  if truthy a then a else b.

(** [a || b] on strings. *)
Definition orS (a b : string) : string := if truthyStr a then a else b.

(** [a || s] where the right-hand side is a string literal or a string. *)
Definition orStr (a : option string) (s : string) : string :=
  match a with
  | Some x => if truthyStr x then x else s
  | None => s
  end.

(** [a || b] for an optional property of any truthy-only type (enum
    members and objects are always truthy). *)
Definition orDefault {A : Type} (a : option A) (d : A) : A :=
  match a with Some x => x | None => d end.

(** A string given by the codes of its bytes. *)
Definition bytes (codes : list nat) : string :=
  fold_right (fun code rest => String (ascii_of_nat code) rest) EmptyString
    codes.

(** The white space and the line terminators of ECMAScript, which
    [String.prototype.trim] strips and [Number.parseFloat] skips, each in
    UTF-8: TAB, LF, VT, FF, CR, SPACE, U+00A0, U+1680, U+2000 to U+200A,
    U+2028, U+2029, U+202F, U+205F, U+3000 and U+FEFF. *)
Definition whiteSpace : list string :=
  map bytes
    [[9]; [10]; [11]; [12]; [13]; [32];
     [194; 160];
     [225; 154; 128];
     [226; 128; 128]; [226; 128; 129]; [226; 128; 130]; [226; 128; 131];
     [226; 128; 132]; [226; 128; 133]; [226; 128; 134]; [226; 128; 135];
     [226; 128; 136]; [226; 128; 137]; [226; 128; 138];
     [226; 128; 168]; [226; 128; 169];
     [226; 128; 175];
     [226; 129; 159];
     [227; 128; 128];
     [239; 187; 191]]%nat.

(** [s.slice(n)], counted in bytes. *)
Fixpoint skip (n : nat) (s : string) : string :=
  match n, s with
  | S n', String _ r => skip n' r
  | _, _ => s
  end.

(** The string without the white-space character at its head, when it has
    one. *)
Definition afterSpace (s : string) : option string :=
  match find (fun space => String.prefix space s) whiteSpace with
  | Some space => Some (skip (String.length space) s)
  | None => None
  end.

(** [trimStart]: white-space characters are taken off the head as long as
    there is one; the fuel is the length of the string, which is at least
    their number. *)
Fixpoint trimStartN (fuel : nat) (s : string) : string :=
  match fuel with
  | O => s
  | S fuel' =>
      match afterSpace s with
      | Some r => trimStartN fuel' r
      | None => s
      end
  end.

Definition trimStart (s : string) : string := trimStartN (String.length s) s.

(** The string is one white-space character. *)
Definition isWhiteSpace (s : string) : bool :=
  existsb (String.eqb s) whiteSpace.

(** [trimEnd], from the right: once the rest has been trimmed, what is
    kept is dropped when it is down to one white-space character. *)
Fixpoint trimEnd (s : string) : string :=
  match s with
  | EmptyString => EmptyString
  | String c r =>
      let kept := String c (trimEnd r) in
      if isWhiteSpace kept then EmptyString else kept
  end.

Definition trim (s : string) : string := trimEnd (trimStart s).

Definition lowerChar (c : ascii) : ascii :=
  let n := nat_of_ascii c in
  if (Nat.leb 65 n && Nat.leb n 90)%bool then ascii_of_nat (n + 32) else c.

Fixpoint toLowerCase (s : string) : string :=
  match s with
  | EmptyString => EmptyString
  | String c r => String (lowerChar c) (toLowerCase r)
  end.

(** [hay.includes(needle)]. *)
Fixpoint includes (hay needle : string) : bool :=
  if String.prefix needle hay then true
  else match hay with
       | EmptyString => false
       | String _ r => includes r needle
       end.

Definition LF : string := String (ascii_of_nat 10) EmptyString.

(** [parts.join(sep)]. *)
Definition join (sep : string) (parts : list string) : string :=
  String.concat sep parts.

(** A JavaScript number as the OCR client meets one: a finite value or an
    infinity ([NaN] never enters its arithmetic).  Finite values are exact
    and kept in lowest terms. *)
Inductive number :=
| finite (q : Q)
| posInfinity
| negInfinity.

Definition ofZ (z : Z) : number := finite (inject_Z z).

(** [x + z] for an integer [z]. *)
Definition plus (x : number) (z : Z) : number :=
  match x with
  | finite q => finite (Qred (q + inject_Z z))
  | other => other
  end.

(** [x * k] for a positive integer constant [k]. *)
Definition times (x : number) (k : positive) : number :=
  match x with
  | finite q => finite (Qred (q * inject_Z (Zpos k)))
  | other => other
  end.

(** [x <= y]. *)
Definition leb (x y : number) : bool :=
  match x, y with
  | negInfinity, _ => true
  | _, posInfinity => true
  | finite a, finite b => Qle_bool a b
  | _, _ => false
  end.

(** [Math.min(x, y)] and [Math.max(x, y)]. *)
Definition min (x y : number) : number := if leb x y then x else y.
Definition max (x y : number) : number := if leb x y then y else x.

Definition digitVal (c : ascii) : option Z :=
  let n := nat_of_ascii c in
  if (Nat.leb 48 n && Nat.leb n 57)%bool then Some (Z.of_nat (n - 48)) else None.

(** The decimal digits at the head of a string: how many there are, the
    value they give when written after digits of value [value], and the
    rest of the string. *)
Fixpoint digits (s : string) (count : nat) (value : Z)
    : nat * Z * string :=
  match s with
  | EmptyString => (count, value, s)
  | String c r =>
      match digitVal c with
      | Some d => digits r (S count) (10 * value + d)
      | None => (count, value, s)
      end
  end.

(** The value of an exponent part ([e] or [E], an optional sign, digits)
    at the head of a string; 0 when there is none. *)
Definition exponentPart (s : string) : Z :=
  match s with
  | String c r =>
      if (Ascii.eqb c "e" || Ascii.eqb c "E")%bool then
        let '(negative, r') :=
          match r with
          | String "-" r1 => (true, r1)
          | String "+" r1 => (false, r1)
          | _ => (false, r)
          end in
        let '(count, value, _) := digits r' 0 0 in
        if Nat.eqb count 0 then 0
        else if negative then - value else value
      else 0
  | EmptyString => 0
  end.

(** [Number.parseFloat]: leading white space is skipped, then the longest
    prefix that is a decimal literal is read: an optional sign, then
    [Infinity], or digits with an optional fraction and an optional
    exponent ([1.5], [.5], [5.], [1e3]); what follows is ignored.  [None]
    is [NaN]: no such prefix (as for an HTTP-date). *)
Definition parseFloat (s : string) : option number :=
  let t := trimStart s in
  let '(negative, unsigned) :=
    match t with
    | String "-" r => (true, r)
    | String "+" r => (false, r)
    | _ => (false, t)
    end in
  if String.prefix "Infinity" unsigned
  then Some (if negative then negInfinity else posInfinity)
  else
    let '(intCount, intValue, afterInt) := digits unsigned 0 0 in
    let '(fracCount, mantissa, afterFrac) :=
      match afterInt with
      | String "." r => digits r 0 intValue
      | _ => (0%nat, intValue, afterInt)
      end in
    if Nat.eqb (intCount + fracCount) 0 then None
    else
      let exponent := exponentPart afterFrac - Z.of_nat fracCount in
      let magnitude := (inject_Z mantissa * Qpower (inject_Z 10) exponent)%Q in
      Some (finite (Qred (if negative then Qopp magnitude else magnitude))).

End JS.

(** An integer where a number is expected. *)
Coercion JS.ofZ : Z >-> JS.number.

(* ===================================================================== *)
(** * types.ts: the data model *)
(* ===================================================================== *)

Inductive ProcessingStatus :=
| IDLE | PENDING | UPLOADING | PROCESSING | COMPLETED | ERROR | CANCELLED.

Inductive StepStatus :=
| step_idle | step_processing | step_done | step_error | step_skipped.

Inductive ProcessingStep :=
| queued | ocr | ocr_complete | grading | done | error | cancelled.

Inductive SubmissionType := image | text | markdown.

Inductive AIProvider := openai | openrouter | gemini | deepseek.

Scheme Equality for ProcessingStatus.
Scheme Equality for StepStatus.
Scheme Equality for ProcessingStep.
Scheme Equality for SubmissionType.

(** The browser [File] handle of an upload: only what the pipeline reads. *)
Record File := mkFile {
  fileName : string;
  fileType : string
}.

Record GrammarIssue := mkIssue {
  issueType : option string;
  original : string;
  correction : string;
  explanation : string
}.

Record GradingSchema := mkGrading {
  score : Z;
  grade : option string;
  summary_cn : string;
  grammar_issues : list GrammarIssue;
  strengths : list string;
  improvements : list string
}.

Record EssayData := mkEssay {
  id : string;
  submissionType : SubmissionType;
  file : option File;
  imagePreview : option string;
  rawText : option string;
  ocrText : string;
  status : ProcessingStatus;
  progressStep : option ProcessingStep;
  progressMessage : option string;
  studentName : option string;
  date : option string;
  topic : option string;
  addedAt : option string;
  batchId : option string;
  ocrStatus : option StepStatus;
  gradingStatus : option StepStatus;
  sourceFileName : option string;
  sourcePath : option string;
  gradingResult : option GradingSchema;
  errorMessage : option string
}.

Record ModelSettings := mkModel {
  provider : AIProvider;
  model : string
}.

Record AgentConfig := mkConfig {
  level : string;
  maxScore : Z;
  focusAreas : list string;
  modelSettings : ModelSettings
}.

(** Object spread with one override, [{ ...e, k: v }]: a setter per key the
    pipeline overrides. *)
Definition with_status (v : ProcessingStatus) (e : EssayData) : EssayData :=
  mkEssay (id e) (submissionType e) (file e) (imagePreview e) (rawText e)
    (ocrText e) v (progressStep e) (progressMessage e) (studentName e)
    (date e) (topic e) (addedAt e) (batchId e) (ocrStatus e)
    (gradingStatus e) (sourceFileName e) (sourcePath e) (gradingResult e)
    (errorMessage e).

Definition with_ocrText (v : string) (e : EssayData) : EssayData :=
  mkEssay (id e) (submissionType e) (file e) (imagePreview e) (rawText e)
    v (status e) (progressStep e) (progressMessage e) (studentName e)
    (date e) (topic e) (addedAt e) (batchId e) (ocrStatus e)
    (gradingStatus e) (sourceFileName e) (sourcePath e) (gradingResult e)
    (errorMessage e).

Definition with_progressStep (v : option ProcessingStep) (e : EssayData) : EssayData :=
  mkEssay (id e) (submissionType e) (file e) (imagePreview e) (rawText e)
    (ocrText e) (status e) v (progressMessage e) (studentName e)
    (date e) (topic e) (addedAt e) (batchId e) (ocrStatus e)
    (gradingStatus e) (sourceFileName e) (sourcePath e) (gradingResult e)
    (errorMessage e).

Definition with_progressMessage (v : option string) (e : EssayData) : EssayData :=
  mkEssay (id e) (submissionType e) (file e) (imagePreview e) (rawText e)
    (ocrText e) (status e) (progressStep e) v (studentName e)
    (date e) (topic e) (addedAt e) (batchId e) (ocrStatus e)
    (gradingStatus e) (sourceFileName e) (sourcePath e) (gradingResult e)
    (errorMessage e).

Definition with_studentName (v : option string) (e : EssayData) : EssayData :=
  mkEssay (id e) (submissionType e) (file e) (imagePreview e) (rawText e)
    (ocrText e) (status e) (progressStep e)
    (progressMessage e) v
    (date e) (topic e) (addedAt e) (batchId e) (ocrStatus e)
    (gradingStatus e) (sourceFileName e) (sourcePath e) (gradingResult e)
    (errorMessage e).

Definition with_date (v : option string) (e : EssayData) : EssayData :=
  mkEssay (id e) (submissionType e) (file e) (imagePreview e) (rawText e)
    (ocrText e) (status e) (progressStep e)
    (progressMessage e) (studentName e)
    v (topic e) (addedAt e) (batchId e) (ocrStatus e)
    (gradingStatus e) (sourceFileName e) (sourcePath e) (gradingResult e)
    (errorMessage e).

Definition with_ocrStatus (v : option StepStatus) (e : EssayData) : EssayData :=
  mkEssay (id e) (submissionType e) (file e) (imagePreview e) (rawText e)
    (ocrText e) (status e) (progressStep e)
    (progressMessage e) (studentName e)
    (date e) (topic e) (addedAt e) (batchId e) v
    (gradingStatus e) (sourceFileName e) (sourcePath e) (gradingResult e)
    (errorMessage e).

Definition with_gradingStatus (v : option StepStatus) (e : EssayData) : EssayData :=
  mkEssay (id e) (submissionType e) (file e) (imagePreview e) (rawText e)
    (ocrText e) (status e) (progressStep e)
    (progressMessage e) (studentName e)
    (date e) (topic e) (addedAt e) (batchId e) (ocrStatus e)
    v (sourceFileName e) (sourcePath e) (gradingResult e)
    (errorMessage e).

Definition with_gradingResult (v : option GradingSchema) (e : EssayData) : EssayData :=
  mkEssay (id e) (submissionType e) (file e) (imagePreview e) (rawText e)
    (ocrText e) (status e) (progressStep e)
    (progressMessage e) (studentName e)
    (date e) (topic e) (addedAt e) (batchId e) (ocrStatus e)
    (gradingStatus e) (sourceFileName e) (sourcePath e) v
    (errorMessage e).

Definition with_errorMessage (v : option string) (e : EssayData) : EssayData :=
  mkEssay (id e) (submissionType e) (file e) (imagePreview e) (rawText e)
    (ocrText e) (status e) (progressStep e)
    (progressMessage e) (studentName e)
    (date e) (topic e) (addedAt e) (batchId e) (ocrStatus e)
    (gradingStatus e) (sourceFileName e) (sourcePath e)
    (gradingResult e) v.


(* ===================================================================== *)
(** * Exceptions *)
(* ===================================================================== *)

(** A thrown value: the [name] and the [message] the handlers inspect.  A
    rejection with something that is no [Error] (a [ProgressEvent] of a
    failed file read) has no message. *)
Record JsError := mkError {
  errName : string;
  errMessage : option string
}.

(** The [ProgressEvent] a failed [FileReader] rejects with. *)
Definition progressEvent : JsError := mkError "" None.

(** [new Error(msg)]. *)
Definition newError (msg : string) : JsError := mkError "Error" (Some msg).

(** What [JSON.parse] throws on malformed text, and what reading a
    property of [null] throws. *)
Definition syntaxError : JsError :=
  mkError "SyntaxError" (Some "Unexpected token in JSON").

Definition typeError : JsError :=
  mkError "TypeError" (Some "Cannot read properties of null").

Inductive Res (A : Type) : Type :=
| Ok (a : A)
| Throw (e : JsError).
Arguments Ok {A} a.
Arguments Throw {A} e.

(** [xs.map(f)] where [f] may throw: the first exception ends the map. *)
Fixpoint mapRes {A B : Type} (f : A -> Res B) (xs : list A) : Res (list B) :=
  match xs with
  | [] => Ok []
  | x :: r =>
      match f x with
      | Throw e => Throw e
      | Ok y =>
          match mapRes f r with
          | Throw e => Throw e
          | Ok ys => Ok (y :: ys)
          end
      end
  end.

(* ===================================================================== *)
(** * persistence.ts *)
(* ===================================================================== *)

Module Persistence.

Definition STORAGE_KEY : string := "essayflow_ai_records_v1".

(** One element of the stored [essays] array, as [JSON.parse] hands it
    over: [PersistableEssay] is [EssayData] without [file], and the two
    required keys the reviver defends with [||] may be absent. *)
Record PersistableEssay := mkStored {
  s_id : string;
  s_submissionType : SubmissionType;
  s_imagePreview : option string;
  s_rawText : option string;
  s_ocrText : option string;
  s_status : option ProcessingStatus;
  s_progressStep : option ProcessingStep;
  s_progressMessage : option string;
  s_studentName : option string;
  s_date : option string;
  s_topic : option string;
  s_addedAt : option string;
  s_batchId : option string;
  s_ocrStatus : option StepStatus;
  s_gradingStatus : option StepStatus;
  s_sourceFileName : option string;
  s_sourcePath : option string;
  s_gradingResult : option GradingSchema;
  s_errorMessage : option string
}.

Definition INTERRUPTED_MESSAGE : string := "刷新后可重新开始批改".
Definition REUPLOAD_MESSAGE : string := "源图片不可用，请重新上传后再试".

(** [s === 'processing' ? 'idle' : s] on an optional sub-status. *)
Definition downgrade (s : option StepStatus) : option StepStatus :=
  match s with
  | Some step_processing => Some step_idle
  | other => other
  end.

Definition resetIfInterrupted (essay : EssayData) : EssayData :=
  if negb (ProcessingStatus_beq (status essay) PROCESSING) then essay
  else
    with_progressMessage (Some INTERRUPTED_MESSAGE)
      (with_progressStep (Some queued)
        (with_gradingStatus (downgrade (gradingStatus essay))
          (with_ocrStatus (downgrade (ocrStatus essay))
            (with_status PENDING essay)))).

(** [!essay.ocrText && !essay.rawText]. *)
Definition lacksText (essay : EssayData) : bool :=
  negb (JS.truthyStr (ocrText essay)) && negb (JS.truthy (rawText essay)).

Definition markMissingSource (essay : EssayData) : EssayData :=
  if negb (SubmissionType_beq (submissionType essay) image)
     || negb (lacksText essay)
  then essay
  else
    with_errorMessage
      (Some (JS.orStr (errorMessage essay) REUPLOAD_MESSAGE))
      (with_progressMessage (Some REUPLOAD_MESSAGE)
        (with_progressStep (Some error)
          (with_gradingStatus (Some step_skipped)
            (with_ocrStatus (Some step_error)
              (with_status ERROR essay))))).

(** The [withDefaults] object literal of [reviveEssay]. *)
Definition withDefaults (essay : PersistableEssay)
    (fallbackAddedAt : option string) : EssayData :=
  {| id := s_id essay;
     submissionType := s_submissionType essay;
     file := None;
     imagePreview := s_imagePreview essay;
     rawText := s_rawText essay;
     ocrText := JS.orStr (s_ocrText essay) "";
     status := JS.orDefault (s_status essay) PENDING;
     progressStep := Some (JS.orDefault (s_progressStep essay) queued);
     progressMessage :=
       Some (JS.orStr (s_progressMessage essay) "Waiting in queue");
     studentName := s_studentName essay;
     date := s_date essay;
     topic := s_topic essay;
     addedAt := JS.orOpt (s_addedAt essay) fallbackAddedAt;
     batchId := s_batchId essay;
     ocrStatus := Some (JS.orDefault (s_ocrStatus essay) step_idle);
     gradingStatus := Some (JS.orDefault (s_gradingStatus essay) step_idle);
     sourceFileName := s_sourceFileName essay;
     sourcePath := s_sourcePath essay;
     gradingResult := s_gradingResult essay;
     errorMessage := s_errorMessage essay |}.

Definition reviveEssay (essay : PersistableEssay)
    (fallbackAddedAt : option string) : EssayData :=
  let reset := resetIfInterrupted (withDefaults essay fallbackAddedAt) in
  markMissingSource reset.

(** What [localStorage.getItem] does. *)
Inductive StorageRead :=
| ReadThrows (e : JsError)
| ReadNull
| ReadValue (raw : string).

(** The [essays] property of the parsed payload: falsy (absent, [null],
    ...), a truthy value that is no array, or an array whose elements
    are objects or [null]. *)
Inductive EssaysField :=
| EssaysFalsy
| EssaysNotArray
| EssaysArray (elements : list (option PersistableEssay)).

(** The value [JSON.parse] returns: [null], or a value with the two
    properties the loader reads. *)
Inductive Parsed :=
| ParsedNull
| ParsedValue (savedAt : option string) (essays : EssaysField).

(** The browser as the loader sees it. *)
Record Browser := mkBrowser {
  hasWindow : bool;
  getItem : string -> StorageRead;
  JSON_parse : string -> option Parsed;
  nowISO : string
}.

(** The callback of [parsed.essays.map]: reading a property of a [null]
    element throws. *)
Definition reviveElement (fallbackAddedAt : string)
    (element : option PersistableEssay) : Res EssayData :=
  match element with
  | None => Throw typeError
  | Some essay => Ok (reviveEssay essay (Some fallbackAddedAt))
  end.

(** The body of the [try] block of [loadPersistedEssays]. *)
Definition loadBody (b : Browser) : Res (list EssayData) :=
  match getItem b STORAGE_KEY with
  | ReadThrows e => Throw e
  | ReadNull => Ok []
  | ReadValue raw =>
      if negb (JS.truthyStr raw) then Ok []
      else
        match JSON_parse b raw with
        | None => Throw syntaxError
        | Some ParsedNull => Ok []
        | Some (ParsedValue _ EssaysFalsy) => Ok []
        | Some (ParsedValue _ EssaysNotArray) => Ok []
        | Some (ParsedValue savedAt (EssaysArray elements)) =>
            let fallbackAddedAt := JS.orStr savedAt (nowISO b) in
            mapRes (reviveElement fallbackAddedAt) elements
        end
  end.

Definition loadPersistedEssays (b : Browser) : list EssayData :=
  if negb (hasWindow b) then []
  else
    match loadBody b with
    | Ok essays => essays
    | Throw _ => []
    end.

(** The stored entry parses to a payload whose [essays] array holds the
    objects [stored]. *)
Record Holds (b : Browser) (savedAt : option string)
    (stored : list PersistableEssay) : Prop := {
  holds_window : hasWindow b = true;
  holds_entry : exists raw,
    getItem b STORAGE_KEY = ReadValue raw /\ JS.truthyStr raw = true /\
    JSON_parse b raw =
      Some (ParsedValue savedAt (EssaysArray (map Some stored)))
}.

(** The three unusable stored states: no entry, malformed JSON, a
    payload without an [essays] array. *)
Inductive Unusable (b : Browser) : Prop :=
| NoEntry :
    getItem b STORAGE_KEY = ReadNull -> Unusable b
| Malformed raw :
    getItem b STORAGE_KEY = ReadValue raw ->
    JSON_parse b raw = None -> Unusable b
| NoEssays raw parsed :
    getItem b STORAGE_KEY = ReadValue raw ->
    JSON_parse b raw = Some parsed ->
    (forall savedAt elements,
        parsed <> ParsedValue savedAt (EssaysArray elements)) ->
    Unusable b.

End Persistence.

(* ===================================================================== *)
(** * The asynchronous runtime: signals, the world, the monad *)
(* ===================================================================== *)

(** An [AbortSignal].  Logical time counts the awaited operations of a run
    (a request, the reading of a response body, a timer, a file read); the
    signal reads aborted from the instant the user aborts ([None]: never).
    Once aborted it stays aborted. *)
Record AbortSignal := mkSignal {
  abortedFrom : option nat
}.

Definition isAborted (sig : AbortSignal) (t : nat) : bool :=
  match abortedFrom sig with
  | Some a => Nat.leb a t
  | None => false
  end.

(** [signal?.aborted] for an optional signal. *)
Definition abortedAt (signal : option AbortSignal) (t : nat) : bool :=
  match signal with
  | Some sig => isAborted sig t
  | None => false
  end.

(** How a promise settles. *)
Inductive Outcome (A : Type) : Type :=
| Resolved (a : A)
| Rejected (e : JsError).
Arguments Resolved {A} a.
Arguments Rejected {A} e.

(** One element of the vendor's [results] array. *)
Record Page := mkPage {
  page_number : option Z;
  transcript : option string
}.

(** The [results] property: falsy, a truthy non-array, or an array whose
    elements are pages or [null]. *)
Inductive ResultsField :=
| ResultsFalsy
| ResultsNotArray
| ResultsArray (pages : list (option Page)).

(** JSON body of [GET /documents/{id}]. *)
Record StatusBody := mkStatusBody {
  sb_status : option string;
  sb_results : ResultsField;
  sb_message : option string;
  sb_error0 : option string
}.

(** Response of [GET /documents/{id}]; [sr_body = None] when the body is
    not JSON. *)
Record StatusResponse := mkStatusResponse {
  sr_status : Z;
  sr_retryAfter : option string;
  sr_body : option StatusBody
}.

(** Response of [POST /documents]. *)
Record UploadBody := mkUploadBody {
  ub_id : option string;
  ub_message : option string;
  ub_error0 : option string
}.

Record UploadResponse := mkUploadResponse {
  ur_ok : bool;
  ur_body : option UploadBody
}.

(** The [content] of the first choice of a chat completion. *)
Inductive ChatContent :=
| ContentFalsy
| ContentString (s : string)
| ContentParts (parts : list (string * option string))
| ContentOther.

(** JSON body of an LLM provider: the properties either transport reads.
    [mb_candidateParts] is [candidates[0].content.parts] when that is an
    array, each part given by its [text]. *)
Record ModelBody := mkModelBody {
  mb_errorMessage : option string;
  mb_message : option string;
  mb_content : ChatContent;
  mb_candidateParts : option (list (option string))
}.

Record ModelResponse := mkModelResponse {
  mr_ok : bool;
  mr_body : option ModelBody
}.

Record FileData := mkFileData {
  base64 : string;
  mimeType : string
}.

(** The object the grading model is asked to return. *)
Record GradingReply := mkReply {
  r_studentName : option string;
  r_date : option string;
  r_ocrText : option string;
  r_gradingResult : option GradingSchema
}.

(** What [JSON.parse] makes of the model's text: a syntax error, [null],
    or an object. *)
Inductive ReplyJson :=
| ReplySyntaxError
| ReplyNull
| ReplyObject (r : GradingReply).

(** Everything decided outside the program.  Network oracles are indexed
    by the logical time at which the request is issued. *)
Record World := mkWorld {
  (* config.ts *)
  HANDWRITING_OCR_API_KEY : option string;
  OPENAI_API_KEY : option string;
  OPENAI_BASE_URL : string;
  OPENROUTER_API_KEY : option string;
  OPENROUTER_BASE_URL : string;
  GEMINI_API_KEY : option string;
  GEMINI_BASE_URL : string;
  DEEPSEEK_API_KEY : option string;
  DEEPSEEK_BASE_URL : string;
  (* the host *)
  dateNow : nat -> Z;
  localeDate : string;
  parseReply : string -> ReplyJson;
  readFile : File -> Outcome FileData;
  (* the vendors *)
  uploadResponse : nat -> Outcome UploadResponse;
  statusResponse : nat -> Outcome StatusResponse;
  modelResponse : nat -> Outcome ModelResponse;
  (* the user: after how many further awaited operations the controller
     registered for an essay id at a given time is aborted ([None]:
     never) *)
  abortsAfter : string -> nat -> option nat
}.

(** From when on the controller registered for an essay id at time [t]
    reads aborted.  A new [AbortController] is not aborted; the user can
    abort it while a later awaited operation is pending, the first one
    included. *)
Definition userAborts (w : World) (essayId : string) (t : nat)
    : option nat :=
  option_map (fun later => S (t + later)) (abortsAfter w essayId t).

(** A progress report handed to [onProgress]. *)
Record ProgressUpdate := mkProgress {
  pu_ocrText : option string;
  pu_progressStep : ProcessingStep;
  pu_progressMessage : string
}.

(** Observable actions of a run, in the order they happen. *)
Inductive Event :=
| EvOcrUpload (f : File)
| EvOcrPoll (documentId : string)
| EvDelay (ms : JS.number)
| EvPersistTranscript (transcript : string)
| EvFileRead (f : File)
| EvModelRequest (url : string)
| EvProgress (u : ProgressUpdate).

Record St := mkSt {
  clock : nat;
  trace : list Event
}.

Definition M (A : Type) : Type := World -> St -> Res A * St.

Definition ret {A : Type} (a : A) : M A := fun _ s => (Ok a, s).

Definition bind {A B : Type} (m : M A) (k : A -> M B) : M B :=
  fun w s =>
    match m w s with
    | (Ok a, s1) => k a w s1
    | (Throw e, s1) => (Throw e, s1)
    end.

Definition throw {A : Type} (e : JsError) : M A := fun _ s => (Throw e, s).

(** [try { m } catch (e) { h e }]. *)
Definition tryCatch {A : Type} (m : M A) (h : JsError -> M A) : M A :=
  fun w s =>
    match m w s with
    | (Ok a, s1) => (Ok a, s1)
    | (Throw e, s1) => h e w s1
    end.

Notation "x <- m ;; k" := (bind m (fun x => k))
  (at level 61, m at next level, right associativity).
Notation "m ;;; k" := (bind m (fun _ => k))
  (at level 61, right associativity).

Definition emit (e : Event) : M unit :=
  fun _ s => (Ok tt, mkSt (clock s) (trace s ++ [e])).

Definition ask {A : Type} (f : World -> A) : M A := fun w s => (Ok (f w), s).

Definition tick (s : St) : St := mkSt (S (clock s)) (trace s).

Definition cancelledError : JsError := newError "Processing cancelled".

(** The [DOMException] a fetch rejects with when its signal aborts. *)
Definition abortError : JsError :=
  mkError "AbortError" (Some "The user aborted a request.").

(** [Date.now()]. *)
Definition now : M Z := fun w s => (Ok (dateNow w (clock s)), s).

(** [signal?.aborted]. *)
Definition signalAborted (signal : option AbortSignal) : M bool :=
  fun _ s => (Ok (abortedAt signal (clock s)), s).

(** [await fetch(url, { signal })]: takes one unit of logical time; an abort
    that has happened by the time the response would arrive rejects it. *)
Definition fetch {A : Type} (signal : option AbortSignal)
    (oracle : World -> nat -> Outcome A) : M A :=
  fun w s =>
    let s1 := tick s in
    if abortedAt signal (clock s1) then (Throw abortError, s1)
    else
      match oracle w (clock s) with
      | Resolved a => (Ok a, s1)
      | Rejected e => (Throw e, s1)
      end.

(** [await response.json()]: reading the body takes one unit of time and is
    cut by the same signal; a body that is not JSON throws. *)
Definition json {A : Type} (signal : option AbortSignal) (body : option A)
    : M A :=
  fun _ s =>
    let s1 := tick s in
    if abortedAt signal (clock s1) then (Throw abortError, s1)
    else
      match body with
      | Some a => (Ok a, s1)
      | None => (Throw syntaxError, s1)
      end.

(** The events a call added to the trace. *)
Definition newEvents (before after : St) : list Event :=
  skipn (length (trace before)) (trace after).

(** A request to the OCR vendor. *)
Definition isOcrCall (ev : Event) : bool :=
  match ev with
  | EvOcrUpload _ => true
  | EvOcrPoll _ => true
  | _ => false
  end.

(** What the OCR client does: its two requests, its waits, the copy of the
    transcript. *)
Definition isOcrEvent (ev : Event) : bool :=
  match ev with
  | EvOcrUpload _ => true
  | EvOcrPoll _ => true
  | EvDelay _ => true
  | EvPersistTranscript _ => true
  | _ => false
  end.

(** What the grading half of the pipeline does: reading the image for the
    prompt, the request to the model, and progress reports for the steps
    "grading" and "done" that carry no OCR text. *)
Definition isGradingEvent (ev : Event) : bool :=
  match ev with
  | EvFileRead _ => true
  | EvModelRequest _ => true
  | EvProgress u =>
      match pu_ocrText u, pu_progressStep u with
      | None, grading => true
      | None, done => true
      | _, _ => false
      end
  | _ => false
  end.

(** An event that is no progress report carrying OCR text. *)
Definition carriesNoText (ev : Event) : bool :=
  match ev with
  | EvProgress u =>
      match pu_ocrText u with Some _ => false | None => true end
  | _ => true
  end.

(** The status polls among some events, by document id. *)
Definition pollsOf (events : list Event) : list string :=
  flat_map (fun ev => match ev with EvOcrPoll d => [d] | _ => [] end)
    events.

(** A computation issues at most [n] status polls. *)
Definition PollsAtMost (n : nat) {A : Type} (m : M A) : Prop :=
  forall w s r s',
    m w s = (r, s') ->
    exists d, trace s' = (trace s ++ d)%list /\
              (length (pollsOf d) <= n)%nat.

(** Every event a computation adds to the trace satisfies [P]. *)
Definition Emits (P : Event -> bool) {A : Type} (m : M A) : Prop :=
  forall w s r s',
    m w s = (r, s') ->
    exists d, trace s' = (trace s ++ d)%list /\ forallb P d = true.

(* ===================================================================== *)
(** * handwritingOcr.ts *)
(* ===================================================================== *)

Module Ocr.

Record DocumentResult := mkResult {
  dr_status : option string;
  dr_results : ResultsField;
  dr_message : option string;
  retryAfterMs : option JS.number;
  httpStatus : Z
}.

Record Options := mkOptions {
  o_pollIntervalMs : option Z;
  o_maxAttempts : option Z;
  o_maxWaitMs : option Z;
  o_signal : option AbortSignal
}.

(** [a ?? d]. *)
Definition nullish (a : option Z) (d : Z) : Z :=
  match a with Some x => x | None => d end.

Definition throwIfCancelled (signal : option AbortSignal) : M unit :=
  aborted <- signalAborted signal ;;
  if aborted then throw cancelledError else ret tt.

(** [delay(ms, signal)]: the timer resolves after [ms]; the abort listener
    added here rejects only for an abort that happens during the wait (a
    signal aborted beforehand fires no further event). *)
Definition delay (ms : JS.number) (signal : option AbortSignal) : M unit :=
  emit (EvDelay ms) ;;;
  (fun _ s =>
     let s1 := tick s in
     if negb (abortedAt signal (clock s)) && abortedAt signal (clock s1)
     then (Throw cancelledError, s1)
     else (Ok tt, s1)).

Definition missingKeyError : JsError :=
  newError "Handwriting OCR API key is missing".

Definition uploadDocument (file : File) (signal : option AbortSignal)
    : M string :=
  key <- ask HANDWRITING_OCR_API_KEY ;;
  if negb (JS.truthy key) then throw missingKeyError
  else
    throwIfCancelled signal ;;;
    emit (EvOcrUpload file) ;;;
    response <- fetch signal uploadResponse ;;
    data <- json signal (ur_body response) ;;
    if negb (ur_ok response) then
      throw (newError
               (JS.orStr (JS.orOpt (ub_message data) (ub_error0 data))
                  "OCR upload failed"))
    else if negb (JS.truthy (ub_id data)) then
      throw (newError "OCR upload did not return an id")
    else ret (JS.orStr (ub_id data) "").

(** The [retryAfterMs] expression of [fetchDocumentStatus]. *)
Definition retryAfterOf (retryAfterHeader : option string)
    : option JS.number :=
  match retryAfterHeader with
  | Some h =>
      if JS.truthyStr h then
        match JS.parseFloat h with
        | Some seconds => Some (JS.times seconds 1000)
        | None => None
        end
      else None
  | None => None
  end.

(** The empty object [{}] a failed body read falls back to. *)
Definition emptyBody : StatusBody :=
  mkStatusBody None ResultsFalsy None None.

Definition fetchDocumentStatus (documentId : string)
    (signal : option AbortSignal) : M DocumentResult :=
  key <- ask HANDWRITING_OCR_API_KEY ;;
  if negb (JS.truthy key) then throw missingKeyError
  else
    throwIfCancelled signal ;;;
    emit (EvOcrPoll documentId) ;;;
    response <- fetch signal statusResponse ;;
    data <- tryCatch (json signal (sr_body response))
                     (fun _ => ret emptyBody) ;;
    ret {| dr_status :=
             JS.orOpt (sb_status data)
               (if sr_status response =? 202 then Some "processing"
                else None);
           dr_results := sb_results data;
           dr_message := JS.orOpt (sb_message data) (sb_error0 data);
           retryAfterMs := retryAfterOf (sr_retryAfter response);
           httpStatus := sr_status response |}.

(** [page?.transcript || ""]. *)
Definition pageText (page : option Page) : string :=
  match page with
  | Some p => JS.orStr (transcript p) ""
  | None => ""
  end.

Definition collectTranscript (results : ResultsField) : string :=
  match results with
  | ResultsFalsy => ""
  | ResultsNotArray => ""
  | ResultsArray pages =>
      JS.trim
        (JS.join (JS.LF ++ JS.LF)
           (filter JS.truthyStr (map pageText pages)))
  end.

(** The download and save-server copies of a transcript: best effort,
    fire and forget; recorded as one event. *)
Definition persistTranscript (transcript : string) : M unit :=
  emit (EvPersistTranscript transcript).

Definition isStatus (result : DocumentResult) (s : string) : bool :=
  match dr_status result with
  | Some x => String.eqb x s
  | None => false
  end.

(** [waitMs] of the polling loop. *)
Definition waitMs (pollIntervalMs : Z) (dynamicDelay : JS.number)
    (result : DocumentResult) : JS.number :=
  let rateLimited := httpStatus result =? 429 in
  let missing := httpStatus result =? 404 in
  if rateLimited then
    match retryAfterMs result with
    | Some ms => ms
    | None => JS.min (JS.times dynamicDelay 2) 30000
    end
  else if missing then JS.max dynamicDelay (pollIntervalMs * 2)
  else dynamicDelay.

(** The new [dynamicDelay] of the polling loop. *)
Definition nextDelay (pollIntervalMs : Z) (dynamicDelay : JS.number)
    (result : DocumentResult) : JS.number :=
  let rateLimited := httpStatus result =? 429 in
  JS.min (JS.plus (waitMs pollIntervalMs dynamicDelay result) pollIntervalMs)
         (if rateLimited then 45000 else 20000).

Definition emptyTranscriptError : JsError :=
  newError "OCR finished but returned empty transcript".

Definition timeoutMessage (documentId : string) : string :=
  "OCR request timed out before completion (document id: "
    ++ documentId ++ "). 请稍后重试。".

Section Polling.

Variable documentId : string.
Variable signal : option AbortSignal.
Variable pollIntervalMs : Z.
Variable maxWaitMs : Z.
Variable startedAt : Z.

(** The [while] loop.  [remaining] is [maxAttempts - attempt], so the
    guard [attempt < maxAttempts] reads [remaining <> 0] and
    [attempt += 1] is the step to the predecessor; the clock is read only
    when that first conjunct holds.  [Some t]: the function returns [t]
    from inside the loop; [None]: the loop condition failed. *)
Fixpoint pollLoop (remaining : nat) (dynamicDelay : JS.number)
    : M (option string) :=
  match remaining with
  | O => ret None
  | S remaining' =>
      t <- now ;;
      if t - startedAt <? maxWaitMs then
        result <- fetchDocumentStatus documentId signal ;;
        if isStatus result "processed" then
          let transcript := collectTranscript (dr_results result) in
          if JS.truthyStr transcript then
            persistTranscript transcript ;;;
            ret (Some transcript)
          else throw emptyTranscriptError
        else if isStatus result "failed" then
          throw (newError
                   (JS.orStr (dr_message result)
                      "Handwriting OCR processing failed"))
        else
          let wait := waitMs pollIntervalMs dynamicDelay result in
          let dynamicDelay' :=
            nextDelay pollIntervalMs dynamicDelay result in
          delay wait signal ;;;
          pollLoop remaining' dynamicDelay'
      else ret None
  end.

(** Loop configurations: the attempts left, [dynamicDelay], the state.
    [Reaches w results c c'] says that from [c] the loop performs one
    non-terminal iteration per element of [results] (the status it
    polled) and stands at [c'] before its next test of the guard. *)
Inductive Reaches (w : World)
    : list DocumentResult -> nat * JS.number * St -> nat * JS.number * St
      -> Prop :=
| reaches_here c : Reaches w [] c c
| reaches_step remaining dynamicDelay s result s1 s2 results c :
    (dateNow w (clock s) - startedAt <? maxWaitMs) = true ->
    fetchDocumentStatus documentId signal w s = (Ok result, s1) ->
    isStatus result "processed" = false ->
    isStatus result "failed" = false ->
    delay (waitMs pollIntervalMs dynamicDelay result) signal w s1
    = (Ok tt, s2) ->
    Reaches w results
      (remaining, nextDelay pollIntervalMs dynamicDelay result, s2) c ->
    Reaches w (result :: results) (S remaining, dynamicDelay, s) c.

(** The waits of iterations that polled [results], the first of them
    entered with the delay [dynamicDelay]. *)
Fixpoint waitsOf (dynamicDelay : JS.number) (results : list DocumentResult)
    : list JS.number :=
  match results with
  | [] => []
  | result :: rest =>
      waitMs pollIntervalMs dynamicDelay result
        :: waitsOf (nextDelay pollIntervalMs dynamicDelay result) rest
  end.

(** The code after the loop: one more status request, then the
    timeout. *)
Definition afterLoop : M string :=
  finalResult <- fetchDocumentStatus documentId signal ;;
  let timeout := throw (newError (timeoutMessage documentId)) in
  if isStatus finalResult "processed" then
    let transcript := collectTranscript (dr_results finalResult) in
    if JS.truthyStr transcript then
      persistTranscript transcript ;;;
      ret transcript
    else timeout
  else timeout.

End Polling.

Definition transcribeHandwriting (file : File) (options : Options)
    : M string :=
  let signal := o_signal options in
  let pollIntervalMs := nullish (o_pollIntervalMs options) 2000 in
  let maxAttempts := nullish (o_maxAttempts options) 120 in
  let maxWaitMs := nullish (o_maxWaitMs options) (4 * 60 * 1000) in
  startedAt <- now ;;
  throwIfCancelled signal ;;;
  documentId <- uploadDocument file signal ;;
  looped <- pollLoop documentId signal pollIntervalMs maxWaitMs startedAt
              (Z.to_nat maxAttempts) pollIntervalMs ;;
  match looped with
  | Some transcript => ret transcript
  | None => afterLoop documentId signal
  end.

End Ocr.

(* ===================================================================== *)
(** * aiAgent.ts *)
(* ===================================================================== *)

Module Agent.

(** A prompt bundle.  The wording of the two prompts plays no part in the
    control flow; the bundle records what the templates embed: the essay
    text the user prompt quotes, or the attached image. *)
Record PromptBundle := mkBundle {
  essayText : option string;
  attachedImage : option FileData
}.

Record Options := mkOptions {
  skipOcr : bool;
  signal : option AbortSignal
}.

(** [FileReader.readAsDataURL], the data URL split into mime type and
    payload.  The read takes one unit of logical time and is not wired to
    the signal; a failed read rejects with the reader's [ProgressEvent],
    which has neither name nor message. *)
Definition fileToBase64 (f : File) : M FileData :=
  emit (EvFileRead f) ;;;
  (fun w s =>
     match readFile w f with
     | Resolved d => (Ok d, tick s)
     | Rejected e => (Throw e, tick s)
     end).

Definition buildPromptBundle (essay : EssayData) (config : AgentConfig)
    (providedText : string) : M PromptBundle :=
  let baseText :=
    JS.trim (JS.orS providedText (JS.orStr (rawText essay) "")) in
  if JS.truthyStr baseText then ret (mkBundle (Some baseText) None)
  else
    match file essay with
    | None => throw (newError "No file provided for image submission")
    | Some f =>
        fileData <- fileToBase64 f ;;
        ret (mkBundle None (Some fileData))
    end.

Definition missingKey (providerName : string) : JsError :=
  newError (providerName ++ " API key is missing").

Definition unsupportedFormat (providerName : string) : JsError :=
  newError (providerName ++ " returned unsupported content format").

(** [content.find((part) => part.type === "text")?.text]. *)
Definition textPartOf (parts : list (string * option string))
    : option string :=
  match find (fun part => String.eqb (fst part) "text") parts with
  | Some part => snd part
  | None => None
  end.

Definition runOpenAIStyleModel (bundle : PromptBundle) (modelId : string)
    (apiKey : option string) (baseUrl providerName : string)
    (signal : option AbortSignal) : M string :=
  if negb (JS.truthy apiKey) then throw (missingKey providerName)
  else
    aborted <- signalAborted signal ;;
    if aborted then throw cancelledError
    else
      emit (EvModelRequest (baseUrl ++ "/chat/completions")) ;;;
      response <- fetch signal modelResponse ;;
      data <- json signal (mr_body response) ;;
      if negb (mr_ok response) then
        throw (newError
                 (JS.orStr (JS.orOpt (mb_errorMessage data) (mb_message data))
                    (providerName ++ " request failed")))
      else
        match mb_content data with
        | ContentFalsy => throw (newError ("No response from " ++ providerName))
        | ContentString content =>
            if JS.truthyStr content then ret content
            else throw (newError ("No response from " ++ providerName))
        | ContentParts parts =>
            match textPartOf parts with
            | Some textPart =>
                if JS.truthyStr textPart then ret textPart
                else throw (unsupportedFormat providerName)
            | None => throw (unsupportedFormat providerName)
            end
        | ContentOther => throw (unsupportedFormat providerName)
        end.

(** [baseUrl.replace(/\/$/, "")]. *)
Fixpoint stripTrailingSlash (s : string) : string :=
  match s with
  | EmptyString => EmptyString
  | String c EmptyString => if Ascii.eqb c "/" then EmptyString else s
  | String c r => String c (stripTrailingSlash r)
  end.

Definition runGeminiModel (bundle : PromptBundle) (modelId : string)
    (apiKey : option string) (baseUrl providerName : string)
    (signal : option AbortSignal) : M string :=
  if negb (JS.truthy apiKey) then throw (missingKey providerName)
  else
    aborted <- signalAborted signal ;;
    if aborted then throw cancelledError
    else
      emit (EvModelRequest
              (stripTrailingSlash baseUrl ++ "/models/" ++ modelId
                 ++ ":generateContent?key=" ++ JS.orStr apiKey "")) ;;;
      response <- fetch signal modelResponse ;;
      data <- json signal (mr_body response) ;;
      if negb (mr_ok response) then
        throw (newError
                 (JS.orStr (JS.orOpt (mb_errorMessage data) (mb_message data))
                    (providerName ++ " request failed")))
      else
        match mb_candidateParts data with
        | Some candidateParts =>
            match find JS.truthy candidateParts with
            | Some (Some textPart) => ret textPart
            | _ => throw (unsupportedFormat providerName)
            end
        | None => throw (unsupportedFormat providerName)
        end.

(** The [switch] over the provider; its [default] arm (OpenAI again) is
    for values outside the [AIProvider] union. *)
Definition routeModel (bundle : PromptBundle) (config : AgentConfig)
    (signal : option AbortSignal) : M string :=
  let provider := provider (modelSettings config) in
  let model := model (modelSettings config) in
  aborted <- signalAborted signal ;;
  if aborted then throw cancelledError
  else
    match provider with
    | openai =>
        apiKey <- ask OPENAI_API_KEY ;;
        baseUrl <- ask OPENAI_BASE_URL ;;
        runOpenAIStyleModel bundle model apiKey baseUrl "OpenAI" signal
    | gemini =>
        apiKey <- ask GEMINI_API_KEY ;;
        baseUrl <- ask GEMINI_BASE_URL ;;
        runGeminiModel bundle (JS.orS model "gemini-1.5-flash") apiKey
          baseUrl "Gemini" signal
    | deepseek =>
        apiKey <- ask DEEPSEEK_API_KEY ;;
        baseUrl <- ask DEEPSEEK_BASE_URL ;;
        runOpenAIStyleModel bundle (JS.orS model "deepseek-chat") apiKey
          baseUrl "DeepSeek" signal
    | openrouter =>
        apiKey <- ask OPENROUTER_API_KEY ;;
        baseUrl <- ask OPENROUTER_BASE_URL ;;
        runOpenAIStyleModel bundle model apiKey baseUrl "OpenRouter" signal
    end.

(** [onProgress?.(update)]. *)
Definition setProgress (ocrText : option string) (step : ProcessingStep)
    (message : string) : M unit :=
  emit (EvProgress (mkProgress ocrText step message)).

(** The initial value of [textForModel]:
    [essay.rawText || essay.ocrText || ""]. *)
Definition initialText (essay : EssayData) : string :=
  JS.orStr (rawText essay) (JS.orS (ocrText essay) "").

(** First half of the [try] block, up to the end of the OCR branch; its
    value is [textForModel] as the second half finds it. *)
Definition ocrPhase (essay : EssayData) (options : Options)
    (textForModel : string) : M string :=
  aborted <- signalAborted (signal options) ;;
  if aborted then throw cancelledError
  else
    match submissionType essay, file essay, skipOcr options with
    | image, Some f, false =>
        setProgress None ocr "正在执行手写OCR..." ;;;
        tryCatch
          (transcript <- Ocr.transcribeHandwriting f
                           (Ocr.mkOptions None None None (signal options)) ;;
           setProgress (Some transcript) ocr_complete "OCR完成，准备批改" ;;;
           ret transcript)
          (fun ocrError =>
             setProgress None ocr "OCR失败，继续尝试直接批改" ;;;
             ret (JS.orS textForModel ""))
    | _, _, _ => ret textForModel
    end.

(** The object returned on success. *)
Definition completed (essay : EssayData) (textForModel localeDate : string)
    (result : GradingReply) : EssayData :=
  with_progressMessage (Some "批改完成")
    (with_progressStep (Some done)
      (with_gradingResult (r_gradingResult result)
        (with_ocrText
           (JS.orStr (r_ocrText result)
              (JS.orS textForModel (JS.orStr (rawText essay) "")))
          (with_date
             (Some (JS.orStr (JS.orOpt (r_date result) (date essay))
                      localeDate))
            (with_studentName
               (Some (JS.orStr
                        (JS.orOpt (r_studentName result) (studentName essay))
                        "Unknown Student"))
              (with_status COMPLETED essay)))))).

(** Second half of the [try] block: grading. *)
Definition gradePhase (essay : EssayData) (config : AgentConfig)
    (options : Options) (textForModel : string) : M EssayData :=
  (if skipOcr options
   then setProgress None grading "AI批改重试中..."
   else setProgress None grading "AI批改中...") ;;;
  aborted <- signalAborted (signal options) ;;
  if aborted then throw cancelledError
  else
    promptBundle <- buildPromptBundle essay config textForModel ;;
    jsonText <- routeModel promptBundle config (signal options) ;;
    parsed <- ask (fun w => parseReply w jsonText) ;;
    match parsed with
    | ReplySyntaxError => throw syntaxError
    | ReplyNull =>
        setProgress None done "批改完成" ;;;
        throw typeError
    | ReplyObject result =>
        setProgress None done "批改完成" ;;;
        today <- ask localeDate ;;
        ret (completed essay textForModel today result)
    end.

(** The [cancelled] test of the [catch] block. *)
Definition isCancelled (err : JsError) : bool :=
  match errMessage err with
  | Some message => JS.includes (JS.toLowerCase message) "cancelled"
  | None => false
  end
  || String.eqb (errName err) "AbortError".

Definition CANCELLED_MESSAGE : string := "用户已取消批改".

(** The object returned by the [catch] block; [textForModel] is the
    variable as the failing statement left it. *)
Definition failed (essay : EssayData) (textForModel : string)
    (err : JsError) : EssayData :=
  let isCancel := isCancelled err in
  with_errorMessage
    (Some (if isCancel then CANCELLED_MESSAGE
           else JS.orStr (errMessage err) "Processing failed"))
    (with_progressMessage
       (if isCancel then Some CANCELLED_MESSAGE else progressMessage essay)
      (with_progressStep (Some (if isCancel then cancelled else error))
        (with_ocrText
           (JS.orS textForModel
              (JS.orS (ocrText essay) (JS.orStr (rawText essay) "")))
          (with_status (if isCancel then CANCELLED else ERROR) essay)))).

Definition processEssayAgent (essay : EssayData) (config : AgentConfig)
    (options : Options) : M EssayData :=
  fun w s =>
    let textForModel := initialText essay in
    match ocrPhase essay options textForModel w s with
    | (Throw err, s1) => (Ok (failed essay textForModel err), s1)
    | (Ok textForModel', s1) =>
        match gradePhase essay config options textForModel' w s1 with
        | (Ok graded, s2) => (Ok graded, s2)
        | (Throw err, s2) => (Ok (failed essay textForModel' err), s2)
        end
    end.

End Agent.

(* ===================================================================== *)
(** * App.tsx: the orchestrator's retry path *)
(* ===================================================================== *)

Module App.

Inductive Tab := tab_list | tab_analytics.

(** The component state the retry path touches.  [abortControllers] is
    the [Record<string, AbortController>] registry; the newest
    registration for an id comes first and shadows older ones. *)
Record State := mkState {
  config : AgentConfig;
  essays : list EssayData;
  abortControllers : list (string * AbortSignal);
  isProcessing : bool;
  activeTab : Tab
}.

Definition setEssays (f : list EssayData -> list EssayData) (app : State)
    : State :=
  mkState (config app) (f (essays app)) (abortControllers app)
    (isProcessing app) (activeTab app).

Definition setControllers
    (f : list (string * AbortSignal) -> list (string * AbortSignal))
    (app : State) : State :=
  mkState (config app) (essays app) (f (abortControllers app))
    (isProcessing app) (activeTab app).

Definition setIsProcessing (b : bool) (app : State) : State :=
  mkState (config app) (essays app) (abortControllers app) b
    (activeTab app).

Definition setActiveTab (t : Tab) (app : State) : State :=
  mkState (config app) (essays app) (abortControllers app)
    (isProcessing app) t.

(** The optional keys of an essay object. *)
Inductive Key :=
| k_file | k_imagePreview | k_rawText | k_progressStep | k_progressMessage
| k_studentName | k_date | k_topic | k_addedAt | k_batchId | k_ocrStatus
| k_gradingStatus | k_sourceFileName | k_sourcePath | k_gradingResult
| k_errorMessage.

Scheme Equality for Key.

(** [{ ...e, ...payload }] for a payload that is a whole essay object.
    Every own key of the payload overrides, also one whose value is
    [undefined].  The payload has its required keys; it has the optional
    keys of [written], those the object literal that built it writes
    (whatever their value); and it has an optional key it took over from
    the essay it spreads when it holds a value under it. *)
Definition spread (written : list Key) (e payload : EssayData)
    : EssayData :=
  let pick {A : Type} (k : Key) (new old : option A) : option A :=
    match new with
    | Some _ => new
    | None => if existsb (Key_beq k) written then None else old
    end in
  {| id := id payload;
     submissionType := submissionType payload;
     file := pick k_file (file payload) (file e);
     imagePreview := pick k_imagePreview (imagePreview payload)
                       (imagePreview e);
     rawText := pick k_rawText (rawText payload) (rawText e);
     ocrText := ocrText payload;
     status := status payload;
     progressStep := pick k_progressStep (progressStep payload)
                       (progressStep e);
     progressMessage := pick k_progressMessage (progressMessage payload)
                          (progressMessage e);
     studentName := pick k_studentName (studentName payload) (studentName e);
     date := pick k_date (date payload) (date e);
     topic := pick k_topic (topic payload) (topic e);
     addedAt := pick k_addedAt (addedAt payload) (addedAt e);
     batchId := pick k_batchId (batchId payload) (batchId e);
     ocrStatus := pick k_ocrStatus (ocrStatus payload) (ocrStatus e);
     gradingStatus := pick k_gradingStatus (gradingStatus payload)
                        (gradingStatus e);
     sourceFileName := pick k_sourceFileName (sourceFileName payload)
                         (sourceFileName e);
     sourcePath := pick k_sourcePath (sourcePath payload) (sourcePath e);
     gradingResult := pick k_gradingResult (gradingResult payload)
                        (gradingResult e);
     errorMessage := pick k_errorMessage (errorMessage payload)
                       (errorMessage e) |}.

(** The optional keys the record of a finished run holds whatever their
    value.  The object literal of the agent's [try] block, the one with
    status COMPLETED, writes [studentName], [date], [gradingResult],
    [progressStep] and [progressMessage]; that of its [catch] block writes
    [progressStep], [progressMessage] and [errorMessage]. *)
Definition recordKeys (record : EssayData) : list Key :=
  if ProcessingStatus_beq (status record) COMPLETED
  then [k_studentName; k_date; k_gradingResult; k_progressStep;
        k_progressMessage]
  else [k_progressStep; k_progressMessage; k_errorMessage].

(** The optional keys the object literals of the two steps write. *)
Definition gradingStepKeys : list Key :=
  [k_gradingStatus; k_ocrStatus; k_progressStep; k_progressMessage].

Definition ocrStepKeys : list Key :=
  [k_ocrStatus; k_progressStep; k_progressMessage].

(** [updateEssay(id, payload)], the payload given as the overrides it
    applies. *)
Definition updateEssay (essayId : string)
    (payload : EssayData -> EssayData) (app : State) : State :=
  setEssays
    (map (fun e => if String.eqb (id e) essayId then payload e else e))
    app.

Definition cleanupController (essayId : string) (app : State) : State :=
  setControllers
    (filter (fun entry => negb (String.eqb (fst entry) essayId)))
    app.

(** [registerController(id)]: a new controller; the world decides when
    the user aborts it. *)
Definition registerController (essayId : string) (w : World) (st : St)
    (app : State) : AbortSignal * State :=
  let controller := mkSignal (userAborts w essayId (clock st)) in
  (controller,
   setControllers
     (fun registry =>
        (essayId, controller)
          :: filter (fun entry => negb (String.eqb (fst entry) essayId))
               registry)
     app).

Definition providerId (p : AIProvider) : string :=
  match p with
  | openai => "openai"
  | openrouter => "openrouter"
  | gemini => "gemini"
  | deepseek => "deepseek"
  end.

(** The [onProgress] callback [runGradingStep] passes down. *)
Definition onProgress (essayId : string) (update : ProgressUpdate)
    (app : State) : State :=
  updateEssay essayId
    (fun e =>
       with_gradingStatus
         (Some (if ProcessingStep_beq (pu_progressStep update) done
                then step_done else step_processing))
         (with_progressMessage (Some (pu_progressMessage update))
           (with_progressStep (Some (pu_progressStep update))
             (match pu_ocrText update with
              | Some t => with_ocrText t e
              | None => e
              end))))
    app.

(** The callback applied to each progress report of a finished call, in
    order. *)
Definition replayProgress (essayId : string) (events : list Event)
    (app : State) : State :=
  fold_left
    (fun acc ev =>
       match ev with
       | EvProgress update => onProgress essayId update acc
       | _ => acc
       end)
    events app.

Definition runGradingStep (essay : EssayData) (w : World) (st : St)
    (app : State) : Res EssayData * St * State :=
  let (controller, app1) := registerController (id essay) w st app in
  let app2 :=
    updateEssay (id essay)
      (fun e =>
         with_progressMessage
           (Some ("AI批改中（"
                    ++ providerId (provider (modelSettings (config app)))
                    ++ ":" ++ model (modelSettings (config app)) ++ "）"))
           (with_progressStep (Some grading)
             (with_gradingStatus (Some step_processing)
               (with_status PROCESSING e))))
      app1 in
  let sent :=
    with_ocrText (JS.orS (ocrText essay) (JS.orStr (rawText essay) ""))
      essay in
  match Agent.processEssayAgent sent (config app)
          (Agent.mkOptions true (Some controller)) w st with
  | (Ok result, st1) =>
      let app3 := replayProgress (id essay) (newEvents st st1) app2 in
      let updated :=
        with_progressMessage (Some "批改完成")
          (with_progressStep (Some done)
            (with_ocrStatus
               (if JS.truthyStr (ocrText result)
                then Some (JS.orDefault (ocrStatus essay) step_done)
                else ocrStatus essay)
              (with_gradingStatus (Some step_done)
                (with_status COMPLETED
                   (spread (recordKeys result) essay result))))) in
      (Ok updated, st1,
       cleanupController (id essay)
         (updateEssay (id essay)
            (fun e =>
               spread (gradingStepKeys ++ recordKeys result) e updated)
            app3))
  | (Throw err, st1) =>
      let app3 := replayProgress (id essay) (newEvents st st1) app2 in
      let isCancel := Agent.isCancelled err in
      (Throw err, st1,
       cleanupController (id essay)
         (updateEssay (id essay)
            (fun e =>
               with_errorMessage (errMessage err)
                 (with_progressMessage
                    (Some (if isCancel then "用户已取消批改"
                           else JS.orStr (errMessage err) "AI批改失败"))
                   (with_progressStep
                      (Some (if isCancel then cancelled else error))
                     (with_gradingStatus
                        (Some (if isCancel then step_skipped
                               else step_error))
                       (with_status
                          (if isCancel then CANCELLED else ERROR) e)))))
            app3))
  end.

Definition handleRetry (essayId : string) (w : World) (st : St)
    (app : State) : St * State :=
  match find (fun e => String.eqb (id e) essayId) (essays app) with
  | None => (st, app)
  | Some target =>
      let app1 := setActiveTab tab_list (setIsProcessing true app) in
      match runGradingStep target w st app1 with
      | (_, st1, app2) => (st1, setIsProcessing false app2)
      end
  end.

End App.

(* ===================================================================== *)
(** * Properties of runs *)
(* ===================================================================== *)

(** A computation honours a signal: begun while the signal is not aborted,
    it can end at a time when the signal is aborted only by throwing an
    error that the agent's [catch] block recognises as a cancellation. *)
Definition Honours (signal : option AbortSignal) {A : Type} (m : M A)
    : Prop :=
  forall w s r s',
    abortedAt signal (clock s) = false ->
    m w s = (r, s') ->
    abortedAt signal (clock s') = true ->
    exists e, r = Throw e /\ Agent.isCancelled e = true.

(** A computation that takes no logical time. *)
Definition Instant {A : Type} (m : M A) : Prop :=
  forall w s, clock (snd (m w s)) = clock s.

(* ===================================================================== *)
(** * Concrete essays, browsers and worlds used as test inputs *)
(* ===================================================================== *)

Module PersistenceExamples.
Import Persistence.

(** A stored image essay caught in the middle of OCR, before any text. *)
Definition interruptedScan : PersistableEssay :=
  {| s_id := "e1"; s_submissionType := image; s_imagePreview := None;
     s_rawText := None; s_ocrText := Some "";
     s_status := Some PROCESSING; s_progressStep := Some ocr;
     s_progressMessage := Some "正在执行手写OCR...";
     s_studentName := None; s_date := None; s_topic := None;
     s_addedAt := Some "2024-05-01T08:00:00.000Z"; s_batchId := None;
     s_ocrStatus := Some step_processing;
     s_gradingStatus := Some step_idle;
     s_sourceFileName := Some "scan.jpg"; s_sourcePath := None;
     s_gradingResult := None; s_errorMessage := None |}.

(** A stored typed essay caught in the middle of grading. *)
Definition interruptedTyped : PersistableEssay :=
  {| s_id := "e2"; s_submissionType := text; s_imagePreview := None;
     s_rawText := Some "My summer holiday"; s_ocrText := Some "";
     s_status := Some PROCESSING; s_progressStep := Some grading;
     s_progressMessage := Some "AI批改中...";
     s_studentName := Some "Li Lei"; s_date := None; s_topic := None;
     s_addedAt := None; s_batchId := None;
     s_ocrStatus := Some step_skipped;
     s_gradingStatus := Some step_processing;
     s_sourceFileName := None; s_sourcePath := None;
     s_gradingResult := None; s_errorMessage := None |}.

(** A browser whose storage holds the given essays under the key. *)
Definition browserWith (stored : list PersistableEssay) : Browser :=
  {| hasWindow := true;
     getItem := fun key =>
       if String.eqb key STORAGE_KEY then ReadValue "{...}" else ReadNull;
     JSON_parse := fun raw =>
       if String.eqb raw "{...}"
       then Some (ParsedValue (Some "2024-05-02T09:30:00.000Z")
                    (EssaysArray (map Some stored)))
       else None;
     nowISO := "2024-05-03T00:00:00.000Z" |}.

(** A browser whose stored entry is not JSON. *)
Definition browserMalformed : Browser :=
  {| hasWindow := true;
     getItem := fun _ => ReadValue "{essays:";
     JSON_parse := fun _ => None;
     nowISO := "2024-05-03T00:00:00.000Z" |}.

End PersistenceExamples.

Module OcrExamples.

Definition scan : File := mkFile "essay.jpg" "image/jpeg".

Definition page (n : Z) (t : string) : option Page :=
  Some (mkPage (Some n) (Some t)).

(** Status responses of the vendor. *)
Definition processing : Outcome StatusResponse :=
  Resolved (mkStatusResponse 202 None
              (Some (mkStatusBody None ResultsFalsy None None))).

Definition processed (pages : list (option Page)) : Outcome StatusResponse :=
  Resolved (mkStatusResponse 200 None
              (Some (mkStatusBody (Some "processed") (ResultsArray pages)
                       None None))).

Definition rateLimited (retryAfter : option string)
    : Outcome StatusResponse :=
  Resolved (mkStatusResponse 429 retryAfter
              (Some (mkStatusBody None ResultsFalsy
                       (Some "Too Many Attempts.") None))).

(** In a run that starts at time 0 the upload takes two units (request,
    body) and every poll three (request, body, wait): poll number [n],
    counted from 0, is issued at time [2 + 3 n]. *)
Definition pollNumber (t : nat) : nat := (t - 2) / 3.

(** A world with all keys configured, a clock that advances one second
    per unit of logical time, an upload that yields document "doc-42" and
    the given sequence of poll answers. *)
Definition worldWith (polls : nat -> Outcome StatusResponse) : World :=
  {| HANDWRITING_OCR_API_KEY := Some "ocr-key";
     OPENAI_API_KEY := Some "sk-test";
     OPENAI_BASE_URL := "https://api.openai.com/v1";
     OPENROUTER_API_KEY := Some "or-test";
     OPENROUTER_BASE_URL := "https://openrouter.ai/api/v1";
     GEMINI_API_KEY := Some "g-test";
     GEMINI_BASE_URL := "https://generativelanguage.googleapis.com/v1beta";
     DEEPSEEK_API_KEY := Some "ds-test";
     DEEPSEEK_BASE_URL := "https://api.deepseek.com/v1";
     dateNow := fun t => 1000 * Z.of_nat t;
     localeDate := "5/3/2024";
     parseReply := fun _ => ReplySyntaxError;
     readFile := fun _ => Resolved (mkFileData "AAAA" "image/jpeg");
     uploadResponse := fun _ =>
       Resolved (mkUploadResponse true
                   (Some (mkUploadBody (Some "doc-42") None None)));
     statusResponse := fun t => polls (pollNumber t);
     modelResponse := fun _ =>
       Rejected (mkError "TypeError" (Some "Failed to fetch"));
     abortsAfter := fun _ _ => None |}.

Definition start : St := mkSt 0 [].

Definition defaults : Ocr.Options := Ocr.mkOptions None None None None.

(** Two polls in progress, then both pages. *)
Definition helloWorld : World :=
  worldWith (fun n =>
    if Nat.ltb n 2 then processing
    else processed [page 1 "Hello"; page 2 "World"]).

(** The document is processed but holds no text. *)
Definition blankDocument : World :=
  worldWith (fun _ => processed [page 1 ""]).


(** A rate limit asking for 60 seconds, then two polls in progress, then
    the transcript. *)
Definition longRetryAfter : World :=
  worldWith (fun n =>
    if Nat.eqb n 0 then rateLimited (Some "60")
    else if Nat.ltb n 3 then processing
    else processed [page 1 "Dear teacher"]).


(** A rate limit asking for 5 seconds, then the transcript. *)
Definition retryAfterFive : World :=
  worldWith (fun n =>
    if Nat.eqb n 0 then rateLimited (Some "5")
    else processed [page 1 "Dear teacher"]).

(** The document is still in progress at every poll within the caps and
    is found processed by the request made after the loop. *)
Definition processedAfterCap (cap : nat) : World :=
  worldWith (fun n =>
    if Nat.ltb n cap then processing
    else processed [page 1 "Finished late"]).

(** The document never leaves processing. *)
Definition neverProcessed : World := worldWith (fun _ => processing).

(** The waits of a trace, in order. *)
Definition delaysOf (events : list Event) : list JS.number :=
  flat_map (fun ev => match ev with EvDelay ms => [ms] | _ => [] end)
    events.

End OcrExamples.

Module TypesExamples.

(** An essay all of whose properties are set, each to a value of its
    own. *)
Definition fullEssay : EssayData :=
  mkEssay "id" image (Some (mkFile "scan.jpg" "image/jpeg")) (Some "preview")
    (Some "raw") "ocr" PROCESSING (Some grading) (Some "message")
    (Some "name") (Some "date") (Some "topic") (Some "added") (Some "batch")
    (Some step_done) (Some step_error) (Some "file") (Some "path")
    (Some (mkGrading 1 None "summary" [] [] [])) (Some "failure").

End TypesExamples.

Module AgentExamples.
Import OcrExamples.

(** A typed essay whose displayed text was edited after a first grading:
    [rawText] and [ocrText] differ. *)
Definition editedEssay : EssayData :=
  {| id := "e7"; submissionType := text; file := None; imagePreview := None;
     rawText := Some "I goes to school.";
     ocrText := "I go to school.";
     status := COMPLETED; progressStep := Some done;
     progressMessage := Some "批改完成";
     studentName := Some "Li Lei"; date := None; topic := None;
     addedAt := None; batchId := None;
     ocrStatus := Some step_skipped; gradingStatus := Some step_done;
     sourceFileName := None; sourcePath := None;
     gradingResult := None; errorMessage := None |}.

(** A scanned essay whose OCR text was captured by an earlier OCR step. *)
Definition scannedEssay : EssayData :=
  {| id := "e8"; submissionType := image; file := Some scan;
     imagePreview := None; rawText := None;
     ocrText := "Dear teacher";
     status := ERROR; progressStep := Some error;
     progressMessage := Some "AI批改失败";
     studentName := None; date := None; topic := None;
     addedAt := None; batchId := None;
     ocrStatus := Some step_done; gradingStatus := Some step_error;
     sourceFileName := Some "essay.jpg"; sourcePath := None;
     gradingResult := None; errorMessage := Some "Failed to fetch" |}.

(** A scanned essay before any OCR. *)
Definition freshScan : EssayData :=
  {| id := "e9"; submissionType := image; file := Some scan;
     imagePreview := None; rawText := None; ocrText := "";
     status := PENDING; progressStep := Some queued;
     progressMessage := Some "Waiting in queue";
     studentName := None; date := None; topic := None;
     addedAt := None; batchId := None;
     ocrStatus := Some step_idle; gradingStatus := Some step_idle;
     sourceFileName := Some "essay.jpg"; sourcePath := None;
     gradingResult := None; errorMessage := None |}.

Definition openaiConfig : AgentConfig :=
  mkConfig "初中 (Middle School)" 20 ["Grammar"; "Vocabulary"]
    (mkModel openai "gpt-4o-mini").

Definition gradingReply : GradingReply :=
  mkReply (Some "Li Lei") (Some "2024-05-01") None
    (Some (mkGrading 17 None "整体不错" [] ["Clear ideas"] ["Verb forms"])).

(** A world in which the OCR vendor answers "processed" at once, the model
    answers with a JSON text that parses to [gradingReply], and the image
    can or cannot be read. *)
Definition agentWorld (openaiKey : option string) (fileReadable : bool)
    : World :=
  {| HANDWRITING_OCR_API_KEY := Some "ocr-key";
     OPENAI_API_KEY := openaiKey;
     OPENAI_BASE_URL := "https://api.openai.com/v1";
     OPENROUTER_API_KEY := Some "or-test";
     OPENROUTER_BASE_URL := "https://openrouter.ai/api/v1";
     GEMINI_API_KEY := Some "g-test";
     GEMINI_BASE_URL := "https://generativelanguage.googleapis.com/v1beta";
     DEEPSEEK_API_KEY := Some "ds-test";
     DEEPSEEK_BASE_URL := "https://api.deepseek.com/v1";
     dateNow := fun t => 1000 * Z.of_nat t;
     localeDate := "5/3/2024";
     parseReply := fun jsonText =>
       if String.eqb jsonText "{reply}" then ReplyObject gradingReply
       else ReplySyntaxError;
     readFile := fun _ =>
       if fileReadable then Resolved (mkFileData "AAAA" "image/jpeg")
       else Rejected progressEvent;
     uploadResponse := fun _ =>
       Resolved (mkUploadResponse true
                   (Some (mkUploadBody (Some "doc-42") None None)));
     statusResponse := fun _ => processed [page 1 "Dear teacher, new scan"];
     modelResponse := fun _ =>
       Resolved (mkModelResponse true
                   (Some (mkModelBody None None (ContentString "{reply}")
                            None)));
     abortsAfter := fun _ _ => None |}.

Definition noSignal : option AbortSignal := None.
Definition neverAborted : option AbortSignal := Some (mkSignal None).
Definition abortedFromTime (t : nat) : option AbortSignal :=
  Some (mkSignal (Some t)).

Definition aBundle : Agent.PromptBundle :=
  Agent.mkBundle (Some "I goes to school.") None.

End AgentExamples.

Module AppExamples.
Import OcrExamples AgentExamples.

(** The application holding the three example essays, nothing running. *)
Definition idleApp : App.State :=
  App.mkState openaiConfig [editedEssay; scannedEssay; freshScan] []
    false App.tab_analytics.

End AppExamples.


(* ===================================================================== *)
(** * persistence.ts: saving *)
(* ===================================================================== *)

Module PersistenceSave.
Import Persistence.

(** [localStorage]: the string kept under each key. *)
Definition Storage : Type := string -> option string.

Definition setItem (key value : string) (store : Storage) : Storage :=
  fun k => if String.eqb k key then Some value else store k.

Definition removeItem (key : string) (store : Storage) : Storage :=
  fun k => if String.eqb k key then None else store k.

Record PersistedPayload := mkPayload {
  p_version : Z;
  p_savedAt : string;
  p_essays : list PersistableEssay
}.

(** [({ file, ...rest }) => rest]: every key but [file]. *)
Definition stripTransient (e : EssayData) : PersistableEssay :=
  {| s_id := id e;
     s_submissionType := submissionType e;
     s_imagePreview := imagePreview e;
     s_rawText := rawText e;
     s_ocrText := Some (ocrText e);
     s_status := Some (status e);
     s_progressStep := progressStep e;
     s_progressMessage := progressMessage e;
     s_studentName := studentName e;
     s_date := date e;
     s_topic := topic e;
     s_addedAt := addedAt e;
     s_batchId := batchId e;
     s_ocrStatus := ocrStatus e;
     s_gradingStatus := gradingStatus e;
     s_sourceFileName := sourceFileName e;
     s_sourcePath := sourcePath e;
     s_gradingResult := gradingResult e;
     s_errorMessage := errorMessage e |}.

Definition stripTransientFields (essays : list EssayData)
    : list PersistableEssay :=
  map stripTransient essays.

(** The host as the saver sees it: whether there is a [window], the clock,
    [JSON.stringify], and whether [localStorage.setItem] throws for a key
    and a value (a full quota). *)
Record Host := mkHost {
  host_hasWindow : bool;
  host_nowISO : string;
  JSON_stringify : PersistedPayload -> string;
  setItemThrows : string -> string -> bool
}.

Definition persistEssays (h : Host) (essays : list EssayData)
    (store : Storage) : Storage :=
  if negb (host_hasWindow h) then store
  else
    match essays with
    | [] => removeItem STORAGE_KEY store
    | _ :: _ =>
        let payload :=
          mkPayload 1 (host_nowISO h) (stripTransientFields essays) in
        let raw := JSON_stringify h payload in
        if setItemThrows h STORAGE_KEY raw then store
        else setItem STORAGE_KEY raw store
    end.

(** The browser a later session loads from: the storage as it was left. *)
Definition browserOn (store : Storage) (parse : string -> option Parsed)
    (nowISO : string) : Browser :=
  mkBrowser true
    (fun key =>
       match store key with
       | Some raw => ReadValue raw
       | None => ReadNull
       end)
    parse nowISO.

(** [JSON.parse] undoes [JSON.stringify] on payloads; the text of a payload
    is never empty. *)
Definition JsonRoundTrip (stringify : PersistedPayload -> string)
    (parse : string -> option Parsed) : Prop :=
  forall payload,
    JS.truthyStr (stringify payload) = true /\
    parse (stringify payload)
    = Some (ParsedValue (Some (p_savedAt payload))
              (EssaysArray (map Some (p_essays payload)))).

(** [{ ...e, file: undefined }]. *)
Definition withoutFile (e : EssayData) : EssayData :=
  mkEssay (id e) (submissionType e) None (imagePreview e) (rawText e)
    (ocrText e) (status e) (progressStep e) (progressMessage e)
    (studentName e) (date e) (topic e) (addedAt e) (batchId e) (ocrStatus e)
    (gradingStatus e) (sourceFileName e) (sourcePath e) (gradingResult e)
    (errorMessage e).

Definition isSome {A : Type} (o : option A) : bool :=
  match o with Some _ => true | None => false end.

(** The essay carries the marks [markMissingSource] leaves. *)
Definition markedMissing (e : EssayData) : bool :=
  ProcessingStatus_beq (status e) ERROR
  && match ocrStatus e with Some step_error => true | _ => false end
  && match gradingStatus e with Some step_skipped => true | _ => false end
  && match progressStep e with Some error => true | _ => false end
  && match progressMessage e with
     | Some m => String.eqb m REUPLOAD_MESSAGE
     | None => false
     end
  && JS.truthy (errorMessage e).

(** A settled essay: it is not being processed, it is no image without any
    text (unless it is already marked so), and it has the display keys every
    handler of the application sets. *)
Definition settled (e : EssayData) : bool :=
  negb (ProcessingStatus_beq (status e) PROCESSING)
  && (negb (SubmissionType_beq (submissionType e) image && lacksText e)
      || markedMissing e)
  && isSome (progressStep e)
  && JS.truthy (progressMessage e)
  && isSome (ocrStatus e)
  && isSome (gradingStatus e).

(** An essay a reload leaves as it is: settled, and with the time it was
    added. *)
Definition atRest (e : EssayData) : bool :=
  settled e && JS.truthy (addedAt e).

(** The saved text parses back to the payload that was written. *)
Definition ParsesBack (h : Host) (parse : string -> option Parsed)
    (essays : list EssayData) : Prop :=
  let payload := mkPayload 1 (host_nowISO h) (stripTransientFields essays) in
  setItemThrows h STORAGE_KEY (JSON_stringify h payload) = false /\
  JS.truthyStr (JSON_stringify h payload) = true /\
  parse (JSON_stringify h payload)
  = Some (ParsedValue (Some (host_nowISO h))
            (EssaysArray (map Some (stripTransientFields essays)))).

End PersistenceSave.

(* ===================================================================== *)
(** * handwritingOcr.ts: the markdown copy of a transcript *)
(* ===================================================================== *)

Module Markdown.

Definition backslash : ascii := ascii_of_nat 92.

(** [value.replace(/\\/g, "/")]. *)
Fixpoint normalizeSlashes (value : string) : string :=
  match value with
  | EmptyString => EmptyString
  | String c r =>
      String (if Ascii.eqb c backslash then "/"%char else c)
        (normalizeSlashes r)
  end.

(** The class [[a-zA-Z0-9]]. *)
Definition isAlnum (c : ascii) : bool :=
  let n := nat_of_ascii c in
  (Nat.leb 97 n && Nat.leb n 122) || (Nat.leb 65 n && Nat.leb n 90)
  || (Nat.leb 48 n && Nat.leb n 57).

(** The class [[a-zA-Z0-9-_]]. *)
Definition isSafeChar (c : ascii) : bool :=
  isAlnum c || Ascii.eqb c "-" || Ascii.eqb c "_".

Definition isUnderscore (c : ascii) : bool := Ascii.eqb c "_".

Fixpoint allChars (p : ascii -> bool) (s : string) : bool :=
  match s with
  | EmptyString => true
  | String c r => p c && allChars p r
  end.

(** [value.replace(/\.[^/.]+$/, "")]: cut at the leftmost dot that is
    followed, up to the end, by one or more characters other than [/] and
    [.]. *)
Fixpoint stripExtension (s : string) : string :=
  match s with
  | EmptyString => EmptyString
  | String c r =>
      if Ascii.eqb c "."
         && JS.truthyStr r
         && allChars (fun x => negb (Ascii.eqb x "/" || Ascii.eqb x ".")) r
      then EmptyString
      else String c (stripExtension r)
  end.

(** [value.replace(/[^a-zA-Z0-9-_]+/g, "_")]: each maximal run of other
    characters becomes one underscore.  [inRun]: the character before
    belonged to such a run. *)
Fixpoint squash (inRun : bool) (s : string) : string :=
  match s with
  | EmptyString => EmptyString
  | String c r =>
      if isSafeChar c then String c (squash false r)
      else if inRun then squash true r
      else String "_" (squash true r)
  end.

(** [value.slice(0, n)]. *)
Fixpoint slice0 (n : nat) (s : string) : string :=
  match n, s with
  | S n', String c r => String c (slice0 n' r)
  | _, _ => EmptyString
  end.

(** Removing the leading, and the trailing, characters of a class:
    [replace(/^_+|_+$/g, "")] is both for the underscore. *)
Fixpoint dropStart (p : ascii -> bool) (s : string) : string :=
  match s with
  | EmptyString => EmptyString
  | String c r => if p c then dropStart p r else s
  end.

Fixpoint dropEnd (p : ascii -> bool) (s : string) : string :=
  match s with
  | EmptyString => EmptyString
  | String c r =>
      match dropEnd p r with
      | EmptyString => if p c then EmptyString else String c EmptyString
      | r' => String c r'
      end
  end.

Definition firstChar (s : string) : option ascii :=
  match s with
  | EmptyString => None
  | String c _ => Some c
  end.

Fixpoint lastChar (s : string) : option ascii :=
  match s with
  | EmptyString => None
  | String c EmptyString => Some c
  | String _ r => lastChar r
  end.

(** [sanitizeSegment]; [None] is [undefined]. *)
Definition sanitizeSegment (value : string) : option string :=
  let cleaned :=
    dropEnd isUnderscore
      (dropStart isUnderscore
         (slice0 50 (squash false (stripExtension (JS.trim value))))) in
  if JS.truthyStr cleaned then Some cleaned else None.

(** [value.replace(/[^a-zA-Z0-9]+/g, "")]. *)
Fixpoint keepAlnum (s : string) : string :=
  match s with
  | EmptyString => EmptyString
  | String c r => if isAlnum c then String c (keepAlnum r) else keepAlnum r
  end.

Definition extractImageSlug (fileName : option string) : option string :=
  match fileName with
  | None => None
  | Some name =>
      if negb (JS.truthyStr name) then None
      else
        let cleaned := keepAlnum (stripExtension name) in
        if JS.truthyStr cleaned then Some cleaned else None
  end.

Definition linkLine (imageRelativePath : string) : string :=
  "![500](" ++ normalizeSlashes imageRelativePath ++ ")".

Definition appendImageLink (payload : string)
    (imageRelativePath : option string) : string :=
  match imageRelativePath with
  | None => payload
  | Some path =>
      if negb (JS.truthyStr path) then payload
      else if JS.includes payload (linkLine path) then payload
      else JS.trimEnd payload ++ JS.LF ++ linkLine path ++ JS.LF
  end.

End Markdown.

(* ===================================================================== *)
(** * aiAgent.ts: what the router uses for each provider *)
(* ===================================================================== *)

Module Providers.

(** The display name, the key and the base URL of each arm of the
    [switch] of [routeModel]. *)
Definition providerName (p : AIProvider) : string :=
  match p with
  | openai => "OpenAI"
  | openrouter => "OpenRouter"
  | gemini => "Gemini"
  | deepseek => "DeepSeek"
  end.

Definition apiKeyOf (w : World) (p : AIProvider) : option string :=
  match p with
  | openai => OPENAI_API_KEY w
  | openrouter => OPENROUTER_API_KEY w
  | gemini => GEMINI_API_KEY w
  | deepseek => DEEPSEEK_API_KEY w
  end.

Definition baseUrlOf (w : World) (p : AIProvider) : string :=
  match p with
  | openai => OPENAI_BASE_URL w
  | openrouter => OPENROUTER_BASE_URL w
  | gemini => GEMINI_BASE_URL w
  | deepseek => DEEPSEEK_BASE_URL w
  end.

(** The URL the selected transport requests. *)
Definition requestUrl (w : World) (config : AgentConfig) : string :=
  let p := provider (modelSettings config) in
  match p with
  | gemini =>
      Agent.stripTrailingSlash (baseUrlOf w p) ++ "/models/"
        ++ JS.orS (model (modelSettings config)) "gemini-1.5-flash"
        ++ ":generateContent?key=" ++ JS.orStr (apiKeyOf w p) ""
  | _ => baseUrlOf w p ++ "/chat/completions"
  end.

End Providers.

(* ===================================================================== *)
(** * More readings of a trace *)
(* ===================================================================== *)

Module Observe.

(** The requests to a model among some events, by URL. *)
Definition modelRequestsOf (events : list Event) : list string :=
  flat_map (fun ev => match ev with EvModelRequest u => [u] | _ => [] end)
    events.

Definition isPersist (ev : Event) : bool :=
  match ev with EvPersistTranscript _ => true | _ => false end.

Definition isUpload (ev : Event) : bool :=
  match ev with EvOcrUpload _ => true | _ => false end.

Definition isFileRead (ev : Event) : bool :=
  match ev with EvFileRead _ => true | _ => false end.

(** How many of some events satisfy a test. *)
Definition countOf (P : Event -> bool) (events : list Event) : nat :=
  length (filter P events).

(** What the polling loop and the final request do: status polls, waits,
    the copy of the transcript. *)
Definition isLoopEvent (ev : Event) : bool :=
  match ev with
  | EvOcrPoll _ => true
  | EvDelay _ => true
  | EvPersistTranscript _ => true
  | _ => false
  end.



(** The run ended in a failed read of the image file: the last thing it
    did was to read a file that the host fails to read. *)
Definition endedInFailedRead (w : World) (events : list Event) : bool :=
  match rev events with
  | EvFileRead f :: _ =>
      match readFile w f with
      | Rejected _ => true
      | Resolved _ => false
      end
  | _ => false
  end.

Definition noPersist (ev : Event) : bool := negb (isPersist ev).

(** What a successful OCR call leaves at the end of the trace. *)
Definition EndsWithCopy (t : string) (events : list Event) : Prop :=
  exists before,
    events = (before ++ [EvPersistTranscript t])%list /\
    forallb noPersist before = true.

(** What a transport adds to the trace: nothing, and then it has failed, or
    its one request; when it returns a text, the text is not empty and two
    units of time have passed (the request, the body). *)
Definition OneRequest (url : string) (s : St) (r : Res string) (s' : St)
    : Prop :=
  (trace s' = trace s /\ exists e, r = Throw e) \/
  (trace s' = (trace s ++ [EvModelRequest url])%list /\
   match r with
   | Ok content => JS.truthyStr content = true /\ clock s' = S (S (clock s))
   | Throw _ => True
   end).

End Observe.

(* ===================================================================== *)
(** * App.tsx: submissions, target selection, the processing queue *)
(* ===================================================================== *)

Module Queue.
Import App PersistenceSave.

Inductive WorkflowMode := auto | ocr_only | ai_only.

(** The essay [handleUploadFiles] creates for one image; the id, the time
    stamp and the preview come from the host. *)
Definition newImageEssay (newId addedAtISO preview : string) (f : File)
    : EssayData :=
  mkEssay newId image (Some f) (Some preview) None "" PENDING
    (Some queued) (Some "Waiting in queue") None None None
    (Some addedAtISO) None (Some step_idle) (Some step_idle)
    (Some (fileName f)) None None None.

(** The essay [handleTextSubmission] creates. *)
Definition newTextEssay (newId addedAtISO name subject body : string)
    : EssayData :=
  mkEssay newId text None None (Some body) "" PENDING
    (Some queued) (Some "Waiting in queue") (Some name) None (Some subject)
    (Some addedAtISO) None (Some step_skipped) (Some step_idle)
    None None None None.

Definition handleTextSubmission (newId addedAtISO name subject body : string)
    (app : State) : State :=
  setEssays
    (fun prev =>
       (prev ++ [newTextEssay newId addedAtISO name subject body])%list)
    app.

(** [handleTextSubmit] of the upload zone, the caller of
    [handleTextSubmission]: a blank text is not submitted. *)
Definition handleTextSubmit (newId addedAtISO name subject body : string)
    (app : State) : State :=
  if negb (JS.truthyStr (JS.trim body)) then app
  else handleTextSubmission newId addedAtISO name subject body app.

(** [hasTextContent]. *)
Definition hasTextContent (essay : EssayData) : bool :=
  JS.truthyStr (JS.trim (JS.orStr (rawText essay) ""))
  || JS.truthyStr (JS.trim (ocrText essay)).

(** [s !== 'done'] on an optional sub-status. *)
Definition notDone (s : option StepStatus) : bool :=
  match s with Some step_done => false | _ => true end.

Definition needsOcr (e : EssayData) : bool :=
  SubmissionType_beq (submissionType e) image && notDone (ocrStatus e).

Definition needsAi (e : EssayData) : bool := notDone (gradingStatus e).

(** The filter of [pickTargetsForMode]. *)
Definition isTarget (mode : WorkflowMode) (e : EssayData) : bool :=
  if ProcessingStatus_beq (status e) PROCESSING then false
  else
    match mode with
    | ocr_only => needsOcr e
    | ai_only => needsAi e && hasTextContent e
    | auto => needsOcr e || needsAi e
    end.

Definition pickTargetsForMode (mode : WorkflowMode) (app : State)
    : list EssayData :=
  filter (isTarget mode) (essays app).

Definition with_batchId (v : option string) (e : EssayData) : EssayData :=
  mkEssay (id e) (submissionType e) (file e) (imagePreview e) (rawText e)
    (ocrText e) (status e) (progressStep e) (progressMessage e)
    (studentName e) (date e) (topic e) (addedAt e) v (ocrStatus e)
    (gradingStatus e) (sourceFileName e) (sourcePath e) (gradingResult e)
    (errorMessage e).

Definition markBatchTargets (ids : list string) (batch : string)
    (app : State) : State :=
  match ids with
  | [] => app
  | _ :: _ =>
      setEssays
        (map (fun e =>
                if existsb (String.eqb (id e)) ids
                then with_batchId (Some batch) e else e))
        app
  end.

Definition runOcrStep (essay : EssayData) (continueToAi : bool) (w : World)
    (st : St) (app : State) : Res EssayData * St * State :=
  match submissionType essay, file essay with
  | image, Some f =>
      let (controller, app1) := registerController (id essay) w st app in
      let app2 :=
        updateEssay (id essay)
          (fun e =>
             with_progressMessage (Some "正在执行手写OCR...")
               (with_progressStep (Some ocr)
                 (with_ocrStatus (Some step_processing)
                   (with_status PROCESSING e))))
          app1 in
      match Ocr.transcribeHandwriting f
              (Ocr.mkOptions None None None (Some controller)) w st with
      | (Ok transcript, st1) =>
          let updated :=
            with_status (if continueToAi then PROCESSING else PENDING)
              (with_progressMessage
                 (Some (if continueToAi then "OCR完成，准备AI批改"
                        else "OCR完成，等待AI"))
                (with_progressStep (Some ocr_complete)
                  (with_ocrStatus (Some step_done)
                    (with_ocrText transcript essay)))) in
          (Ok updated, st1,
           cleanupController (id essay)
             (updateEssay (id essay)
                (fun e => spread ocrStepKeys e updated) app2))
      | (Throw err, st1) =>
          let isCancel := Agent.isCancelled err in
          (Throw err, st1,
           cleanupController (id essay)
             (updateEssay (id essay)
                (fun e =>
                   with_errorMessage (errMessage err)
                     (with_progressMessage
                        (Some (if isCancel then "用户已取消批改"
                               else JS.orStr (errMessage err) "OCR失败"))
                       (with_progressStep
                          (Some (if isCancel then cancelled else error))
                         (with_ocrStatus
                            (Some (if isCancel then step_skipped
                                   else step_error))
                           (with_status
                              (if isCancel then CANCELLED else ERROR) e)))))
                app2))
      end
  | _, _ => (Ok essay, st, app)
  end.

Definition MISSING_TEXT : string := "缺少可批改的文本，请先完成OCR".

(** The update both handlers apply to an essay that has nothing to
    grade. *)
Definition markMissingText (essayId : string) (app : State) : State :=
  updateEssay essayId
    (fun e =>
       with_errorMessage (Some MISSING_TEXT)
         (with_progressMessage (Some MISSING_TEXT)
           (with_progressStep (Some error)
             (with_gradingStatus (Some step_error)
               (with_status ERROR e)))))
    app.

(** The body of the [for] loop of [handleStartProcessing] for one target;
    what a step throws is caught and logged. *)
Definition processTarget (mode : WorkflowMode) (essay : EssayData)
    (w : World) (st : St) (app : State) : St * State :=
  let ocrStep :=
    match mode with
    | ai_only => (Ok essay, st, app)
    | _ =>
        if needsOcr essay
        then runOcrStep essay
               (match mode with auto => true | _ => false end) w st app
        else (Ok essay, st, app)
    end in
  match ocrStep with
  | (Throw _, st1, app1) => (st1, app1)
  | (Ok current, st1, app1) =>
      let shouldGrade :=
        match mode with ocr_only => false | _ => needsAi essay end in
      if shouldGrade then
        if negb (hasTextContent current)
        then (st1, markMissingText (id current) app1)
        else
          match runGradingStep current w st1 app1 with
          | (_, st2, app2) => (st2, app2)
          end
      else (st1, app1)
  end.

(** The [for] loop over the targets. *)
Definition processTargets (mode : WorkflowMode) (targets : list EssayData)
    (w : World) (st : St) (app : State) : St * State :=
  fold_left
    (fun acc essay => processTarget mode essay w (fst acc) (snd acc))
    targets (st, app).

(** [handleStartProcessing]; the workflow mode is the component's state,
    the batch id comes from the host's clock and random source.  (The
    handler also collapses the input panel, a flag outside [State].) *)
Definition handleStartProcessing (mode : WorkflowMode) (batch : string)
    (w : World) (st : St) (app : State) : St * State :=
  match pickTargetsForMode mode app with
  | [] => (st, app)
  | targets =>
      let app1 := markBatchTargets (map id targets) batch app in
      let app2 := setActiveTab tab_list (setIsProcessing true app1) in
      match processTargets mode targets w st app2 with
      | (st1, app3) => (st1, setIsProcessing false app3)
      end
  end.

(** [handleStartAiForEssay]: no [catch] here, what the grading step throws
    leaves the handler. *)
Definition handleStartAiForEssay (essayId : string) (w : World) (st : St)
    (app : State) : Res unit * St * State :=
  match find (fun e => String.eqb (id e) essayId) (essays app) with
  | None => (Ok tt, st, app)
  | Some target =>
      if negb (hasTextContent target)
      then (Ok tt, st, markMissingText essayId app)
      else
        let app1 := setActiveTab tab_list (setIsProcessing true app) in
        match runGradingStep target w st app1 with
        | (Ok _, st1, app2) => (Ok tt, st1, setIsProcessing false app2)
        | (Throw err, st1, app2) =>
            (Throw err, st1, setIsProcessing false app2)
        end
  end.

(** Two essay lists that differ at most in the essays with the given ids:
    the same ids in the same order, every other essay untouched. *)
Definition OnlyChanges (ids : list string) (before after : list EssayData)
    : Prop :=
  Forall2 (fun e e' => id e' = id e /\ (~ In (id e) ids -> e' = e))
    before after.

(** What a processing step leaves alone: the configuration, the busy flag,
    the tab, and every essay but those with the given ids. *)
Definition Frame (ids : list string) (before after : State) : Prop :=
  config after = config before /\
  isProcessing after = isProcessing before /\
  activeTab after = activeTab before /\
  OnlyChanges ids (essays before) (essays after).

(** The registry without the controller of an essay. *)
Definition withoutController (essayId : string)
    (registry : list (string * AbortSignal)) : list (string * AbortSignal) :=
  filter (fun entry => negb (String.eqb (fst entry) essayId)) registry.

(** What a target may do in each mode: in "ai_only" grading, in "ocr_only"
    the OCR client's requests, waits and copy, in "auto" both. *)
Definition allowedIn (mode : WorkflowMode) (ev : Event) : bool :=
  match mode with
  | ai_only => isGradingEvent ev
  | ocr_only => isOcrEvent ev
  | auto => isOcrEvent ev || isGradingEvent ev
  end.

Definition handleDelete (essayId : string) (app : State) : State :=
  setEssays (filter (fun e => negb (String.eqb (id e) essayId))) app.

(** [handleClearAll]; [confirmClear] is the answer to [window.confirm]. *)
Definition handleClearAll (confirmClear : bool) (h : Host)
    (app : State) (store : Storage) : State * Storage :=
  match essays app with
  | [] => (app, store)
  | _ :: _ =>
      if negb confirmClear then (app, store)
      else (setEssays (fun _ => []) app, persistEssays h [] store)
  end.

End Queue.

(* ===================================================================== *)
(** * More test inputs: hosts, storages, queues *)
(* ===================================================================== *)

Module SaveExamples.
Import Persistence PersistenceSave AgentExamples.

(** A host whose [JSON.stringify] writes a fixed text and whose storage
    has room. *)
Definition roomyHost : Host :=
  mkHost true "2024-05-04T10:00:00.000Z" (fun _ => "{saved}")
    (fun _ _ => false).

(** The [JSON.parse] that reads that text back as the given payload. *)
Definition parseAs (payload : PersistedPayload) (raw : string)
    : option Parsed :=
  if String.eqb raw "{saved}"
  then Some (ParsedValue (Some (p_savedAt payload))
               (EssaysArray (map Some (p_essays payload))))
  else None.

(** The graded typed essay and the scan with OCR text, as the application
    holds them after a session: each with the time it was added. *)
Definition gradedTyped : EssayData :=
  mkEssay "e7" text None None (Some "I goes to school.") "I go to school."
    COMPLETED (Some done) (Some "批改完成") (Some "Li Lei") None None
    (Some "2024-05-01T08:00:00.000Z") None (Some step_skipped)
    (Some step_done) None None None None.

Definition failedScan : EssayData :=
  mkEssay "e8" image (Some OcrExamples.scan) None None "Dear teacher"
    ERROR (Some error) (Some "AI批改失败") None None None
    (Some "2024-05-01T08:05:00.000Z") None (Some step_done)
    (Some step_error) (Some "essay.jpg") None None (Some "Failed to fetch").

Definition sessionEssays : list EssayData := [gradedTyped; failedScan].

Definition sessionPayload : PersistedPayload :=
  mkPayload 1 "2024-05-04T10:00:00.000Z" (stripTransientFields sessionEssays).

(** A storage that holds something else under another key. *)
Definition otherStorage : Storage :=
  fun k => if String.eqb k "ocr_md_note.md" then Some "# OCR Transcript"
           else None.

End SaveExamples.

Module MoreWorlds.
Import OcrExamples AgentExamples.

(** The world with another OCR key. *)
Definition withOcrKey (key : option string) (w : World) : World :=
  mkWorld key (OPENAI_API_KEY w) (OPENAI_BASE_URL w) (OPENROUTER_API_KEY w)
    (OPENROUTER_BASE_URL w) (GEMINI_API_KEY w) (GEMINI_BASE_URL w)
    (DEEPSEEK_API_KEY w) (DEEPSEEK_BASE_URL w) (dateNow w) (localeDate w)
    (parseReply w) (readFile w) (uploadResponse w) (statusResponse w)
    (modelResponse w) (abortsAfter w).

(** The world with another answer to the upload. *)
Definition withUpload (upload : Outcome UploadResponse) (w : World) : World :=
  mkWorld (HANDWRITING_OCR_API_KEY w) (OPENAI_API_KEY w) (OPENAI_BASE_URL w)
    (OPENROUTER_API_KEY w) (OPENROUTER_BASE_URL w) (GEMINI_API_KEY w)
    (GEMINI_BASE_URL w) (DEEPSEEK_API_KEY w) (DEEPSEEK_BASE_URL w)
    (dateNow w) (localeDate w) (parseReply w) (readFile w)
    (fun _ => upload) (statusResponse w) (modelResponse w) (abortsAfter w).

(** The world with another answer of the model. *)
Definition withModel (answer : Outcome ModelResponse) (w : World) : World :=
  mkWorld (HANDWRITING_OCR_API_KEY w) (OPENAI_API_KEY w) (OPENAI_BASE_URL w)
    (OPENROUTER_API_KEY w) (OPENROUTER_BASE_URL w) (GEMINI_API_KEY w)
    (GEMINI_BASE_URL w) (DEEPSEEK_API_KEY w) (DEEPSEEK_BASE_URL w)
    (dateNow w) (localeDate w) (parseReply w) (readFile w)
    (uploadResponse w) (statusResponse w) (fun _ => answer) (abortsAfter w).

(** The world without a Gemini key. *)
Definition withoutGeminiKey (w : World) : World :=
  mkWorld (HANDWRITING_OCR_API_KEY w) (OPENAI_API_KEY w) (OPENAI_BASE_URL w)
    (OPENROUTER_API_KEY w) (OPENROUTER_BASE_URL w) None
    (GEMINI_BASE_URL w) (DEEPSEEK_API_KEY w) (DEEPSEEK_BASE_URL w)
    (dateNow w) (localeDate w) (parseReply w) (readFile w)
    (uploadResponse w) (statusResponse w) (modelResponse w) (abortsAfter w).

(** The world in which the user aborts every controller while the awaited
    operation of the given number, counted from 0 at its registration, is
    pending. *)
Definition withUserAbort (t : nat) (w : World) : World :=
  mkWorld (HANDWRITING_OCR_API_KEY w) (OPENAI_API_KEY w) (OPENAI_BASE_URL w)
    (OPENROUTER_API_KEY w) (OPENROUTER_BASE_URL w) (GEMINI_API_KEY w)
    (GEMINI_BASE_URL w) (DEEPSEEK_API_KEY w) (DEEPSEEK_BASE_URL w)
    (dateNow w) (localeDate w) (parseReply w) (readFile w)
    (uploadResponse w) (statusResponse w) (modelResponse w)
    (fun _ _ => Some t).

(** The vendor refuses the upload. *)
Definition refusedUpload : Outcome UploadResponse :=
  Resolved (mkUploadResponse false
              (Some (mkUploadBody None (Some "File too large") None))).

(** The vendor reports that the document could not be processed. *)
Definition failedDocument : World :=
  worldWith (fun _ =>
    Resolved (mkStatusResponse 200 None
                (Some (mkStatusBody (Some "failed") ResultsFalsy
                         (Some "Unreadable image") None)))).

(** The model answers with an HTTP error. *)
Definition modelOverloaded : Outcome ModelResponse :=
  Resolved (mkModelResponse false
              (Some (mkModelBody (Some "Rate limit reached") None
                       ContentFalsy None))).

Definition geminiConfig : AgentConfig :=
  mkConfig "初中 (Middle School)" 20 ["Grammar"] (mkModel gemini "").

End MoreWorlds.
(* ===================================================================== *)
(** * Facts about persistence.ts *)
(* ===================================================================== *)

Module PersistenceFacts.
Import Persistence PersistenceExamples.

Lemma browserWith_holds stored :
  Holds (browserWith stored) (Some "2024-05-02T09:30:00.000Z") stored.
Proof.
  split; [reflexivity|].
  exists "{...}". repeat split; reflexivity.
Qed.

Lemma mapRes_objects fallback stored :
  mapRes (reviveElement fallback) (map Some stored)
  = Ok (map (fun essay => reviveEssay essay (Some fallback)) stored).
Proof.
  induction stored as [|essay rest IH]; simpl.
  - reflexivity.
  - now rewrite IH.
Qed.

(** Loading a well-formed entry revives every stored essay, in order. *)
Lemma load_holds b savedAt stored :
  Holds b savedAt stored ->
  loadPersistedEssays b
  = map (fun essay =>
           reviveEssay essay (Some (JS.orStr savedAt (nowISO b))))
        stored.
Proof.
  intros [Hwin (raw & Hget & Hraw & Hparse)].
  unfold loadPersistedEssays, loadBody.
  rewrite Hwin, Hget, Hraw, Hparse. simpl.
  now rewrite mapRes_objects.
Qed.

Lemma load_nth b savedAt stored i essay :
  Holds b savedAt stored ->
  nth_error stored i = Some essay ->
  nth_error (loadPersistedEssays b) i
  = Some (reviveEssay essay (Some (JS.orStr savedAt (nowISO b)))).
Proof.
  intros H Hnth. rewrite (load_holds _ _ _ H).
  now rewrite nth_error_map, Hnth.
Qed.

(** What [withDefaults] knows about text. *)
Lemma lacksText_withDefaults essay fb :
  lacksText (withDefaults essay fb)
  = negb (JS.truthy (s_ocrText essay)) && negb (JS.truthy (s_rawText essay)).
Proof.
  unfold lacksText, withDefaults; simpl.
  destruct (s_ocrText essay) as [[|c r]|]; reflexivity.
Qed.

Lemma resetIfInterrupted_keeps essay :
  submissionType (resetIfInterrupted essay) = submissionType essay /\
  ocrText (resetIfInterrupted essay) = ocrText essay /\
  rawText (resetIfInterrupted essay) = rawText essay /\
  errorMessage (resetIfInterrupted essay) = errorMessage essay.
Proof.
  unfold resetIfInterrupted.
  destruct (ProcessingStatus_beq (status essay) PROCESSING); simpl; auto.
Qed.

Lemma lacksText_reset essay :
  lacksText (resetIfInterrupted essay) = lacksText essay.
Proof.
  unfold lacksText.
  destruct (resetIfInterrupted_keeps essay) as (_ & -> & -> & _).
  reflexivity.
Qed.

(** C8 as stated fails: an image essay interrupted before any text was
    captured is stored as PROCESSING and comes back as ERROR, not
    PENDING. *)
Lemma interrupted_scan_loads_as_error :
  Holds (browserWith [interruptedScan])
    (Some "2024-05-02T09:30:00.000Z") [interruptedScan] /\
  s_status interruptedScan = Some PROCESSING /\
  map status (loadPersistedEssays (browserWith [interruptedScan]))
  = [ERROR] /\
  map ocrStatus (loadPersistedEssays (browserWith [interruptedScan]))
  = [Some step_error].
Proof.
  split; [apply browserWith_holds|].
  repeat split; reflexivity.
Qed.

(** C8, amended: a stored essay whose status is PROCESSING, other than an
    image essay without any text, is loaded with status PENDING; a
    sub-status stored as processing becomes idle, any other stored
    sub-status is kept (an absent one reads idle); progress goes back to
    queued with the explanatory message. *)
Theorem load_resets_interrupted :
  forall b savedAt stored i essay,
    Holds b savedAt stored ->
    nth_error stored i = Some essay ->
    s_status essay = Some PROCESSING ->
    s_submissionType essay <> image \/
    JS.truthy (s_ocrText essay) = true \/
    JS.truthy (s_rawText essay) = true ->
    exists loaded,
      nth_error (loadPersistedEssays b) i = Some loaded /\
      status loaded = PENDING /\
      ocrStatus loaded
      = Some (match s_ocrStatus essay with
              | Some step_processing | None => step_idle
              | Some kept => kept
              end) /\
      gradingStatus loaded
      = Some (match s_gradingStatus essay with
              | Some step_processing | None => step_idle
              | Some kept => kept
              end) /\
      progressStep loaded = Some queued /\
      progressMessage loaded = Some INTERRUPTED_MESSAGE.
Proof.
  intros b savedAt stored i essay H Hnth Hst Hsrc.
  eexists. split; [eapply load_nth; eassumption|].
  set (fb := Some (JS.orStr savedAt (nowISO b))).
  unfold reviveEssay, markMissingSource.
  rewrite lacksText_reset, lacksText_withDefaults.
  destruct (resetIfInterrupted_keeps (withDefaults essay fb)) as (-> & _).
  assert (Hkeep :
    negb (SubmissionType_beq (submissionType (withDefaults essay fb)) image)
    || negb (negb (JS.truthy (s_ocrText essay))
             && negb (JS.truthy (s_rawText essay))) = true).
  { simpl. destruct Hsrc as [Hty | [Ho | Hr]].
    - destruct (s_submissionType essay); try reflexivity. now elim Hty.
    - rewrite Ho. simpl. now rewrite orb_true_r.
    - rewrite Hr. simpl. rewrite andb_false_r. now rewrite orb_true_r. }
  rewrite Hkeep.
  unfold resetIfInterrupted, withDefaults; simpl. rewrite Hst; simpl.
  repeat split.
  - destruct (s_ocrStatus essay) as [[]|]; reflexivity.
  - destruct (s_gradingStatus essay) as [[]|]; reflexivity.
Qed.

Lemma load_resets_interrupted_witness :
  exists loaded,
    nth_error (loadPersistedEssays (browserWith [interruptedTyped])) 0
    = Some loaded /\
    status loaded = PENDING /\
    ocrStatus loaded = Some step_skipped /\
    gradingStatus loaded = Some step_idle /\
    progressStep loaded = Some queued /\
    progressMessage loaded = Some INTERRUPTED_MESSAGE.
Proof.
  apply (load_resets_interrupted (browserWith [interruptedTyped])
           (Some "2024-05-02T09:30:00.000Z") [interruptedTyped] 0%nat
           interruptedTyped).
  - apply browserWith_holds.
  - reflexivity.
  - reflexivity.
  - left. discriminate.
Defined.

(** C9: a stored image essay with neither OCR text nor raw text is loaded
    in the ERROR status, with the re-upload text as its progress message
    and as its error message unless it already carried one; an essay of
    another submission type, or an image essay with some text, is loaded
    without that marking (it is ERROR only if it was stored so). *)
Theorem load_marks_missing_source :
  forall b savedAt stored i essay,
    Holds b savedAt stored ->
    nth_error stored i = Some essay ->
    exists loaded,
      nth_error (loadPersistedEssays b) i = Some loaded /\
      (s_submissionType essay = image ->
       JS.truthy (s_ocrText essay) = false ->
       JS.truthy (s_rawText essay) = false ->
       status loaded = ERROR /\
       progressStep loaded = Some error /\
       progressMessage loaded = Some REUPLOAD_MESSAGE /\
       errorMessage loaded
       = Some (JS.orStr (s_errorMessage essay) REUPLOAD_MESSAGE) /\
       ocrStatus loaded = Some step_error /\
       gradingStatus loaded = Some step_skipped) /\
      (s_submissionType essay <> image \/
       JS.truthy (s_ocrText essay) = true \/
       JS.truthy (s_rawText essay) = true ->
       loaded
       = resetIfInterrupted
           (withDefaults essay (Some (JS.orStr savedAt (nowISO b)))) /\
       (status loaded = ERROR -> s_status essay = Some ERROR) /\
       (progressMessage loaded = Some REUPLOAD_MESSAGE ->
        s_progressMessage essay = Some REUPLOAD_MESSAGE)).
Proof.
  intros b savedAt stored i essay H Hnth.
  eexists. split; [eapply load_nth; eassumption|].
  set (fb := Some (JS.orStr savedAt (nowISO b))).
  unfold reviveEssay, markMissingSource.
  rewrite lacksText_reset, lacksText_withDefaults.
  destruct (resetIfInterrupted_keeps (withDefaults essay fb))
    as (-> & _ & _ & Herr).
  split.
  - intros Hty Ho Hr. simpl. rewrite Hty, Ho, Hr. simpl.
    rewrite Herr. simpl. repeat split; reflexivity.
  - intros Hsrc.
    assert (Hkeep :
      negb (SubmissionType_beq (submissionType (withDefaults essay fb)) image)
      || negb (negb (JS.truthy (s_ocrText essay))
               && negb (JS.truthy (s_rawText essay))) = true).
    { simpl. destruct Hsrc as [Hty | [Ho | Hr]].
      - destruct (s_submissionType essay); try reflexivity. now elim Hty.
      - rewrite Ho. simpl. now rewrite orb_true_r.
      - rewrite Hr. simpl. rewrite andb_false_r. now rewrite orb_true_r. }
    rewrite Hkeep. split; [reflexivity|].
    unfold resetIfInterrupted, withDefaults; simpl.
    destruct (s_status essay) as [[]|]; simpl; split;
      try discriminate; try reflexivity.
    all: destruct (s_progressMessage essay) as [[|c r]|]; simpl;
      intros Hm; try discriminate; exact Hm.
Qed.

Lemma load_marks_missing_source_witness :
  exists loaded,
    nth_error (loadPersistedEssays (browserWith [interruptedScan])) 0
    = Some loaded /\
    status loaded = ERROR /\
    progressMessage loaded = Some REUPLOAD_MESSAGE.
Proof.
  destruct (load_marks_missing_source (browserWith [interruptedScan])
              (Some "2024-05-02T09:30:00.000Z") [interruptedScan] 0%nat
              interruptedScan (browserWith_holds _) eq_refl)
    as (loaded & Hnth & Hmark & _).
  exists loaded. split; [exact Hnth|].
  destruct (Hmark eq_refl eq_refl eq_refl) as (Hs & _ & Hm & _).
  split; assumption.
Defined.

(** C10: whatever the storage holds, [loadPersistedEssays] returns a list;
    with no entry under the key, with malformed JSON, or with a payload
    whose [essays] is missing or no array, and whenever anything inside
    its [try] block throws, that list is empty. *)
Theorem loadPersistedEssays_total :
  forall b,
    (Unusable b -> loadPersistedEssays b = []) /\
    (forall e, loadBody b = Throw e -> loadPersistedEssays b = []) /\
    (hasWindow b = false -> loadPersistedEssays b = []).
Proof.
  intros b. unfold loadPersistedEssays. repeat split.
  - intros Hu. destruct (hasWindow b); [simpl|reflexivity].
    unfold loadBody. destruct Hu as [Hn | raw Hg Hp | raw parsed Hg Hp Hno].
    + now rewrite Hn.
    + rewrite Hg. destruct (JS.truthyStr raw); simpl; [|reflexivity].
      now rewrite Hp.
    + rewrite Hg. destruct (JS.truthyStr raw); simpl; [|reflexivity].
      rewrite Hp. destruct parsed as [|savedAt [| |elements]];
        try reflexivity.
      now elim (Hno savedAt elements).
  - intros e He. rewrite He. now destruct (hasWindow b).
  - intros ->. reflexivity.
Qed.

Lemma loadPersistedEssays_total_witness :
  loadPersistedEssays browserMalformed = [] /\
  loadBody browserMalformed = Throw syntaxError.
Proof.
  split; [|reflexivity].
  apply (proj1 (loadPersistedEssays_total browserMalformed)).
  apply (Malformed browserMalformed "{essays:"); reflexivity.
Defined.

End PersistenceFacts.

(* ===================================================================== *)
(** * The string helpers on examples *)
(* ===================================================================== *)

Module JSFacts.

(** ** Prefixes *)

Lemma prefix_append (a b : string) : String.prefix a (a ++ b) = true.
Proof.
  induction a as [|c a IH]; simpl.
  - now destruct b.
  - destruct (ascii_dec c c) as [_|Hne]; [exact IH|now elim Hne].
Qed.

Lemma prefix_reflexive a : String.prefix a a = true.
Proof.
  induction a as [|c a IH]; simpl; [reflexivity|].
  destruct (ascii_dec c c) as [_|Hne]; [exact IH|now elim Hne].
Qed.

Lemma prefix_transitive a b c :
  String.prefix a b = true -> String.prefix b c = true ->
  String.prefix a c = true.
Proof.
  revert b c. induction a as [|x a IH]; intros b c.
  - intros _ _. now destruct c.
  - destruct b as [|y b]; simpl; [discriminate|].
    destruct (ascii_dec x y) as [->|]; [|discriminate].
    intros Hab. destruct c as [|z c]; simpl; [discriminate|].
    destruct (ascii_dec y z) as [->|]; [|discriminate].
    intros Hbc. exact (IH _ _ Hab Hbc).
Qed.

Lemma prefix_empty a : String.prefix a "" = true -> a = "".
Proof. now destruct a. Qed.

(** A string is its prefix followed by what [skip] leaves. *)
Lemma prefix_skip a s :
  String.prefix a s = true -> s = (a ++ JS.skip (String.length a) s)%string.
Proof.
  revert s. induction a as [|x a IH]; intros s.
  - intros _. now destruct s.
  - destruct s as [|y s]; simpl; [discriminate|].
    destruct (ascii_dec x y) as [->|]; [|discriminate].
    intros H. now rewrite <- (IH _ H).
Qed.

Lemma length_append (a b : string) :
  String.length (a ++ b) = (String.length a + String.length b)%nat.
Proof. induction a as [|c a IH]; simpl; [reflexivity|now rewrite IH]. Qed.

(** ** White space *)

Lemma whiteSpace_not_empty space :
  In space JS.whiteSpace -> (1 <= String.length space)%nat.
Proof.
  assert (H : forallb (fun s => Nat.leb 1 (String.length s)) JS.whiteSpace
              = true) by reflexivity.
  rewrite forallb_forall in H. intros Hin. apply Nat.leb_le. now apply H.
Qed.

Lemma afterSpace_some s r :
  JS.afterSpace s = Some r ->
  exists space,
    In space JS.whiteSpace /\ String.prefix space s = true /\
    s = (space ++ r)%string.
Proof.
  unfold JS.afterSpace.
  destruct (find (fun space => String.prefix space s) JS.whiteSpace)
    as [space|] eqn:E; [|discriminate].
  intros H. injection H as <-.
  apply find_some in E. destruct E as (Hin & Hp).
  exists space. split; [exact Hin|]. split; [exact Hp|].
  now apply prefix_skip.
Qed.

Lemma afterSpace_none s space :
  JS.afterSpace s = None -> In space JS.whiteSpace ->
  String.prefix space s = false.
Proof.
  unfold JS.afterSpace.
  destruct (find (fun space => String.prefix space s) JS.whiteSpace)
    as [found|] eqn:E; [discriminate|].
  intros _ Hin. exact (find_none _ _ E _ Hin).
Qed.

Lemma afterSpace_found s space :
  In space JS.whiteSpace -> String.prefix space s = true ->
  JS.afterSpace s <> None.
Proof.
  intros Hin Hp Hnone.
  rewrite (afterSpace_none _ _ Hnone Hin) in Hp. discriminate.
Qed.

Lemma afterSpace_shorter s r :
  JS.afterSpace s = Some r -> (String.length r < String.length s)%nat.
Proof.
  intros H. destruct (afterSpace_some _ _ H) as (space & Hin & _ & ->).
  rewrite length_append. pose proof (whiteSpace_not_empty _ Hin). lia.
Qed.

Lemma afterSpace_empty : JS.afterSpace "" = None.
Proof. reflexivity. Qed.

(** ** [trimStart] *)

Lemma trimStartN_enough n :
  forall m s,
    (String.length s <= n)%nat -> (String.length s <= m)%nat ->
    JS.trimStartN n s = JS.trimStartN m s.
Proof.
  induction n as [|n IH]; intros m s Hn Hm.
  - destruct s; [|simpl in Hn; lia]. now destruct m.
  - destruct m as [|m].
    + destruct s; [reflexivity|simpl in Hm; lia].
    + simpl. destruct (JS.afterSpace s) as [r|] eqn:E; [|reflexivity].
      pose proof (afterSpace_shorter _ _ E). apply IH; lia.
Qed.

(** [trimStart] takes off one white-space character and goes on. *)
Lemma trimStart_step s :
  JS.trimStart s
  = match JS.afterSpace s with
    | Some r => JS.trimStart r
    | None => s
    end.
Proof.
  unfold JS.trimStart. destruct s as [|c s]; [reflexivity|].
  cbn [String.length JS.trimStartN].
  destruct (JS.afterSpace (String c s)) as [r|] eqn:E; [|reflexivity].
  pose proof (afterSpace_shorter _ _ E) as Hlt. simpl in Hlt.
  apply trimStartN_enough; lia.
Qed.

Lemma trimStart_fixed s : JS.afterSpace s = None -> JS.trimStart s = s.
Proof. intros H. now rewrite trimStart_step, H. Qed.

(** What [trimStart] returns does not start with white space. *)
Lemma trimStart_head s : JS.afterSpace (JS.trimStart s) = None.
Proof.
  remember (String.length s) as n eqn:Hn.
  revert s Hn. induction n as [n IH] using lt_wf_ind. intros s ->.
  rewrite trimStart_step.
  destruct (JS.afterSpace s) as [r|] eqn:E; [|exact E].
  exact (IH _ (afterSpace_shorter _ _ E) r eq_refl).
Qed.

Lemma trimStart_idempotent s : JS.trimStart (JS.trimStart s) = JS.trimStart s.
Proof. apply trimStart_fixed, trimStart_head. Qed.

(** ** [trimEnd] *)

Lemma trimEnd_idempotent s : JS.trimEnd (JS.trimEnd s) = JS.trimEnd s.
Proof.
  induction s as [|c r IH]; [reflexivity|].
  cbn [JS.trimEnd]. cbv zeta.
  destruct (JS.isWhiteSpace (String c (JS.trimEnd r))) eqn:E; [reflexivity|].
  cbn [JS.trimEnd]. cbv zeta. now rewrite IH, E.
Qed.

Lemma prefix_trimEnd s : String.prefix (JS.trimEnd s) s = true.
Proof.
  induction s as [|c r IH]; [reflexivity|].
  cbn [JS.trimEnd]. cbv zeta.
  destruct (JS.isWhiteSpace (String c (JS.trimEnd r))); [reflexivity|].
  simpl. destruct (ascii_dec c c) as [_|Hne]; [exact IH|now elim Hne].
Qed.

(** Cutting white space off the end brings none to the head. *)
Lemma trimEnd_head s :
  JS.afterSpace s = None -> JS.afterSpace (JS.trimEnd s) = None.
Proof.
  intros Hs.
  destruct (JS.afterSpace (JS.trimEnd s)) as [r|] eqn:E; [|reflexivity].
  destruct (afterSpace_some _ _ E) as (space & Hin & Hp & _).
  elim (afterSpace_found s space Hin); [|exact Hs].
  exact (prefix_transitive _ _ _ Hp (prefix_trimEnd s)).
Qed.

(** Trimming a trimmed string changes nothing. *)
Lemma trim_idempotent s : JS.trim (JS.trim s) = JS.trim s.
Proof.
  unfold JS.trim.
  rewrite (trimStart_fixed (JS.trimEnd (JS.trimStart s))).
  - apply trimEnd_idempotent.
  - apply trimEnd_head, trimStart_head.
Qed.

(** A string whose first byte starts no white-space character loses
    nothing at its head; one without such a byte loses nothing at all. *)
Lemma isWhiteSpace_in s :
  JS.isWhiteSpace s = true -> In s JS.whiteSpace.
Proof.
  unfold JS.isWhiteSpace. intros H. apply existsb_exists in H.
  destruct H as (space & Hin & He). apply String.eqb_eq in He. now subst.
Qed.

(** The bytes white space starts with. *)
Lemma whiteSpace_first_byte space :
  In space JS.whiteSpace ->
  exists c r, space = String c r /\
    existsb (Nat.eqb (nat_of_ascii c))
      [9; 10; 11; 12; 13; 32; 194; 225; 226; 227; 239]%nat = true.
Proof.
  intros Hin.
  assert (H : forallb
                (fun s => match s with
                          | EmptyString => false
                          | String c _ =>
                              existsb (Nat.eqb (nat_of_ascii c))
                                [9; 10; 11; 12; 13; 32; 194; 225; 226; 227;
                                 239]%nat
                          end) JS.whiteSpace = true) by reflexivity.
  rewrite forallb_forall in H. specialize (H _ Hin).
  destruct space as [|c r]; [discriminate|]. eauto.
Qed.

(** ** Numbers *)


Lemma leb_reflexive x : JS.leb x x = true.
Proof.
  destruct x as [q| |]; simpl; try reflexivity.
  apply Qle_bool_iff. apply Qle_refl.
Qed.

Lemma leb_transitive x y z :
  JS.leb x y = true -> JS.leb y z = true -> JS.leb x z = true.
Proof.
  destruct x as [a| |], y as [b| |], z as [c| |]; simpl;
    try reflexivity; try discriminate.
  rewrite !Qle_bool_iff. apply Qle_trans.
Qed.

(** The order is total. *)
Lemma leb_false x y : JS.leb x y = false -> JS.leb y x = true.
Proof.
  destruct x as [a| |], y as [b| |]; simpl; try reflexivity;
    try discriminate.
  intros H. apply Qle_bool_iff.
  destruct (Qlt_le_dec b a) as [Hlt|Hle].
  - now apply Qlt_le_weak.
  - apply Qle_bool_iff in Hle. congruence.
Qed.

Lemma min_below_left x y : JS.leb (JS.min x y) x = true.
Proof.
  unfold JS.min. destruct (JS.leb x y) eqn:E.
  - apply leb_reflexive.
  - now apply leb_false.
Qed.

Lemma min_below_right x y : JS.leb (JS.min x y) y = true.
Proof.
  unfold JS.min. destruct (JS.leb x y) eqn:E; [exact E|].
  apply leb_reflexive.
Qed.

Lemma min_above z x y :
  JS.leb z x = true -> JS.leb z y = true -> JS.leb z (JS.min x y) = true.
Proof. unfold JS.min. now destruct (JS.leb x y). Qed.

Lemma max_above_left x y : JS.leb x (JS.max x y) = true.
Proof.
  unfold JS.max. destruct (JS.leb x y) eqn:E; [exact E|].
  apply leb_reflexive.
Qed.

Lemma max_above_right x y : JS.leb y (JS.max x y) = true.
Proof.
  unfold JS.max. destruct (JS.leb x y) eqn:E.
  - apply leb_reflexive.
  - now apply leb_false.
Qed.

Lemma max_below z x y :
  JS.leb x z = true -> JS.leb y z = true -> JS.leb (JS.max x y) z = true.
Proof. unfold JS.max. now destruct (JS.leb x y). Qed.

(** Adding a non-negative integer does not make a number smaller. *)
Lemma plus_grows x z : 0 <= z -> JS.leb x (JS.plus x z) = true.
Proof.
  intros Hz. destruct x as [q| |]; cbn [JS.leb JS.plus]; try reflexivity.
  apply Qle_bool_iff. rewrite Qred_correct.
  rewrite <- (Qplus_0_r q) at 1. apply Qplus_le_r.
  change 0%Q with (inject_Z 0). now rewrite <- Zle_Qle.
Qed.

Lemma plus_monotone x y z :
  JS.leb x y = true -> JS.leb (JS.plus x z) (JS.plus y z) = true.
Proof.
  destruct x as [a| |], y as [b| |]; cbn [JS.leb JS.plus]; try reflexivity;
    try discriminate.
  rewrite !Qle_bool_iff, !Qred_correct. intros H.
  now apply Qplus_le_l.
Qed.






(** ** The helpers on examples *)

Example trim_examples :
  JS.trim ("  Hello" ++ JS.LF ++ JS.LF ++ "World " ++ JS.LF)
  = "Hello" ++ JS.LF ++ JS.LF ++ "World" /\
  JS.trim "   " = "" /\
  JS.trim "a  b" = "a  b" /\
  (* U+3000, U+00A0 and U+FEFF are white space; U+200B is not *)
  JS.trim (JS.bytes [227; 128; 128; 194; 160]%nat ++ "a b"
             ++ JS.bytes [239; 187; 191; 32; 227; 128; 128]%nat)
  = "a b" /\
  JS.trim (JS.bytes [227; 128; 128; 194; 160]%nat) = "" /\
  JS.trim (JS.bytes [226; 128; 139]%nat ++ " ") = JS.bytes [226; 128; 139]%nat /\
  JS.trimEnd (" a" ++ JS.bytes [227; 128; 128]%nat ++ JS.LF) = " a".
Proof. repeat split; vm_compute; reflexivity. Qed.

Example toLowerCase_examples :
  JS.toLowerCase "Processing Cancelled" = "processing cancelled" /\
  JS.toLowerCase "The user aborted a request." = "the user aborted a request.".
Proof. split; reflexivity. Qed.

Example includes_examples :
  JS.includes "processing cancelled" "cancelled" = true /\
  JS.includes "the user aborted a request." "cancelled" = false /\
  JS.includes "abc" "" = true /\
  JS.includes "" "a" = false.
Proof. repeat split; reflexivity. Qed.

Example parseFloat_examples :
  JS.parseFloat "5" = Some (JS.ofZ 5) /\
  JS.parseFloat " 120" = Some (JS.ofZ 120) /\
  JS.parseFloat "-3" = Some (JS.ofZ (-3)) /\
  JS.parseFloat "7 seconds" = Some (JS.ofZ 7) /\
  JS.parseFloat "1.5" = Some (JS.finite (3 # 2)) /\
  JS.parseFloat ".5" = Some (JS.finite (1 # 2)) /\
  JS.parseFloat "5." = Some (JS.ofZ 5) /\
  JS.parseFloat "1e3" = Some (JS.ofZ 1000) /\
  JS.parseFloat "2.5E-1x" = Some (JS.finite (1 # 4)) /\
  JS.parseFloat "1e" = Some (JS.ofZ 1) /\
  JS.parseFloat "Infinity" = Some JS.posInfinity /\
  JS.parseFloat "-Infinity" = Some JS.negInfinity /\
  JS.parseFloat "infinity" = None /\
  JS.parseFloat "." = None /\
  JS.parseFloat "Wed, 21 Oct 2015 07:28:00 GMT" = None /\
  JS.parseFloat "" = None.
Proof. repeat split; vm_compute; reflexivity. Qed.

Example number_examples :
  JS.times (JS.finite (3 # 2)) 1000 = JS.ofZ 1500 /\
  JS.times JS.posInfinity 1000 = JS.posInfinity /\
  JS.plus (JS.finite (1 # 2)) 2000 = JS.finite (4001 # 2) /\
  JS.min (JS.plus JS.posInfinity 2000) (JS.ofZ 45000) = JS.ofZ 45000 /\
  JS.min JS.negInfinity (JS.ofZ 20000) = JS.negInfinity /\
  JS.max (JS.finite (1 # 2)) (JS.ofZ 4000) = JS.ofZ 4000.
Proof. repeat split; vm_compute; reflexivity. Qed.

Example truthiness_examples :
  JS.truthy None = false /\
  JS.truthy (Some "") = false /\
  JS.truthy (Some " ") = true /\
  JS.orStr (Some "") "fallback" = "fallback" /\
  JS.orOpt (Some "a") (Some "b") = Some "a" /\
  JS.orOpt (Some "") (Some "b") = Some "b".
Proof. repeat split; reflexivity. Qed.

End JSFacts.

Module TypesFacts.
Import TypesExamples.

(** Each setter overrides its own key and no other. *)
Example setters_override_one_key :
  with_status (status fullEssay) fullEssay = fullEssay /\
  with_ocrText (ocrText fullEssay) fullEssay = fullEssay /\
  with_progressStep (progressStep fullEssay) fullEssay = fullEssay /\
  with_progressMessage (progressMessage fullEssay) fullEssay = fullEssay /\
  with_studentName (studentName fullEssay) fullEssay = fullEssay /\
  with_date (date fullEssay) fullEssay = fullEssay /\
  with_ocrStatus (ocrStatus fullEssay) fullEssay = fullEssay /\
  with_gradingStatus (gradingStatus fullEssay) fullEssay = fullEssay /\
  with_gradingResult (gradingResult fullEssay) fullEssay = fullEssay /\
  with_errorMessage (errorMessage fullEssay) fullEssay = fullEssay /\
  status (with_status IDLE fullEssay) = IDLE /\
  ocrText (with_ocrText "x" fullEssay) = "x" /\
  progressStep (with_progressStep None fullEssay) = None /\
  progressMessage (with_progressMessage None fullEssay) = None /\
  studentName (with_studentName None fullEssay) = None /\
  date (with_date None fullEssay) = None /\
  ocrStatus (with_ocrStatus None fullEssay) = None /\
  gradingStatus (with_gradingStatus None fullEssay) = None /\
  gradingResult (with_gradingResult None fullEssay) = None /\
  errorMessage (with_errorMessage None fullEssay) = None /\
  App.spread [] fullEssay fullEssay = fullEssay /\
  (* a key the payload's literal writes overrides with [undefined] *)
  gradingResult
    (App.spread [App.k_gradingResult] fullEssay
       (with_gradingResult None fullEssay)) = None /\
  gradingResult
    (App.spread [] fullEssay (with_gradingResult None fullEssay))
  = gradingResult fullEssay.
Proof. repeat split; reflexivity. Qed.

End TypesFacts.

(* ===================================================================== *)
(** * Facts about handwritingOcr.ts *)
(* ===================================================================== *)

(** Unfolding the monad. *)
Create HintDb runtime.
#[export] Hint Unfold bind ret throw tryCatch emit ask now signalAborted
  fetch json tick Ocr.throwIfCancelled Ocr.persistTranscript : runtime.

Ltac run := repeat autounfold with runtime; simpl.

Lemma newEvents_app (s s' : St) (d : list Event) :
  trace s' = (trace s ++ d)%list -> newEvents s s' = d.
Proof.
  intros H. unfold newEvents. rewrite H.
  rewrite skipn_app, skipn_all, Nat.sub_diag. reflexivity.
Qed.

Module OcrFacts.
Import Ocr OcrExamples JSFacts.

(** ** Strings *)

Lemma prefix_app (a b : string) : String.prefix a (a ++ b) = true.
Proof.
  induction a as [|c a IH]; simpl.
  - now destruct b.
  - destruct (ascii_dec c c) as [_|Hne]; [exact IH|now elim Hne].
Qed.

Lemma includes_prefix (hay needle : string) :
  String.prefix needle hay = true -> JS.includes hay needle = true.
Proof.
  intros H. destruct hay; cbn [JS.includes]; now rewrite H.
Qed.

Lemma includes_app (pre needle post : string) :
  JS.includes (pre ++ needle ++ post) needle = true.
Proof.
  induction pre as [|c pre IH].
  - apply includes_prefix.
    change (String.prefix needle (needle ++ post) = true).
    apply prefix_app.
  - change (String c pre ++ needle ++ post)
      with (String c (pre ++ needle ++ post)).
    cbn [JS.includes].
    destruct (String.prefix needle (String c (pre ++ needle ++ post)));
      [reflexivity|exact IH].
Qed.

Lemma timeoutMessage_names_document documentId :
  JS.includes (timeoutMessage documentId) documentId = true.
Proof. unfold timeoutMessage. apply includes_app. Qed.

(** ** One status request *)

(** A status request that completes: the vendor answered, the signal was
    not aborted when the request was issued, and the result carries the
    HTTP status and the parsed [Retry-After] of that answer. *)
Lemma fetchDocumentStatus_ok documentId signal w s result s1 :
  fetchDocumentStatus documentId signal w s = (Ok result, s1) ->
  exists response,
    statusResponse w (clock s) = Resolved response /\
    httpStatus result = sr_status response /\
    retryAfterMs result = retryAfterOf (sr_retryAfter response) /\
    abortedAt signal (clock s) = false /\
    trace s1 = (trace s ++ [EvOcrPoll documentId])%list /\
    clock s1 = S (S (clock s)).
Proof.
  unfold fetchDocumentStatus. run.
  destruct (JS.truthy (HANDWRITING_OCR_API_KEY w)); simpl; [|discriminate].
  destruct (abortedAt signal (clock s)) eqn:Hab; simpl; [discriminate|].
  destruct (abortedAt signal (S (clock s))); simpl; [discriminate|].
  destruct (statusResponse w (clock s)) as [response|e] eqn:Hresp; simpl;
    [|discriminate].
  intros H. exists response.
  destruct (abortedAt signal (S (S (clock s)))); simpl in H.
  - inversion H; subst; simpl. repeat split; reflexivity.
  - destruct (sr_body response); simpl in H; inversion H; subst; simpl;
      repeat split; reflexivity.
Qed.

Section Loop.

Variable documentId : string.
Variable signal : option AbortSignal.
Variable pollIntervalMs : Z.
Variable maxWaitMs : Z.
Variable startedAt : Z.

Local Abbreviation loop := (pollLoop documentId signal pollIntervalMs maxWaitMs
                    startedAt).
Local Abbreviation reaches := (Reaches documentId signal pollIntervalMs maxWaitMs
                       startedAt).

(** One turn of the loop whose status request completes. *)
Lemma pollLoop_turn remaining d w s result s1 :
  (dateNow w (clock s) - startedAt <? maxWaitMs) = true ->
  fetchDocumentStatus documentId signal w s = (Ok result, s1) ->
  loop (S remaining) d w s
  = (if isStatus result "processed" then
       let transcript := collectTranscript (dr_results result) in
       if JS.truthyStr transcript then
         persistTranscript transcript ;;; ret (Some transcript)
       else throw emptyTranscriptError
     else if isStatus result "failed" then
       throw (newError (JS.orStr (dr_message result)
                          "Handwriting OCR processing failed"))
     else
       delay (waitMs pollIntervalMs d result) signal ;;;
       loop remaining (nextDelay pollIntervalMs d result)) w s1.
Proof.
  intros Hok Hfetch. simpl. unfold bind at 1, now. simpl.
  rewrite Hok. unfold bind at 1. rewrite Hfetch. reflexivity.
Qed.

(** The loop ends by its bounds: no attempt left, or the time cap
    reached when the guard is tested. *)
Lemma pollLoop_exhausted remaining d w s :
  remaining = 0%nat \/ maxWaitMs <= dateNow w (clock s) - startedAt ->
  loop remaining d w s = (Ok None, s).
Proof.
  intros [-> | Hcap]; [reflexivity|].
  destruct remaining as [|remaining]; [reflexivity|].
  simpl. unfold bind at 1, now. simpl.
  destruct (Z.ltb_spec (dateNow w (clock s) - startedAt) maxWaitMs);
    [lia|reflexivity].
Qed.

(** The loop behaves from a reached configuration as from the first. *)
Lemma pollLoop_reaches w results c c' :
  reaches w results c c' ->
  loop (fst (fst c)) (snd (fst c)) w (snd c)
  = loop (fst (fst c')) (snd (fst c')) w (snd c').
Proof.
  induction 1 as [c|remaining d s result s1 s2 results c Hok Hfetch Hp Hf
                    Hdelay _ IH]; [reflexivity|].
  simpl fst in *; simpl snd in *.
  rewrite (pollLoop_turn _ _ _ _ _ _ Hok Hfetch), Hp, Hf.
  unfold bind at 1. rewrite Hdelay. exact IH.
Qed.

(** Each iteration uses up one attempt. *)
Lemma reaches_attempts w results c c' :
  reaches w results c c' ->
  (length results + fst (fst c') = fst (fst c))%nat.
Proof.
  induction 1; simpl in *; lia.
Qed.

(** The delay a configuration holds is the one the iterations before it
    computed, one from the other. *)
Lemma reaches_delay w results c c' :
  reaches w results c c' ->
  snd (fst c')
  = fold_left (nextDelay pollIntervalMs) results (snd (fst c)).
Proof.
  induction 1; simpl in *; [reflexivity|assumption].
Qed.

(** A wait that ends leaves its event behind. *)
Lemma delay_ok ms w s s' :
  delay ms signal w s = (Ok tt, s') ->
  trace s' = (trace s ++ [EvDelay ms])%list.
Proof.
  unfold delay. run.
  destruct (negb (abortedAt signal (clock s))
            && abortedAt signal (S (clock s)));
    intros E; inversion E; reflexivity.
Qed.

(** What the iterations add to the trace: a poll and a wait each, the
    waits computed one after the other from the delay carried along. *)
Lemma reaches_trace w results c c' :
  reaches w results c c' ->
  exists events,
    trace (snd c') = (trace (snd c) ++ events)%list /\
    delaysOf events = waitsOf pollIntervalMs (snd (fst c)) results /\
    pollsOf events = repeat documentId (length results).
Proof.
  induction 1 as [c|remaining d s result s1 s2 results c Hok Hfetch Hp Hf
                    Hdelay _ IH].
  - exists []. now rewrite app_nil_r.
  - destruct IH as (events & T & D & P). cbn [fst snd] in *.
    destruct (fetchDocumentStatus_ok _ _ _ _ _ _ Hfetch)
      as (_ & _ & _ & _ & _ & T1 & _).
    pose proof (delay_ok _ _ _ _ Hdelay) as T2.
    exists (EvOcrPoll documentId
              :: EvDelay (waitMs pollIntervalMs d result) :: events).
    split; [|split].
    + rewrite T, T2, T1, <- !app_assoc. reflexivity.
    + unfold delaysOf in *. cbn [flat_map app waitsOf]. now rewrite D.
    + unfold pollsOf in *. cbn [flat_map app length repeat]. now rewrite P.
Qed.

End Loop.

(** ** The adaptive delay *)

Lemma nextDelay_ceiling pollIntervalMs d result :
  JS.leb (nextDelay pollIntervalMs d result)
    (if httpStatus result =? 429 then 45000 else 20000) = true.
Proof. unfold nextDelay. cbv zeta. apply min_below_right. Qed.

(** The wait of an ordinary iteration is at least the delay it was
    entered with. *)
Lemma waitMs_ordinary pollIntervalMs d result :
  httpStatus result <> 429 ->
  JS.leb d (waitMs pollIntervalMs d result) = true.
Proof.
  intros Hrl. unfold waitMs. cbv zeta.
  destruct (Z.eqb_spec (httpStatus result) 429) as [E|_]; [now elim Hrl|].
  destruct (httpStatus result =? 404).
  - apply max_above_left.
  - apply leb_reflexive.
Qed.

Lemma nextDelay_grows pollIntervalMs d result :
  0 <= pollIntervalMs -> JS.leb d 20000 = true ->
  httpStatus result <> 429 ->
  JS.leb d (nextDelay pollIntervalMs d result) = true /\
  JS.leb (nextDelay pollIntervalMs d result) 20000 = true.
Proof.
  intros Hp Hd Hrl.
  pose proof (nextDelay_ceiling pollIntervalMs d result) as Hc.
  destruct (Z.eqb_spec (httpStatus result) 429) as [E|Hne];
    [now elim Hrl|].
  split; [|exact Hc].
  unfold nextDelay. cbv zeta.
  destruct (Z.eqb_spec (httpStatus result) 429) as [E|_]; [now elim Hrl|].
  apply min_above; [|exact Hd].
  apply (leb_transitive _ _ _ (waitMs_ordinary pollIntervalMs d result Hrl)).
  now apply plus_grows.
Qed.

Lemma fold_nextDelay_grows pollIntervalMs results :
  0 <= pollIntervalMs ->
  Forall (fun result => httpStatus result <> 429) results ->
  forall d, JS.leb d 20000 = true ->
    JS.leb d (fold_left (nextDelay pollIntervalMs) results d) = true /\
    JS.leb (fold_left (nextDelay pollIntervalMs) results d) 20000 = true.
Proof.
  intros Hp. induction 1 as [|result results Hr _ IH]; intros d Hd; simpl.
  - split; [apply leb_reflexive|exact Hd].
  - destruct (nextDelay_grows pollIntervalMs d result Hp Hd Hr) as (H1 & H2).
    destruct (IH (nextDelay pollIntervalMs d result) H2) as (H3 & H4).
    split; [exact (leb_transitive _ _ _ H1 H3)|exact H4].
Qed.

(** ** The whole call *)

(** Once the upload has returned a document id, the call is the loop
    followed, when the loop ends by its bounds, by the final request. *)
Lemma transcribeHandwriting_run file options w s documentId s2 :
  uploadDocument file (o_signal options) w s = (Ok documentId, s2) ->
  transcribeHandwriting file options w s
  = match pollLoop documentId (o_signal options)
            (nullish (o_pollIntervalMs options) 2000)
            (nullish (o_maxWaitMs options) (4 * 60 * 1000))
            (dateNow w (clock s))
            (Z.to_nat (nullish (o_maxAttempts options) 120))
            (nullish (o_pollIntervalMs options) 2000) w s2 with
    | (Ok (Some transcript), s3) => (Ok transcript, s3)
    | (Ok None, s3) => afterLoop documentId (o_signal options) w s3
    | (Throw e, s3) => (Throw e, s3)
    end.
Proof.
  intros Hup.
  assert (Hab : abortedAt (o_signal options) (clock s) = false).
  { revert Hup. unfold uploadDocument. run.
    destruct (JS.truthy (HANDWRITING_OCR_API_KEY w)); simpl; [|discriminate].
    destruct (abortedAt (o_signal options) (clock s)); simpl;
      [discriminate|reflexivity]. }
  unfold transcribeHandwriting.
  unfold bind at 1, now. simpl.
  unfold bind at 1, throwIfCancelled, signalAborted. unfold bind at 1.
  simpl. rewrite Hab. unfold ret at 1.
  unfold bind at 1. rewrite Hup.
  unfold bind at 1.
  destruct (pollLoop _ _ _ _ _ _ _ w s2) as [[[t|]|e] s3]; reflexivity.
Qed.

Lemma afterLoop_run documentId signal w s fin s1 :
  fetchDocumentStatus documentId signal w s = (Ok fin, s1) ->
  afterLoop documentId signal w s
  = if isStatus fin "processed"
       && JS.truthyStr (collectTranscript (dr_results fin))
    then (Ok (collectTranscript (dr_results fin)),
          mkSt (clock s1)
            (trace s1
               ++ [EvPersistTranscript
                     (collectTranscript (dr_results fin))])%list)
    else (Throw (newError (timeoutMessage documentId)), s1).
Proof.
  intros Hfetch. unfold afterLoop, bind at 1. rewrite Hfetch.
  destruct (isStatus fin "processed"); simpl; [|reflexivity].
  destruct (JS.truthyStr (collectTranscript (dr_results fin)));
    reflexivity.
Qed.

(** ** Counting the status polls *)

Lemma pollsOf_app d1 d2 : pollsOf (d1 ++ d2) = (pollsOf d1 ++ pollsOf d2)%list.
Proof. apply flat_map_app. Qed.

Lemma PollsAtMost_bind {A B : Type} n k (m : M A) (f : A -> M B) :
  PollsAtMost n m -> (forall a, PollsAtMost k (f a)) ->
  PollsAtMost (n + k) (bind m f).
Proof.
  intros Hm Hf w s r s' E. unfold bind in E.
  destruct (m w s) as [[a|e] s1] eqn:Em.
  - destruct (Hm _ _ _ _ Em) as (d1 & T1 & L1).
    destruct (Hf a _ _ _ _ E) as (d2 & T2 & L2).
    exists (d1 ++ d2)%list. rewrite T2, T1, app_assoc. split; [reflexivity|].
    rewrite pollsOf_app, length_app. lia.
  - inversion E; subst.
    destruct (Hm _ _ _ _ Em) as (d1 & T1 & L1).
    exists d1. split; [exact T1|lia].
Qed.

Lemma PollsAtMost_weaken {A : Type} n k (m : M A) :
  (n <= k)%nat -> PollsAtMost n m -> PollsAtMost k m.
Proof.
  intros Hle Hm w s r s' E.
  destruct (Hm _ _ _ _ E) as (d & T & L). exists d. split; [exact T|lia].
Qed.

(** A computation that leaves the trace alone polls nothing. *)
Lemma PollsAtMost_silent {A : Type} (m : M A) :
  (forall w s, trace (snd (m w s)) = trace s) -> PollsAtMost 0 m.
Proof.
  intros H w s r s' E. exists []. rewrite app_nil_r.
  specialize (H w s). rewrite E in H. split; [now symmetry|reflexivity].
Qed.

Lemma PollsAtMost_emit (ev : Event) :
  PollsAtMost (length (pollsOf [ev])) (emit ev).
Proof.
  intros w s r s' E. inversion E; subst.
  exists [ev]. split; [reflexivity|apply Nat.le_refl].
Qed.

Lemma PollsAtMost_throwIfCancelled signal :
  PollsAtMost 0 (throwIfCancelled signal).
Proof.
  apply PollsAtMost_silent. intros w s. unfold throwIfCancelled. run.
  now destruct (abortedAt signal (clock s)).
Qed.

Lemma PollsAtMost_fetch {A : Type} signal
    (oracle : World -> nat -> Outcome A) :
  PollsAtMost 0 (fetch signal oracle).
Proof.
  apply PollsAtMost_silent. intros w s. unfold fetch.
  destruct (abortedAt signal (clock (tick s))); [reflexivity|].
  now destruct (oracle w (clock s)).
Qed.

Lemma PollsAtMost_json {A : Type} signal (body : option A) :
  PollsAtMost 0 (json signal body).
Proof.
  apply PollsAtMost_silent. intros w s. unfold json.
  destruct (abortedAt signal (clock (tick s))); [reflexivity|].
  now destruct body.
Qed.

Lemma PollsAtMost_delay ms signal : PollsAtMost 0 (delay ms signal).
Proof.
  unfold delay.
  apply (PollsAtMost_bind 0 0); [apply (PollsAtMost_emit (EvDelay ms))|].
  intros _. apply PollsAtMost_silent. intros w s.
  now destruct (negb (abortedAt signal (clock s))
                && abortedAt signal (clock (tick s))).
Qed.

Lemma PollsAtMost_uploadDocument file signal :
  PollsAtMost 0 (uploadDocument file signal).
Proof.
  unfold uploadDocument.
  apply (PollsAtMost_bind 0 0); [now apply PollsAtMost_silent|intros key].
  destruct (negb (JS.truthy key)); [now apply PollsAtMost_silent|].
  apply (PollsAtMost_bind 0 0); [apply PollsAtMost_throwIfCancelled|].
  intros _.
  apply (PollsAtMost_bind 0 0);
    [apply (PollsAtMost_emit (EvOcrUpload file))|intros _].
  apply (PollsAtMost_bind 0 0); [apply PollsAtMost_fetch|intros response].
  apply (PollsAtMost_bind 0 0); [apply PollsAtMost_json|intros data].
  destruct (negb (ur_ok response)); [now apply PollsAtMost_silent|].
  destruct (negb (JS.truthy (ub_id data))); now apply PollsAtMost_silent.
Qed.

Lemma PollsAtMost_fetchDocumentStatus documentId signal :
  PollsAtMost 1 (fetchDocumentStatus documentId signal).
Proof.
  unfold fetchDocumentStatus.
  apply (PollsAtMost_bind 0 1); [now apply PollsAtMost_silent|intros key].
  destruct (negb (JS.truthy key)).
  { apply (PollsAtMost_weaken 0); [lia|now apply PollsAtMost_silent]. }
  apply (PollsAtMost_bind 0 1); [apply PollsAtMost_throwIfCancelled|].
  intros _.
  apply (PollsAtMost_bind 1 0);
    [apply (PollsAtMost_emit (EvOcrPoll documentId))|intros _].
  apply (PollsAtMost_bind 0 0); [apply PollsAtMost_fetch|intros response].
  apply (PollsAtMost_bind 0 0); [|intros data; now apply PollsAtMost_silent].
  apply PollsAtMost_silent. intros w s. unfold tryCatch, json.
  destruct (abortedAt signal (clock (tick s))); [reflexivity|].
  now destruct (sr_body response).
Qed.

Lemma PollsAtMost_persistTranscript t : PollsAtMost 0 (persistTranscript t).
Proof. apply (PollsAtMost_emit (EvPersistTranscript t)). Qed.

(** The loop polls once per attempt it is allowed. *)
Lemma PollsAtMost_pollLoop documentId signal pollIntervalMs maxWaitMs
    startedAt remaining :
  forall d,
    PollsAtMost remaining
      (pollLoop documentId signal pollIntervalMs maxWaitMs startedAt
         remaining d).
Proof.
  induction remaining as [|remaining IH]; intros d; simpl.
  - now apply PollsAtMost_silent.
  - apply (PollsAtMost_bind 0 (S remaining));
      [now apply PollsAtMost_silent|intros t].
    destruct (t - startedAt <? maxWaitMs).
    2:{ apply (PollsAtMost_weaken 0); [lia|now apply PollsAtMost_silent]. }
    apply (PollsAtMost_bind 1 remaining);
      [apply PollsAtMost_fetchDocumentStatus|intros result].
    destruct (isStatus result "processed").
    + apply (PollsAtMost_weaken 0); [lia|].
      destruct (JS.truthyStr _); [|now apply PollsAtMost_silent].
      apply (PollsAtMost_bind 0 0); [apply PollsAtMost_persistTranscript|].
      intros _. now apply PollsAtMost_silent.
    + destruct (isStatus result "failed").
      { apply (PollsAtMost_weaken 0); [lia|now apply PollsAtMost_silent]. }
      apply (PollsAtMost_bind 0 remaining); [apply PollsAtMost_delay|].
      intros _. apply IH.
Qed.

Lemma PollsAtMost_afterLoop documentId signal :
  PollsAtMost 1 (afterLoop documentId signal).
Proof.
  unfold afterLoop.
  apply (PollsAtMost_bind 1 0);
    [apply PollsAtMost_fetchDocumentStatus|intros fin].
  cbv zeta.
  destruct (isStatus fin "processed"); [|now apply PollsAtMost_silent].
  destruct (JS.truthyStr _); [|now apply PollsAtMost_silent].
  apply (PollsAtMost_bind 0 0); [apply PollsAtMost_persistTranscript|].
  intros _. now apply PollsAtMost_silent.
Qed.

(** Whatever the vendor answers, a call issues at most [maxAttempts] status
    polls in its loop and one after it. *)
Lemma PollsAtMost_transcribeHandwriting file options :
  PollsAtMost (Z.to_nat (nullish (o_maxAttempts options) 120) + 1)
    (transcribeHandwriting file options).
Proof.
  unfold transcribeHandwriting. cbv zeta.
  apply (PollsAtMost_bind 0); [now apply PollsAtMost_silent|intros startedAt].
  apply (PollsAtMost_bind 0); [apply PollsAtMost_throwIfCancelled|intros _].
  apply (PollsAtMost_bind 0); [apply PollsAtMost_uploadDocument|].
  intros documentId.
  apply PollsAtMost_bind; [apply PollsAtMost_pollLoop|intros looped].
  destruct looped.
  - apply (PollsAtMost_weaken 0); [lia|now apply PollsAtMost_silent].
  - apply PollsAtMost_afterLoop.
Qed.

(** When the loop ends by its bounds, the call is the final request. *)
Lemma run_after_bounds file options w s documentId s2 results remaining d s3 :
  uploadDocument file (o_signal options) w s = (Ok documentId, s2) ->
  Reaches documentId (o_signal options)
    (nullish (o_pollIntervalMs options) 2000)
    (nullish (o_maxWaitMs options) (4 * 60 * 1000))
    (dateNow w (clock s)) w results
    (Z.to_nat (nullish (o_maxAttempts options) 120),
     JS.ofZ (nullish (o_pollIntervalMs options) 2000), s2)
    (remaining, d, s3) ->
  remaining = 0%nat \/
  nullish (o_maxWaitMs options) (4 * 60 * 1000)
  <= dateNow w (clock s3) - dateNow w (clock s) ->
  transcribeHandwriting file options w s
  = match fetchDocumentStatus documentId (o_signal options) w s3 with
    | (Throw e, s4) => (Throw e, s4)
    | (Ok fin, s4) =>
        if isStatus fin "processed"
           && JS.truthyStr (collectTranscript (dr_results fin))
        then (Ok (collectTranscript (dr_results fin)),
              mkSt (clock s4)
                (trace s4
                   ++ [EvPersistTranscript
                         (collectTranscript (dr_results fin))])%list)
        else (Throw (newError (timeoutMessage documentId)), s4)
    end.
Proof.
  intros Hup Hreach Hbound.
  rewrite (transcribeHandwriting_run _ _ _ _ _ _ Hup).
  pose proof (pollLoop_reaches _ _ _ _ _ _ _ _ _ Hreach) as Hloop.
  cbn [fst snd] in Hloop. rewrite Hloop.
  rewrite pollLoop_exhausted by exact Hbound.
  destruct (fetchDocumentStatus documentId (o_signal options) w s3)
    as [[fin|e] s4] eqn:Hfin.
  - apply afterLoop_run. exact Hfin.
  - unfold afterLoop, bind at 1. now rewrite Hfin.
Qed.

(** ** C3: the attempt and time caps *)

(** C3 as stated fails: with the default caps, every poll made within the
    four minutes finds the document in progress (80 polls, the last wait
    ending 242 s after the start), and the call still returns a transcript,
    because the request made after the loop finds the document processed.
    The same happens when the 120 attempts run out first. *)
Lemma processed_after_cap_is_returned :
  fst (transcribeHandwriting scan defaults (processedAfterCap 80) start)
  = Ok "Finished late" /\
  length (pollsOf (trace (snd (transcribeHandwriting scan defaults
                                 (processedAfterCap 80) start)))) = 81%nat /\
  length (delaysOf (trace (snd (transcribeHandwriting scan defaults
                                  (processedAfterCap 80) start)))) = 80%nat /\
  4 * 60 * 1000 <= dateNow (processedAfterCap 80) 242
                   - dateNow (processedAfterCap 80) 0 /\
  fst (transcribeHandwriting scan
         (mkOptions None None (Some 100000000) None)
         (processedAfterCap 120) start)
  = Ok "Finished late" /\
  length (pollsOf (trace (snd (transcribeHandwriting scan
                                 (mkOptions None None (Some 100000000) None)
                                 (processedAfterCap 120) start)))) = 121%nat.
Proof.
  repeat split; try (vm_compute; reflexivity).
  vm_compute. discriminate.
Qed.

(** C3, amended: the loop makes at most [maxAttempts] (default 120) polls
    and starts none once [maxWaitMs] (default 4 minutes) have passed, so a
    call issues at most [maxAttempts + 1] status requests; when the loop
    ends by either bound the client makes one more status request.  If
    that request fails, the call fails with its error; if it reports
    "processed" with a non-empty transcript, the transcript is returned;
    otherwise the call fails with the timeout error, whose message contains
    the document id. *)
Theorem bounds_then_final_request :
  forall file options w s documentId s2 results remaining d s3,
    uploadDocument file (o_signal options) w s = (Ok documentId, s2) ->
    Reaches documentId (o_signal options)
      (nullish (o_pollIntervalMs options) 2000)
      (nullish (o_maxWaitMs options) (4 * 60 * 1000))
      (dateNow w (clock s)) w results
      (Z.to_nat (nullish (o_maxAttempts options) 120),
       JS.ofZ (nullish (o_pollIntervalMs options) 2000), s2)
      (remaining, d, s3) ->
    remaining = 0%nat \/
    nullish (o_maxWaitMs options) (4 * 60 * 1000)
    <= dateNow w (clock s3) - dateNow w (clock s) ->
    (length results <= Z.to_nat (nullish (o_maxAttempts options) 120))%nat /\
    (length (pollsOf (newEvents s
                        (snd (transcribeHandwriting file options w s))))
     <= Z.to_nat (nullish (o_maxAttempts options) 120) + 1)%nat /\
    transcribeHandwriting file options w s
    = match fetchDocumentStatus documentId (o_signal options) w s3 with
      | (Throw e, s4) => (Throw e, s4)
      | (Ok fin, s4) =>
          if isStatus fin "processed"
             && JS.truthyStr (collectTranscript (dr_results fin))
          then (Ok (collectTranscript (dr_results fin)),
                mkSt (clock s4)
                  (trace s4
                     ++ [EvPersistTranscript
                           (collectTranscript (dr_results fin))])%list)
          else (Throw (newError (timeoutMessage documentId)), s4)
      end /\
    JS.includes (timeoutMessage documentId) documentId = true.
Proof.
  intros file options w s documentId s2 results remaining d s3 Hup Hreach
    Hbound.
  split; [|split; [|split]].
  - pose proof (reaches_attempts _ _ _ _ _ _ _ _ _ Hreach) as H.
    simpl in H. lia.
  - destruct (transcribeHandwriting file options w s) as [r s'] eqn:Erun.
    destruct (PollsAtMost_transcribeHandwriting file options _ _ _ _ Erun)
      as (dl & Tl & Ll).
    cbn [snd]. now rewrite (newEvents_app _ _ _ Tl).
  - exact (run_after_bounds _ _ _ _ _ _ _ _ _ _ Hup Hreach Hbound).
  - apply timeoutMessage_names_document.
Qed.

(** With [maxAttempts = 2], on a document that never leaves processing:
    the loop polls twice, waiting 2 s and 4 s, and gives up; the request
    made after it finds the document still in progress, so the call times
    out with a message that names "doc-42". *)
Lemma bounds_then_final_request_witness :
  fst (transcribeHandwriting scan (mkOptions None (Some 2) None None)
         neverProcessed start)
  = Throw (newError (timeoutMessage "doc-42")) /\
  pollsOf (trace (snd (transcribeHandwriting scan
                         (mkOptions None (Some 2) None None)
                         neverProcessed start)))
  = ["doc-42"; "doc-42"; "doc-42"] /\
  JS.includes (timeoutMessage "doc-42") "doc-42" = true.
Proof.
  pose (inProgress := mkResult (Some "processing") ResultsFalsy None None 202).
  pose (s2 := snd (uploadDocument scan None neverProcessed start)).
  pose (s3 := snd (delay 4000 None neverProcessed
                (snd (fetchDocumentStatus "doc-42" None neverProcessed
                  (snd (delay 2000 None neverProcessed
                    (snd (fetchDocumentStatus "doc-42" None neverProcessed
                            s2)))))))).
  assert (Hreach :
    Reaches "doc-42" None 2000 (4 * 60 * 1000) 0 neverProcessed
      [inProgress; inProgress] (2%nat, JS.ofZ 2000, s2)
      (0%nat, JS.ofZ 6000, s3)).
  { eapply reaches_step; [reflexivity..|].
    eapply reaches_step; [reflexivity..|].
    apply reaches_here. }
  destruct (bounds_then_final_request scan
              (mkOptions None (Some 2) None None) neverProcessed start
              "doc-42" s2 [inProgress; inProgress] 0%nat (JS.ofZ 6000) s3
              eq_refl Hreach (or_introl eq_refl))
    as (_ & _ & Hrun & Hname).
  split; [|split; [|exact Hname]].
  - rewrite Hrun. reflexivity.
  - rewrite Hrun. reflexivity.
Defined.

(** ** C4: waiting after HTTP 429 *)


(** The [Retry-After] header is read with [Number.parseFloat]: fractions,
    exponents and [Infinity] count, an HTTP-date does not. *)
Example retryAfterOf_examples :
  retryAfterOf (Some "5") = Some (JS.ofZ 5000) /\
  retryAfterOf (Some "1.5") = Some (JS.ofZ 1500) /\
  retryAfterOf (Some ".5") = Some (JS.ofZ 500) /\
  retryAfterOf (Some "1e1") = Some (JS.ofZ 10000) /\
  retryAfterOf (Some "0.0005") = Some (JS.finite (1 # 2)) /\
  retryAfterOf (Some "Infinity") = Some JS.posInfinity /\
  retryAfterOf (Some "Wed, 21 Oct 2015 07:28:00 GMT") = None /\
  retryAfterOf (Some "") = None /\
  retryAfterOf None = None.
Proof. repeat split; vm_compute; reflexivity. Qed.



(** The spec's own example: [Retry-After: 5] gives a wait of 5000 ms. *)
Example retry_after_five_seconds :
  delaysOf (trace (snd (transcribeHandwriting scan defaults retryAfterFive
                          start)))
  = [JS.ofZ 5000].
Proof. vm_compute. reflexivity. Qed.

(** ** C5: the transcript of a processed document *)

(** C5 as stated fails: the poll reports "processed" with a list of page
    results, and the call returns nothing: the pages hold no text, so it
    throws. *)
Lemma blank_document_throws :
  statusResponse blankDocument 2 = processed [page 1 ""] /\
  fst (transcribeHandwriting scan defaults blankDocument start)
  = Throw emptyTranscriptError /\
  fst (transcribeHandwriting scan defaults
         (worldWith (fun _ => processed [])) start)
  = Throw emptyTranscriptError.
Proof.
  repeat split; vm_compute; reflexivity.
Qed.

(** The two-page example: three polls, the pages joined by a blank line. *)
Example hello_world_transcript :
  collectTranscript (ResultsArray [page 1 "Hello"; page 2 "World"])
  = "Hello" ++ JS.LF ++ JS.LF ++ "World" /\
  fst (transcribeHandwriting scan defaults helloWorld start)
  = Ok ("Hello" ++ JS.LF ++ JS.LF ++ "World") /\
  pollsOf (trace (snd (transcribeHandwriting scan defaults helloWorld start)))
  = ["doc-42"; "doc-42"; "doc-42"].
Proof.
  repeat split; vm_compute; reflexivity.
Qed.

(** Pages are taken in the order of the array, whatever their
    [page_number]; pages without text leave no separator behind. *)
Example transcript_order_and_gaps :
  collectTranscript
    (ResultsArray [page 2 "second"; page 1 "first"; page 3 ""; None;
                   page 4 "  last  "])
  = "second" ++ JS.LF ++ JS.LF ++ "first" ++ JS.LF ++ JS.LF ++ "  last".
Proof. vm_compute. reflexivity. Qed.

(** C5, amended: when a poll of the loop reports "processed" with an array
    of page results, the call returns the non-empty page transcripts, in
    the order of the array, joined by blank lines and trimmed, provided
    that text is not empty; when it is empty the call fails with "OCR
    finished but returned empty transcript".  The request made after the
    loop returns the same text when it is not empty. *)
Theorem processed_poll_returns_transcript :
  forall file options w s documentId s2 results remaining d s3 result s4
         pages,
    uploadDocument file (o_signal options) w s = (Ok documentId, s2) ->
    Reaches documentId (o_signal options)
      (nullish (o_pollIntervalMs options) 2000)
      (nullish (o_maxWaitMs options) (4 * 60 * 1000))
      (dateNow w (clock s)) w results
      (Z.to_nat (nullish (o_maxAttempts options) 120),
       JS.ofZ (nullish (o_pollIntervalMs options) 2000), s2)
      (remaining, d, s3) ->
    fetchDocumentStatus documentId (o_signal options) w s3
    = (Ok result, s4) ->
    dr_status result = Some "processed" ->
    dr_results result = ResultsArray pages ->
    let transcript :=
      JS.trim (JS.join (JS.LF ++ JS.LF)
                 (filter JS.truthyStr (map pageText pages))) in
    let returned :=
      (Ok transcript,
       mkSt (clock s4) (trace s4 ++ [EvPersistTranscript transcript])%list)
    in
    (* a poll of the loop *)
    (remaining <> 0%nat ->
     (dateNow w (clock s3) - dateNow w (clock s)
      <? nullish (o_maxWaitMs options) (4 * 60 * 1000)) = true ->
     transcribeHandwriting file options w s
     = if JS.truthyStr transcript then returned
       else (Throw emptyTranscriptError, s4)) /\
    (* the request after the loop *)
    (remaining = 0%nat \/
     nullish (o_maxWaitMs options) (4 * 60 * 1000)
     <= dateNow w (clock s3) - dateNow w (clock s) ->
     JS.truthyStr transcript = true ->
     transcribeHandwriting file options w s = returned).
Proof.
  intros file options w s documentId s2 results remaining d s3 result s4
    pages Hup Hreach Hfetch Hst Hres transcript returned.
  assert (Hproc : isStatus result "processed" = true)
    by (unfold isStatus; now rewrite Hst).
  assert (Hcol : collectTranscript (dr_results result) = transcript)
    by (now rewrite Hres).
  pose proof (pollLoop_reaches _ _ _ _ _ _ _ _ _ Hreach) as Hloop.
  cbn [fst snd] in Hloop.
  split.
  - intros Hrem Hok.
    destruct remaining as [|remaining]; [now elim Hrem|].
    rewrite (transcribeHandwriting_run _ _ _ _ _ _ Hup), Hloop.
    rewrite (pollLoop_turn _ _ _ _ _ _ _ _ _ _ _ Hok Hfetch), Hproc.
    cbv zeta. rewrite Hcol.
    destruct (JS.truthyStr transcript); reflexivity.
  - intros Hbound Htext.
    rewrite (run_after_bounds _ _ _ _ _ _ _ _ _ _ Hup Hreach Hbound).
    rewrite Hfetch, Hproc, Hcol, Htext. reflexivity.
Qed.

(** The two-page document, found processed by the third poll of the
    loop, after waits of 2 s and 4 s. *)
Lemma processed_poll_returns_transcript_witness :
  fst (transcribeHandwriting scan defaults helloWorld start)
  = Ok ("Hello" ++ JS.LF ++ JS.LF ++ "World").
Proof.
  pose (inProgress := mkResult (Some "processing") ResultsFalsy None None 202).
  pose (s2 := snd (uploadDocument scan None helloWorld start)).
  pose (s3 := snd (delay 4000 None helloWorld
                (snd (fetchDocumentStatus "doc-42" None helloWorld
                  (snd (delay 2000 None helloWorld
                    (snd (fetchDocumentStatus "doc-42" None helloWorld
                            s2)))))))).
  assert (Hreach :
    Reaches "doc-42" None 2000 (4 * 60 * 1000) 0 helloWorld
      [inProgress; inProgress] (120%nat, JS.ofZ 2000, s2)
      (118%nat, JS.ofZ 6000, s3)).
  { eapply reaches_step; [reflexivity..|].
    eapply reaches_step; [reflexivity..|].
    apply reaches_here. }
  destruct (processed_poll_returns_transcript scan defaults helloWorld start
              "doc-42" s2 [inProgress; inProgress] 118%nat (JS.ofZ 6000) s3
              (mkResult (Some "processed")
                 (ResultsArray [page 1 "Hello"; page 2 "World"])
                 None None 200)
              (snd (fetchDocumentStatus "doc-42" None helloWorld s3))
              [page 1 "Hello"; page 2 "World"]
              eq_refl Hreach eq_refl eq_refl eq_refl)
    as (Hloop & _).
  rewrite Hloop; [reflexivity|discriminate|reflexivity].
Defined.

(** ** C6: the adaptive delay *)

(** C6 as stated fails: a 429 with [Retry-After: 60] lifts the adaptive
    delay to 45 s, above the 30 s the claim allows, and the next ordinary
    iteration takes it down to 20 s.  (On an ordinary iteration the wait is
    the adaptive delay, so the waits 45000 and 20000 of the run show
    both.) *)
Lemma adaptive_delay_can_drop :
  delaysOf (trace (snd (transcribeHandwriting scan defaults longRetryAfter
                          start)))
  = map JS.ofZ [60000; 45000; 20000] /\
  nextDelay 2000 2000
    (mkResult None ResultsFalsy (Some "Too Many Attempts.")
       (Some (JS.ofZ 60000)) 429)
  = 45000 /\
  nextDelay 2000 45000
    (mkResult (Some "processing") ResultsFalsy None None 202)
  = 20000 /\
  30000 < 45000 /\ 20000 < 45000.
Proof.
  repeat split; vm_compute; reflexivity.
Qed.

(** A stretch of ordinary iterations never takes the delay down. *)
Lemma delay_never_decreases pollIntervalMs d results :
  0 <= pollIntervalMs ->
  forall earlier later,
    results = (earlier ++ later)%list ->
    Forall (fun result => httpStatus result <> 429) later ->
    JS.leb (fold_left (nextDelay pollIntervalMs) earlier d) 20000 = true ->
    JS.leb (fold_left (nextDelay pollIntervalMs) earlier d)
      (fold_left (nextDelay pollIntervalMs) results d) = true /\
    JS.leb (fold_left (nextDelay pollIntervalMs) results d) 20000 = true.
Proof.
  intros Hp earlier later -> Hplain Hsmall. rewrite fold_left_app.
  now apply fold_nextDelay_grows.
Qed.

(** C6, amended: within one call the adaptive delay is carried from each
    iteration of the polling loop to the next without being reset.  After
    the iterations made so far the call goes on with the loop at the delay
    they computed one from the other, starting from the base interval: each
    new delay is the wait just made plus the base interval, capped at 45
    seconds after a rate-limited iteration and at 20 seconds after any
    other; the waits in the trace are those computed from the delays on the
    way, and the next wait is computed from the delay reached.  Over a
    stretch of iterations none of which is rate-limited the delay never
    decreases and stays at most 20 seconds, once it is at most 20 seconds
    (as it is from the start for a base interval of at most 20 seconds);
    after a rate-limited iteration it can drop. *)
Theorem adaptive_delay_carried_forward :
  forall file options w s documentId s2 results remaining d s3,
    uploadDocument file (o_signal options) w s = (Ok documentId, s2) ->
    Reaches documentId (o_signal options)
      (nullish (o_pollIntervalMs options) 2000)
      (nullish (o_maxWaitMs options) (4 * 60 * 1000))
      (dateNow w (clock s)) w results
      (Z.to_nat (nullish (o_maxAttempts options) 120),
       JS.ofZ (nullish (o_pollIntervalMs options) 2000), s2)
      (remaining, d, s3) ->
    0 <= nullish (o_pollIntervalMs options) 2000 ->
    let pollIntervalMs := nullish (o_pollIntervalMs options) 2000 in
    let loop :=
      pollLoop documentId (o_signal options) pollIntervalMs
        (nullish (o_maxWaitMs options) (4 * 60 * 1000))
        (dateNow w (clock s)) in
    (* the call goes on with the loop at the delay [d] *)
    transcribeHandwriting file options w s
    = match loop remaining d w s3 with
      | (Ok (Some transcript), s4) => (Ok transcript, s4)
      | (Ok None, s4) => afterLoop documentId (o_signal options) w s4
      | (Throw e, s4) => (Throw e, s4)
      end /\
    (* the delay is the one the iterations computed, one from the other *)
    d = fold_left (nextDelay pollIntervalMs) results pollIntervalMs /\
    (forall earlier result,
        results = (earlier ++ [result])%list ->
        let before :=
          fold_left (nextDelay pollIntervalMs) earlier pollIntervalMs in
        d = JS.min (JS.plus (waitMs pollIntervalMs before result)
                      pollIntervalMs)
              (if httpStatus result =? 429 then 45000 else 20000) /\
        JS.leb d (if httpStatus result =? 429 then 45000 else 20000)
        = true) /\
    (* the waits made so far *)
    delaysOf (newEvents s s3) = waitsOf pollIntervalMs pollIntervalMs results
    /\
    (* the next iteration waits as the delay [d] says *)
    (forall remaining' result s4,
        remaining = S remaining' ->
        (dateNow w (clock s3) - dateNow w (clock s)
         <? nullish (o_maxWaitMs options) (4 * 60 * 1000)) = true ->
        fetchDocumentStatus documentId (o_signal options) w s3
        = (Ok result, s4) ->
        isStatus result "processed" = false ->
        isStatus result "failed" = false ->
        loop remaining d w s3
        = (delay (waitMs pollIntervalMs d result) (o_signal options) ;;;
           loop remaining' (nextDelay pollIntervalMs d result)) w s4) /\
    (* no decrease over ordinary iterations *)
    (forall earlier later,
        results = (earlier ++ later)%list ->
        Forall (fun result => httpStatus result <> 429) later ->
        let before :=
          fold_left (nextDelay pollIntervalMs) earlier pollIntervalMs in
        JS.leb before 20000 = true ->
        JS.leb before d = true /\ JS.leb d 20000 = true).
Proof.
  intros file options w s documentId s2 results remaining d s3 Hup Hreach
    Hpoll pollIntervalMs loop.
  subst loop pollIntervalMs.
  pose proof (reaches_delay _ _ _ _ _ _ _ _ _ Hreach) as Hd.
  cbn [fst snd] in Hd.
  pose proof (pollLoop_reaches _ _ _ _ _ _ _ _ _ Hreach) as Hloop.
  cbn [fst snd] in Hloop.
  split; [|split; [exact Hd|split; [|split; [|split]]]].
  - rewrite (transcribeHandwriting_run _ _ _ _ _ _ Hup).
    now rewrite Hloop.
  - intros earlier result -> before. rewrite Hd, fold_left_app. simpl.
    split; [reflexivity|apply nextDelay_ceiling].
  - destruct (reaches_trace _ _ _ _ _ _ _ _ _ Hreach)
      as (events & T & D & _).
    cbn [fst snd] in T, D.
    assert (Tup : exists up, trace s2 = (trace s ++ up)%list /\
                             delaysOf up = []).
    { destruct (PollsAtMost_uploadDocument file (o_signal options) _ _ _ _
                  Hup) as (up & Tup & _).
      exists up. split; [exact Tup|].
      revert Hup Tup. unfold uploadDocument. run.
      destruct (JS.truthy (HANDWRITING_OCR_API_KEY w)); simpl;
        [|discriminate].
      destruct (abortedAt (o_signal options) (clock s)); simpl;
        [discriminate|].
      destruct (abortedAt (o_signal options) (S (clock s))); simpl;
        [discriminate|].
      destruct (uploadResponse w (clock s)) as [response|e]; simpl;
        [|discriminate].
      destruct (abortedAt (o_signal options) (S (S (clock s)))); simpl;
        [discriminate|].
      destruct (ur_body response) as [data|]; simpl; [|discriminate].
      destruct (ur_ok response); simpl; [|discriminate].
      destruct (JS.truthy (ub_id data)); simpl; [|discriminate].
      intros E T2. inversion E; subst. simpl in T2.
      apply app_inv_head in T2. now subst up. }
    destruct Tup as (up & Tup & Dup).
    rewrite (newEvents_app s s3 (up ++ events))
      by (rewrite T, Tup, app_assoc; reflexivity).
    unfold delaysOf in *. now rewrite flat_map_app, Dup, D.
  - intros remaining' result s4 -> Hok Hfetch Hp Hf.
    now rewrite (pollLoop_turn _ _ _ _ _ _ _ _ _ _ _ Hok Hfetch), Hp, Hf.
  - intros earlier later Hsplit Hplain before Hsmall. rewrite Hd.
    exact (delay_never_decreases _ _ results Hpoll earlier later Hsplit
             Hplain Hsmall).
Qed.

(** The two-page document: after two ordinary iterations from the default
    interval the delay has gone from 2 s over 4 s to 6 s, the waits were
    2 s and 4 s, and the call goes on to return the transcript. *)
Lemma adaptive_delay_carried_forward_witness :
  fst (transcribeHandwriting scan defaults helloWorld start)
  = Ok ("Hello" ++ JS.LF ++ JS.LF ++ "World") /\
  (exists s3,
      Reaches "doc-42" None 2000 (4 * 60 * 1000) 0 helloWorld
        (repeat (mkResult (Some "processing") ResultsFalsy None None 202) 2)
        (120%nat, JS.ofZ 2000, snd (uploadDocument scan None helloWorld start))
        (118%nat, JS.ofZ 6000, s3) /\
      delaysOf (newEvents start s3) = map JS.ofZ [2000; 4000]) /\
  JS.leb 2000 6000 = true /\ JS.leb 6000 20000 = true.
Proof.
  pose (inProgress := mkResult (Some "processing") ResultsFalsy None None 202).
  pose (s2 := snd (uploadDocument scan None helloWorld start)).
  pose (s3 := snd (delay 4000 None helloWorld
                (snd (fetchDocumentStatus "doc-42" None helloWorld
                  (snd (delay 2000 None helloWorld
                    (snd (fetchDocumentStatus "doc-42" None helloWorld
                            s2)))))))).
  assert (Hreach :
    Reaches "doc-42" None 2000 (4 * 60 * 1000) 0 helloWorld
      [inProgress; inProgress] (120%nat, JS.ofZ 2000, s2)
      (118%nat, JS.ofZ 6000, s3)).
  { eapply reaches_step; [reflexivity..|].
    eapply reaches_step; [reflexivity..|].
    apply reaches_here. }
  destruct (adaptive_delay_carried_forward scan defaults helloWorld start
              "doc-42" s2 [inProgress; inProgress] 118%nat (JS.ofZ 6000) s3
              eq_refl Hreach)
    as (Hrun & _ & _ & Hwaits & _ & Hgrow); [simpl; lia|].
  split; [rewrite Hrun; reflexivity|].
  split; [exists s3; split; [exact Hreach|exact Hwaits]|].
  apply (Hgrow [] [inProgress; inProgress] eq_refl).
  - repeat constructor; discriminate.
  - reflexivity.
Defined.

End OcrFacts.

(* ===================================================================== *)
(** * What a computation adds to the trace *)
(* ===================================================================== *)

Module TraceFacts.

Section Emits.

Variable P : Event -> bool.

Lemma Emits_same {A : Type} (m : M A) :
  (forall w s, snd (m w s) = s) -> Emits P m.
Proof.
  intros H w s r s' E. exists []. rewrite app_nil_r.
  specialize (H w s). rewrite E in H. simpl in H. now subst.
Qed.

Lemma Emits_ret {A : Type} (a : A) : Emits P (ret a).
Proof. now apply Emits_same. Qed.

Lemma Emits_throw {A : Type} (e : JsError) : Emits P (@throw A e).
Proof. now apply Emits_same. Qed.

Lemma Emits_ask {A : Type} (f : World -> A) : Emits P (ask f).
Proof. now apply Emits_same. Qed.

Lemma Emits_now : Emits P now.
Proof. now apply Emits_same. Qed.

Lemma Emits_signalAborted signal : Emits P (signalAborted signal).
Proof. now apply Emits_same. Qed.

Lemma Emits_emit (e : Event) : P e = true -> Emits P (emit e).
Proof.
  intros He w s r s' E. inversion E; subst; simpl.
  exists [e]. simpl. now rewrite He.
Qed.

Lemma Emits_bind {A B : Type} (m : M A) (k : A -> M B) :
  Emits P m -> (forall a, Emits P (k a)) -> Emits P (bind m k).
Proof.
  intros Hm Hk w s r s' E. unfold bind in E.
  destruct (m w s) as [[a|e] s1] eqn:Em.
  - destruct (Hm _ _ _ _ Em) as (d1 & T1 & F1).
    destruct (Hk a _ _ _ _ E) as (d2 & T2 & F2).
    exists (d1 ++ d2)%list. rewrite T2, T1, app_assoc. split; [reflexivity|].
    now rewrite forallb_app, F1, F2.
  - inversion E; subst. exact (Hm _ _ _ _ Em).
Qed.

Lemma Emits_tryCatch {A : Type} (m : M A) (h : JsError -> M A) :
  Emits P m -> (forall e, Emits P (h e)) -> Emits P (tryCatch m h).
Proof.
  intros Hm Hh w s r s' E. unfold tryCatch in E.
  destruct (m w s) as [[a|e] s1] eqn:Em.
  - inversion E; subst. exact (Hm _ _ _ _ Em).
  - destruct (Hm _ _ _ _ Em) as (d1 & T1 & F1).
    destruct (Hh e _ _ _ _ E) as (d2 & T2 & F2).
    exists (d1 ++ d2)%list. rewrite T2, T1, app_assoc. split; [reflexivity|].
    now rewrite forallb_app, F1, F2.
Qed.

(** An operation that only lets time pass. *)
Lemma Emits_timed {A : Type} (m : M A) :
  (forall w s, trace (snd (m w s)) = trace s) -> Emits P m.
Proof.
  intros H w s r s' E. exists []. rewrite app_nil_r.
  specialize (H w s). now rewrite E in H.
Qed.

Lemma Emits_fetch {A : Type} signal (oracle : World -> nat -> Outcome A) :
  Emits P (fetch signal oracle).
Proof.
  apply Emits_timed. intros w s. unfold fetch.
  destruct (abortedAt signal (clock (tick s))); [reflexivity|].
  now destruct (oracle w (clock s)).
Qed.

Lemma Emits_json {A : Type} signal (body : option A) :
  Emits P (json signal body).
Proof.
  apply Emits_timed. intros w s. unfold json.
  destruct (abortedAt signal (clock (tick s))); [reflexivity|].
  now destruct body.
Qed.

End Emits.

Lemma Emits_weaken (P Q : Event -> bool) {A : Type} (m : M A) :
  (forall ev, P ev = true -> Q ev = true) -> Emits P m -> Emits Q m.
Proof.
  intros HPQ Hm w s r s' E.
  destruct (Hm _ _ _ _ E) as (d & T & F). exists d. split; [exact T|].
  rewrite forallb_forall in *. auto.
Qed.

(** Composing the lemmas above along the structure of a computation. *)
Ltac emits :=
  repeat first
    [ apply Emits_ret | apply Emits_throw | apply Emits_ask | apply Emits_now
    | apply Emits_signalAborted | apply Emits_fetch | apply Emits_json
    | apply Emits_emit; reflexivity
    | apply Emits_bind; [|intros ?]
    | apply Emits_tryCatch; [|intros ?]
    | match goal with
      | |- Emits _ (if ?b then _ else _) => destruct b
      | |- Emits _ (match ?x with _ => _ end) => destruct x
      end ].

(** ** The OCR client *)

Section OcrEmits.

Variable P : Event -> bool.
Hypothesis P_ocr : forall ev, isOcrEvent ev = true -> P ev = true.

Lemma Emits_delay ms signal : Emits P (Ocr.delay ms signal).
Proof.
  unfold Ocr.delay. apply Emits_bind.
  - apply Emits_emit. now apply P_ocr.
  - intros _. apply Emits_timed. intros w s.
    now destruct (negb (abortedAt signal (clock s))
                  && abortedAt signal (clock (tick s))).
Qed.

Lemma Emits_throwIfCancelled signal : Emits P (Ocr.throwIfCancelled signal).
Proof. unfold Ocr.throwIfCancelled. emits. Qed.

Lemma Emits_uploadDocument f signal : Emits P (Ocr.uploadDocument f signal).
Proof.
  unfold Ocr.uploadDocument.
  apply Emits_bind; [apply Emits_ask|intros key].
  destruct (negb (JS.truthy key)); [apply Emits_throw|].
  apply Emits_bind; [apply Emits_throwIfCancelled|intros _].
  apply Emits_bind; [apply Emits_emit; now apply P_ocr|intros _].
  emits.
Qed.

Lemma Emits_fetchDocumentStatus documentId signal :
  Emits P (Ocr.fetchDocumentStatus documentId signal).
Proof.
  unfold Ocr.fetchDocumentStatus.
  apply Emits_bind; [apply Emits_ask|intros key].
  destruct (negb (JS.truthy key)); [apply Emits_throw|].
  apply Emits_bind; [apply Emits_throwIfCancelled|intros _].
  apply Emits_bind; [apply Emits_emit; now apply P_ocr|intros _].
  emits.
Qed.

Lemma Emits_persistTranscript t : Emits P (Ocr.persistTranscript t).
Proof. apply Emits_emit. now apply P_ocr. Qed.

Lemma Emits_pollLoop documentId signal pollIntervalMs maxWaitMs startedAt
    remaining :
  forall d,
    Emits P (Ocr.pollLoop documentId signal pollIntervalMs maxWaitMs
               startedAt remaining d).
Proof.
  induction remaining as [|remaining IH]; intros d; simpl.
  - apply Emits_ret.
  - apply Emits_bind; [apply Emits_now|intros t].
    destruct (t - startedAt <? maxWaitMs); [|apply Emits_ret].
    apply Emits_bind; [apply Emits_fetchDocumentStatus|intros result].
    destruct (Ocr.isStatus result "processed").
    + destruct (JS.truthyStr _); [|apply Emits_throw].
      apply Emits_bind; [apply Emits_persistTranscript|intros _].
      apply Emits_ret.
    + destruct (Ocr.isStatus result "failed"); [apply Emits_throw|].
      apply Emits_bind; [apply Emits_delay|intros _]. apply IH.
Qed.

Lemma Emits_afterLoop documentId signal :
  Emits P (Ocr.afterLoop documentId signal).
Proof.
  unfold Ocr.afterLoop.
  apply Emits_bind; [apply Emits_fetchDocumentStatus|intros fin].
  cbv zeta.
  destruct (Ocr.isStatus fin "processed"); [|apply Emits_throw].
  destruct (JS.truthyStr _); [|apply Emits_throw].
  apply Emits_bind; [apply Emits_persistTranscript|intros _].
  apply Emits_ret.
Qed.

Lemma Emits_transcribeHandwriting f options :
  Emits P (Ocr.transcribeHandwriting f options).
Proof.
  unfold Ocr.transcribeHandwriting. cbv zeta.
  apply Emits_bind; [apply Emits_now|intros startedAt].
  apply Emits_bind; [apply Emits_throwIfCancelled|intros _].
  apply Emits_bind; [apply Emits_uploadDocument|intros documentId].
  apply Emits_bind; [apply Emits_pollLoop|intros looped].
  destruct looped; [apply Emits_ret|apply Emits_afterLoop].
Qed.

End OcrEmits.

(** A transcript the OCR client returns is never empty. *)
Lemma pollLoop_truthy documentId signal pollIntervalMs maxWaitMs startedAt
    remaining :
  forall d w s t s',
    Ocr.pollLoop documentId signal pollIntervalMs maxWaitMs startedAt
      remaining d w s = (Ok (Some t), s') ->
    JS.truthyStr t = true.
Proof.
  induction remaining as [|remaining IH]; intros d w s t s' E; simpl in E.
  - inversion E.
  - unfold bind at 1, now in E. simpl in E.
    destruct (dateNow w (clock s) - startedAt <? maxWaitMs);
      [|inversion E].
    unfold bind at 1 in E.
    destruct (Ocr.fetchDocumentStatus documentId signal w s)
      as [[result|e] s1]; [|inversion E].
    destruct (Ocr.isStatus result "processed").
    + destruct (JS.truthyStr (Ocr.collectTranscript (Ocr.dr_results result)))
        eqn:Ht; [|inversion E].
      inversion E; subst. exact Ht.
    + destruct (Ocr.isStatus result "failed"); [inversion E|].
      unfold bind at 1 in E.
      destruct (Ocr.delay _ signal w s1) as [[[]|e] s2]; [|inversion E].
      eapply IH. exact E.
Qed.

Lemma transcribeHandwriting_truthy f options w s t s' :
  Ocr.transcribeHandwriting f options w s = (Ok t, s') ->
  JS.truthyStr t = true.
Proof.
  unfold Ocr.transcribeHandwriting. cbv zeta. intros E.
  unfold bind at 1, now in E. simpl in E.
  unfold bind at 1 in E.
  destruct (Ocr.throwIfCancelled (Ocr.o_signal options) w s)
    as [[[]|e] s0]; [|inversion E].
  unfold bind at 1 in E.
  destruct (Ocr.uploadDocument f (Ocr.o_signal options) w s0)
    as [[documentId|e] s1]; [|inversion E].
  unfold bind at 1 in E.
  destruct (Ocr.pollLoop _ _ _ _ _ _ _ w s1) as [[[t'|]|e] s2] eqn:El;
    [| |inversion E].
  - inversion E; subst. eapply pollLoop_truthy. exact El.
  - unfold Ocr.afterLoop, bind at 1 in E.
    destruct (Ocr.fetchDocumentStatus documentId _ w s2)
      as [[fin|e] s3]; [|inversion E].
    cbv zeta in E.
    destruct (Ocr.isStatus fin "processed"); [|inversion E].
    destruct (JS.truthyStr (Ocr.collectTranscript (Ocr.dr_results fin)))
      eqn:Ht; [|inversion E].
    inversion E; subst. exact Ht.
Qed.

End TraceFacts.

(* ===================================================================== *)
(** * Facts about aiAgent.ts *)
(* ===================================================================== *)

Module AgentFacts.
Import Agent Observe OcrExamples AgentExamples TraceFacts.

(** ** Computations that honour the signal *)

Lemma isCancelled_cancelledError : isCancelled cancelledError = true.
Proof. reflexivity. Qed.

Lemma isCancelled_abortError : isCancelled abortError = true.
Proof. reflexivity. Qed.

Section Honours.

Variable signal : option AbortSignal.

Lemma Honours_instant {A : Type} (m : M A) :
  Instant m -> Honours signal m.
Proof.
  intros Hm w s r s' Hs E Hs'.
  specialize (Hm w s). rewrite E in Hm. simpl in Hm. congruence.
Qed.

Lemma Honours_ret {A : Type} (a : A) : Honours signal (ret a).
Proof. now apply Honours_instant. Qed.

Lemma Honours_throw {A : Type} (e : JsError) : Honours signal (@throw A e).
Proof. now apply Honours_instant. Qed.

Lemma Honours_ask {A : Type} (f : World -> A) : Honours signal (ask f).
Proof. now apply Honours_instant. Qed.

Lemma Honours_emit (e : Event) : Honours signal (emit e).
Proof. now apply Honours_instant. Qed.

Lemma Honours_signalAborted sig : Honours signal (signalAborted sig).
Proof. now apply Honours_instant. Qed.

Lemma Honours_bind {A B : Type} (m : M A) (k : A -> M B) :
  Honours signal m -> (forall a, Honours signal (k a)) ->
  Honours signal (bind m k).
Proof.
  intros Hm Hk w s r s' Hs E Hs'. unfold bind in E.
  destruct (m w s) as [[a|e] s1] eqn:Em.
  - destruct (abortedAt signal (clock s1)) eqn:Hs1.
    + destruct (Hm _ _ _ _ Hs Em Hs1) as (e & He & _). discriminate.
    + exact (Hk a _ _ _ _ Hs1 E Hs').
  - inversion E; subst.
    destruct (Hm _ _ _ _ Hs Em Hs') as (e' & He & Hc).
    exists e'. split; [congruence|exact Hc].
Qed.

Lemma Honours_fetch {A : Type} (oracle : World -> nat -> Outcome A) :
  Honours signal (fetch signal oracle).
Proof.
  intros w s r s' _ E Hs'. unfold fetch in E.
  destruct (abortedAt signal (clock (tick s))) eqn:Ht.
  - inversion E; subst. exists abortError. split; reflexivity.
  - destruct (oracle w (clock s)); inversion E; subst; congruence.
Qed.

Lemma Honours_json {A : Type} (body : option A) :
  Honours signal (json signal body).
Proof.
  intros w s r s' _ E Hs'. unfold json in E.
  destruct (abortedAt signal (clock (tick s))) eqn:Ht.
  - inversion E; subst. exists abortError. split; reflexivity.
  - destruct body; inversion E; subst; congruence.
Qed.

End Honours.

Ltac honours :=
  repeat first
    [ apply Honours_ret | apply Honours_throw | apply Honours_ask
    | apply Honours_emit | apply Honours_signalAborted
    | apply Honours_fetch | apply Honours_json
    | apply Honours_bind; [|intros ?]
    | match goal with
      | |- Honours _ (if ?b then _ else _) => destruct b
      | |- Honours _ (match ?x with _ => _ end) => destruct x
      end ].

Lemma Honours_runOpenAIStyleModel bundle modelId apiKey baseUrl name signal :
  Honours signal
    (runOpenAIStyleModel bundle modelId apiKey baseUrl name signal).
Proof. unfold runOpenAIStyleModel. honours. Qed.

Lemma Honours_runGeminiModel bundle modelId apiKey baseUrl name signal :
  Honours signal (runGeminiModel bundle modelId apiKey baseUrl name signal).
Proof. unfold runGeminiModel. honours. Qed.

Lemma Honours_routeModel bundle config signal :
  Honours signal (routeModel bundle config signal).
Proof.
  unfold routeModel. cbv zeta.
  apply Honours_bind; [apply Honours_signalAborted|intros aborted].
  destruct aborted; [apply Honours_throw|].
  destruct (provider (modelSettings config));
    (apply Honours_bind; [apply Honours_ask|intros apiKey]);
    (apply Honours_bind; [apply Honours_ask|intros baseUrl]);
    first [apply Honours_runOpenAIStyleModel|apply Honours_runGeminiModel].
Qed.

(** The router checks the signal before anything else: whenever it ends at
    a time when the signal is aborted, it has thrown a cancellation. *)
Lemma routeModel_cancels bundle config signal w s r s' :
  routeModel bundle config signal w s = (r, s') ->
  abortedAt signal (clock s') = true ->
  exists e, r = Throw e /\ isCancelled e = true.
Proof.
  intros E Hs'.
  destruct (abortedAt signal (clock s)) eqn:Hs.
  - unfold routeModel in E. cbv zeta in E.
    unfold bind at 1, signalAborted in E. rewrite Hs in E.
    inversion E. exists cancelledError. split; reflexivity.
  - exact (Honours_routeModel bundle config signal _ _ _ _ Hs E Hs').
Qed.

(** ** The agent on examples *)

(** A first run over a fresh scan: OCR, then grading. *)
Example fresh_scan_run :
  trace (snd (processEssayAgent freshScan openaiConfig
                (mkOptions false neverAborted)
                (agentWorld (Some "sk-test") true) start))
  = [EvProgress (mkProgress None ocr "正在执行手写OCR...");
     EvOcrUpload scan;
     EvOcrPoll "doc-42";
     EvPersistTranscript "Dear teacher, new scan";
     EvProgress (mkProgress (Some "Dear teacher, new scan") ocr_complete
                   "OCR完成，准备批改");
     EvProgress (mkProgress None grading "AI批改中...");
     EvModelRequest "https://api.openai.com/v1/chat/completions";
     EvProgress (mkProgress None done "批改完成")].
Proof. vm_compute. reflexivity. Qed.

(** Only image essays go through OCR: a typed essay is graded directly,
    with or without [skipOcr]. *)
Example typed_essay_run :
  trace (snd (processEssayAgent editedEssay openaiConfig
                (mkOptions false neverAborted)
                (agentWorld (Some "sk-test") true) start))
  = [EvProgress (mkProgress None grading "AI批改中...");
     EvModelRequest "https://api.openai.com/v1/chat/completions";
     EvProgress (mkProgress None done "批改完成")].
Proof. vm_compute. reflexivity. Qed.

(** The [cancelled] test of the [catch] block on the errors of the model. *)
Example isCancelled_examples :
  isCancelled (newError "Processing cancelled") = true /\
  isCancelled abortError = true /\
  isCancelled progressEvent = false /\
  isCancelled (newError "OpenAI API key is missing") = false /\
  isCancelled (mkError "TypeError" (Some "Failed to fetch")) = false.
Proof. repeat split; reflexivity. Qed.

(** ** C7: no key, no request *)

(** C7 as stated fails: with no OpenAI key configured, a request whose
    signal is already aborted fails with "Processing cancelled", an error
    that does not name the key.  The agent reaches this when the user
    aborts while the image is read for the prompt: the essay ends up
    cancelled, not failed for the missing key. *)
Lemma aborted_request_hides_missing_key :
  OPENAI_API_KEY (agentWorld None true) = None /\
  routeModel aBundle openaiConfig (abortedFromTime 0) (agentWorld None true)
    start
  = (Throw (newError "Processing cancelled"), start) /\
  JS.includes "Processing cancelled" "key" = false /\
  option_map errorMessage
    (match fst (processEssayAgent freshScan openaiConfig
                  (mkOptions true (abortedFromTime 1))
                  (agentWorld None true) start) with
     | Ok record => Some record
     | Throw _ => None
     end)
  = Some (Some CANCELLED_MESSAGE).
Proof.
  repeat split; vm_compute; reflexivity.
Qed.

(** C7, amended: for every grading request routed to provider "openai"
    while no OpenAI API key is configured, the router fails at once, without
    any HTTP request, any other event or any lapse of time: with "OpenAI API
    key is missing" when the request's signal is not aborted, and with
    "Processing cancelled" when it already is. *)
Theorem openai_without_key_fails_fast :
  forall w bundle config signal s,
    provider (modelSettings config) = openai ->
    JS.truthy (OPENAI_API_KEY w) = false ->
    routeModel bundle config signal w s
    = (Throw (if abortedAt signal (clock s)
              then newError "Processing cancelled"
              else newError "OpenAI API key is missing"),
       s).
Proof.
  intros w bundle config signal s Hprov Hkey.
  unfold routeModel. cbv zeta. rewrite Hprov.
  unfold bind at 1, signalAborted.
  destruct (abortedAt signal (clock s)); [reflexivity|].
  unfold bind at 1, ask. unfold bind at 1.
  unfold runOpenAIStyleModel. rewrite Hkey. reflexivity.
Qed.

Lemma openai_without_key_fails_fast_witness :
  routeModel aBundle openaiConfig neverAborted (agentWorld (Some "") true)
    start
  = (Throw (newError "OpenAI API key is missing"), start).
Proof.
  apply (openai_without_key_fails_fast (agentWorld (Some "") true) aBundle
           openaiConfig neverAborted start); reflexivity.
Defined.

(** ** The two halves of the agent's [try] block *)

Lemma orS_empty (t : string) : JS.orS t "" = t.
Proof. now destruct t. Qed.

Lemma orS_truthy (t u : string) : JS.truthyStr t = true -> JS.orS t u = t.
Proof. unfold JS.orS. now intros ->. Qed.

(** The text the [catch] block stores when no transcript was captured. *)
Lemma failed_text_initial essay :
  JS.orS (initialText essay)
    (JS.orS (ocrText essay) (JS.orStr (rawText essay) ""))
  = initialText essay.
Proof.
  unfold initialText, JS.orS, JS.orStr.
  destruct (rawText essay) as [[|c r]|]; simpl;
    destruct (ocrText essay); reflexivity.
Qed.

Lemma initialText_without_rawText essay :
  JS.truthy (rawText essay) = false -> initialText essay = ocrText essay.
Proof.
  unfold initialText, JS.orStr, JS.orS.
  destruct (rawText essay) as [[|c r]|]; simpl; try discriminate;
    intros _; now destruct (ocrText essay).
Qed.

Lemma Emits_setProgress P ocrText step message :
  P (EvProgress (mkProgress ocrText step message)) = true ->
  Emits P (setProgress ocrText step message).
Proof. intros H. now apply Emits_emit. Qed.

Lemma Emits_fileToBase64 P f :
  P (EvFileRead f) = true -> Emits P (fileToBase64 f).
Proof.
  intros H. unfold fileToBase64.
  apply Emits_bind; [now apply Emits_emit|intros _].
  apply Emits_timed. intros w s. now destruct (readFile w f).
Qed.

Lemma Emits_buildPromptBundle essay config providedText :
  Emits isGradingEvent (buildPromptBundle essay config providedText).
Proof.
  unfold buildPromptBundle. cbv zeta.
  destruct (JS.truthyStr _); [apply Emits_ret|].
  destruct (file essay) as [f|]; [|apply Emits_throw].
  apply Emits_bind; [now apply Emits_fileToBase64|intros fileData].
  apply Emits_ret.
Qed.

Lemma Emits_routeModel bundle config signal :
  Emits isGradingEvent (routeModel bundle config signal).
Proof.
  unfold routeModel, runOpenAIStyleModel, runGeminiModel. cbv zeta. emits.
Qed.

(** The grading half reads the image, calls the model and reports the steps
    "grading" and "done"; nothing else. *)
Lemma Emits_gradePhase essay config options textForModel :
  Emits isGradingEvent (gradePhase essay config options textForModel).
Proof.
  unfold gradePhase.
  apply Emits_bind.
  { destruct (skipOcr options); now apply Emits_setProgress. }
  intros _.
  apply Emits_bind; [apply Emits_signalAborted|intros aborted].
  destruct aborted; [apply Emits_throw|].
  apply Emits_bind; [apply Emits_buildPromptBundle|intros bundle].
  apply Emits_bind; [apply Emits_routeModel|intros jsonText].
  apply Emits_bind; [apply Emits_ask|intros parsed].
  destruct parsed.
  - apply Emits_throw.
  - apply Emits_bind; [now apply Emits_setProgress|intros _].
    apply Emits_throw.
  - apply Emits_bind; [now apply Emits_setProgress|intros _].
    apply Emits_bind; [apply Emits_ask|intros today]. apply Emits_ret.
Qed.

(** How the first half ends: cancelled at its entry check; or with the text
    it was given, having reported no transcript; or with a fresh, non-empty
    transcript, having reported it. *)
Lemma ocrPhase_cases essay options textForModel w s r s1 :
  ocrPhase essay options textForModel w s = (r, s1) ->
  (r = Throw cancelledError /\ s1 = s /\
   abortedAt (signal options) (clock s) = true) \/
  (r = Ok textForModel /\
   exists d, trace s1 = (trace s ++ d)%list /\
             forallb carriesNoText d = true) \/
  (exists t d,
      r = Ok t /\ JS.truthyStr t = true /\
      trace s1 = (trace s ++ d)%list /\
      In (EvProgress (mkProgress (Some t) ocr_complete "OCR完成，准备批改")) d).
Proof.
  unfold ocrPhase. unfold bind at 1, signalAborted.
  destruct (abortedAt (signal options) (clock s)) eqn:Hab.
  { intros E. inversion E. left. repeat split. }
  intros E. right.
  assert (Hplain :
    (ret textForModel : M string) w s = (r, s1) ->
    r = Ok textForModel /\
    exists d, trace s1 = (trace s ++ d)%list /\
              forallb carriesNoText d = true).
  { intros E'. inversion E'; subst. split; [reflexivity|].
    exists []. now rewrite app_nil_r. }
  destruct (submissionType essay), (file essay) as [f|], (skipOcr options);
    try (left; apply Hplain; exact E).
  clear Hplain.
  unfold bind at 1, setProgress, emit in E.
  unfold tryCatch in E. unfold bind at 1 in E.
  set (sa := {| clock := clock s;
                trace := (trace s ++ [EvProgress
                  (mkProgress None ocr "正在执行手写OCR...")])%list |}) in *.
  destruct (Ocr.transcribeHandwriting f
              (Ocr.mkOptions None None None (signal options)) w sa)
    as [[t|e] sb] eqn:Eocr.
  - right.
    assert (Hocr : forall ev, isOcrEvent ev = true -> carriesNoText ev = true)
      by (intros ev; now destruct ev).
    destruct (Emits_transcribeHandwriting carriesNoText Hocr f _ _ _ _ _ Eocr)
      as (d & Td & _).
    unfold bind at 1 in E. simpl in E. inversion E; subst; simpl.
    exists t.
    exists ([EvProgress (mkProgress None ocr "正在执行手写OCR...")] ++ d
            ++ [EvProgress
                  (mkProgress (Some t) ocr_complete "OCR完成，准备批改")])%list.
    split; [reflexivity|].
    split; [exact (transcribeHandwriting_truthy _ _ _ _ _ _ Eocr)|].
    split.
    + rewrite Td. unfold sa. simpl. rewrite <- !app_assoc. reflexivity.
    + apply in_or_app. right. apply in_or_app. right. now left.
  - left.
    assert (Hocr : forall ev, isOcrEvent ev = true -> carriesNoText ev = true)
      by (intros ev; now destruct ev).
    destruct (Emits_transcribeHandwriting carriesNoText Hocr f _ _ _ _ _ Eocr)
      as (d & Td & Fd).
    unfold bind at 1 in E. simpl in E. inversion E; subst; simpl.
    split; [now rewrite orS_empty|].
    exists ([EvProgress (mkProgress None ocr "正在执行手写OCR...")] ++ d
            ++ [EvProgress
                  (mkProgress None ocr "OCR失败，继续尝试直接批改")])%list.
    split.
    + rewrite Td. unfold sa. simpl. rewrite <- !app_assoc. reflexivity.
    + simpl. rewrite forallb_app, Fd. reflexivity.
Qed.

Lemma buildPromptBundle_cases essay config providedText w s r s1 :
  buildPromptBundle essay config providedText w s = (r, s1) ->
  clock s1 = clock s \/
  (exists bundle, r = Ok bundle) \/
  (exists f e,
      readFile w f = Rejected e /\
      trace s1 = (trace s ++ [EvFileRead f])%list).
Proof.
  unfold buildPromptBundle. cbv zeta.
  destruct (JS.truthyStr _).
  { intros E. inversion E. now left. }
  destruct (file essay) as [f|].
  2:{ intros E. inversion E. now left. }
  unfold fileToBase64. run.
  destruct (readFile w f) as [d|e] eqn:Er; intros E; inversion E; subst.
  - right. left. eauto.
  - right. right. exists f, e. split; [exact Er|reflexivity].
Qed.

(** The grading half checks the signal first and hands it to the router:
    it can end at a time when the signal is aborted only by throwing a
    cancellation, or on a failed read of the image, which is then the last
    event of the trace. *)
Lemma gradePhase_cancels essay config options textForModel w s r s' :
  gradePhase essay config options textForModel w s = (r, s') ->
  abortedAt (signal options) (clock s') = true ->
  (exists e, r = Throw e /\ isCancelled e = true) \/
  (exists f e before,
      readFile w f = Rejected e /\
      trace s' = (trace s ++ before ++ [EvFileRead f])%list).
Proof.
  intros E Hs'. unfold gradePhase in E.
  set (body := bind (signalAborted (signal options)) _) in E.
  assert (Hbody : forall sa opening,
             clock sa = clock s ->
             trace sa = (trace s ++ opening)%list ->
             body w sa = (r, s') ->
             (exists e, r = Throw e /\ isCancelled e = true) \/
             (exists f e before,
                 readFile w f = Rejected e /\
                 trace s' = (trace s ++ before ++ [EvFileRead f])%list)).
  { clear E. intros sa opening Hsa Hta E. unfold body in E. clear body.
    unfold bind at 1, signalAborted in E. rewrite Hsa in E.
    destruct (abortedAt (signal options) (clock s)) eqn:Hs.
    { inversion E. left. exists cancelledError. split; reflexivity. }
    unfold bind at 1 in E.
    destruct (buildPromptBundle essay config textForModel w sa)
      as [[bundle|e] sb] eqn:Eb.
    2:{ inversion E; subst.
        destruct (buildPromptBundle_cases _ _ _ _ _ _ _ Eb)
          as [Hc | [(b & Hb) | (f & e' & Hr & Ht)]].
        - congruence.
        - discriminate.
        - right. exists f, e', opening. split; [exact Hr|].
          now rewrite Ht, Hta, <- app_assoc. }
    unfold bind at 1 in E.
    destruct (routeModel bundle config (signal options) w sb)
      as [[jsonText|e] sc] eqn:Er.
    2:{ inversion E; subst.
        destruct (routeModel_cancels _ _ _ _ _ _ _ Er Hs')
          as (e' & He & Hc).
        left. exists e'. split; [congruence|exact Hc]. }
    assert (Hsc : abortedAt (signal options) (clock sc) = false).
    { destruct (abortedAt (signal options) (clock sc)) eqn:Hsc;
        [|reflexivity].
      destruct (routeModel_cancels _ _ _ _ _ _ _ Er Hsc) as (e' & He & _).
      discriminate. }
    assert (Hclock : clock s' = clock sc).
    { revert E. run.
      destruct (parseReply w jsonText); intros E; inversion E; reflexivity. }
    congruence. }
  unfold bind at 1 in E.
  destruct (skipOcr options).
  - apply (Hbody (mkSt (clock s)
                    (trace s ++ [EvProgress
                       (mkProgress None grading "AI批改重试中...")]))
             [EvProgress (mkProgress None grading "AI批改重试中...")]
             eq_refl eq_refl E).
  - apply (Hbody (mkSt (clock s)
                    (trace s ++ [EvProgress
                       (mkProgress None grading "AI批改中...")]))
             [EvProgress (mkProgress None grading "AI批改中...")]
             eq_refl eq_refl E).
Qed.

(** A trace that ends with the failed read of a file. *)
Lemma endedInFailedRead_last w before f e :
  readFile w f = Rejected e ->
  endedInFailedRead w (before ++ [EvFileRead f]) = true.
Proof.
  intros Hr. unfold endedInFailedRead.
  rewrite rev_app_distr. simpl. now rewrite Hr.
Qed.

(** ** C2: a cancelled run *)

(** The agent catches everything: it always resolves to a record. *)
Lemma processEssayAgent_resolves essay config options w s :
  exists record,
    fst (processEssayAgent essay config options w s) = Ok record.
Proof.
  unfold processEssayAgent.
  destruct (ocrPhase essay options (initialText essay) w s) as [[t|e] s1];
    [|eexists; reflexivity].
  destruct (gradePhase essay config options t w s1) as [[g|e] s2];
    eexists; reflexivity.
Qed.

(** What the [catch] block makes of a cancellation. *)
Lemma failed_cancelled essay textForModel e :
  isCancelled e = true ->
  status (failed essay textForModel e) = CANCELLED /\
  progressStep (failed essay textForModel e) = Some cancelled /\
  progressMessage (failed essay textForModel e) = Some CANCELLED_MESSAGE /\
  errorMessage (failed essay textForModel e) = Some CANCELLED_MESSAGE /\
  ocrText (failed essay textForModel e)
  = JS.orS textForModel
      (JS.orS (ocrText essay) (JS.orStr (rawText essay) "")).
Proof.
  intros H. unfold failed. rewrite H. repeat split.
Qed.

(** C2 as stated fails, twice over.  (1) A typed essay whose displayed text
    ("I go to school.") differs from its raw text is cancelled before it
    starts: the record is CANCELLED, but its [ocrText] is the raw text; the
    text it held is not kept.  (2) A scan without text is retried; the user
    aborts while the image is being read for the prompt and that read
    fails: the signal is aborted when the run ends, and the record is in
    the generic ERROR state. *)
Lemma cancelled_run_counterexamples :
  (* (1) *)
  ocrText editedEssay = "I go to school." /\
  (exists record,
      fst (processEssayAgent editedEssay openaiConfig
             (mkOptions true (abortedFromTime 0))
             (agentWorld (Some "sk-test") true) start) = Ok record /\
      status record = CANCELLED /\
      ocrText record = "I goes to school.") /\
  (* (2) *)
  (exists record,
      processEssayAgent freshScan openaiConfig
        (mkOptions true (abortedFromTime 1))
        (agentWorld (Some "sk-test") false) start
      = (Ok record,
         mkSt 1 [EvProgress (mkProgress None grading "AI批改重试中...");
                 EvFileRead scan]) /\
      abortedAt (abortedFromTime 1) 1 = true /\
      status record = ERROR /\
      progressStep record = Some error /\
      errorMessage record = Some "Processing failed").
Proof.
  split; [reflexivity|]. split.
  - eexists. repeat split; vm_compute; reflexivity.
  - eexists. repeat split; vm_compute; reflexivity.
Qed.

(** C2, amended: whenever the signal of a run is aborted by the time the
    run ends, and the run did not end in a failed read of the image file
    (the one awaited step the signal does not reach), [processEssayAgent]
    resolves to a record with status CANCELLED and progress step
    "cancelled", whose progress and error messages say so.  The [ocrText]
    of that record is the transcript captured during this run when its OCR
    step succeeded; otherwise it is the essay's raw text when it has one,
    and the essay's stored OCR text when it has no raw text. *)
Theorem cancelled_run_record :
  forall w essay config options sig s,
    signal options = Some sig ->
    isAborted sig
      (clock (snd (processEssayAgent essay config options w s))) = true ->
    endedInFailedRead w
      (newEvents s (snd (processEssayAgent essay config options w s)))
    = false ->
    exists record,
      fst (processEssayAgent essay config options w s) = Ok record /\
      status record = CANCELLED /\
      progressStep record = Some cancelled /\
      progressMessage record = Some CANCELLED_MESSAGE /\
      errorMessage record = Some CANCELLED_MESSAGE /\
      ((exists transcript,
           In (EvProgress
                 (mkProgress (Some transcript) ocr_complete
                    "OCR完成，准备批改"))
              (newEvents s (snd (processEssayAgent essay config options w s)))
           /\ ocrText record = transcript) \/
       (forallb carriesNoText
          (newEvents s (snd (processEssayAgent essay config options w s)))
        = true /\
        ocrText record = JS.orStr (rawText essay) (ocrText essay) /\
        (JS.truthy (rawText essay) = false ->
         ocrText record = ocrText essay))).
Proof.
  intros w essay config options sig s Hsig Hab Hread.
  assert (Hinit : initialText essay = JS.orStr (rawText essay) (ocrText essay)).
  { unfold initialText. now rewrite orS_empty. }
  unfold processEssayAgent in *.
  destruct (ocrPhase essay options (initialText essay) w s)
    as [[t|e] s1] eqn:Eocr.
  - assert (Td : exists d, trace s1 = (trace s ++ d)%list).
    { destruct (ocrPhase_cases _ _ _ _ _ _ _ Eocr)
        as [(Hr & _) | [(_ & d & Td & _) | (t' & d & _ & _ & Td & _)]];
        [discriminate|eauto|eauto]. }
    destruct Td as (d0 & Td0).
    assert (Hcancel : forall r s2,
               gradePhase essay config options t w s1 = (r, s2) ->
               isAborted sig (clock s2) = true ->
               endedInFailedRead w (newEvents s s2) = false ->
               exists e, r = Throw e /\ isCancelled e = true).
    { intros r s2 Eg Hab2 Hread2.
      assert (Habs : abortedAt (signal options) (clock s2) = true)
        by (rewrite Hsig; exact Hab2).
      destruct (gradePhase_cancels _ _ _ _ _ _ _ _ Eg Habs)
        as [Hc | (f & e & before & Hr & Tg)]; [exact Hc|].
      rewrite (newEvents_app s s2 ((d0 ++ before) ++ [EvFileRead f]))
        in Hread2
        by (rewrite Tg, Td0, <- !app_assoc; reflexivity).
      rewrite (endedInFailedRead_last _ _ _ _ Hr) in Hread2.
      discriminate. }
    destruct (gradePhase essay config options t w s1)
      as [[g|e] s2] eqn:Eg; cbn [fst snd] in Hab, Hread.
    + destruct (Hcancel _ _ eq_refl Hab Hread) as (e & He & _).
      discriminate.
    + destruct (Hcancel _ _ eq_refl Hab Hread) as (e' & He & Hc).
      injection He as <-.
      destruct (failed_cancelled essay t e Hc) as (H1 & H2 & H3 & H4 & H5).
      exists (failed essay t e). cbn [fst snd].
      repeat (split; [assumption || reflexivity|]).
      destruct (Emits_gradePhase _ _ _ _ _ _ _ _ Eg) as (dg & Tg & Fg).
      assert (Fg' : forallb carriesNoText dg = true).
      { rewrite forallb_forall in *. intros ev Hin.
        specialize (Fg ev Hin). destruct ev; try reflexivity.
        simpl in *. now destruct (pu_ocrText u). }
      destruct (ocrPhase_cases _ _ _ _ _ _ _ Eocr)
        as [(Hr & _) | [(Hr & d & Td & Fd) | (t' & d & Hr & Ht & Td & Hin)]].
      * discriminate.
      * injection Hr as ->. right.
        rewrite (newEvents_app s s2 (d ++ dg))
          by (rewrite Tg, Td, app_assoc; reflexivity).
        split; [now rewrite forallb_app, Fd, Fg'|].
        rewrite H5, failed_text_initial.
        split; [exact Hinit|].
        apply initialText_without_rawText.
      * injection Hr as ->. left. exists t'.
        rewrite (newEvents_app s s2 (d ++ dg))
          by (rewrite Tg, Td, app_assoc; reflexivity).
        split; [apply in_or_app; now left|].
        rewrite H5. now apply orS_truthy.
  - simpl in Hab.
    destruct (ocrPhase_cases _ _ _ _ _ _ _ Eocr)
      as [(Hr & Hs & _) | [(Hr & _) | (t' & d & Hr & _)]];
      try discriminate.
    injection Hr as ->. subst s1.
    destruct (failed_cancelled essay (initialText essay) cancelledError
                isCancelled_cancelledError) as (H1 & H2 & H3 & H4 & H5).
    exists (failed essay (initialText essay) cancelledError). cbn [fst snd].
    repeat (split; [assumption || reflexivity|]).
    right. rewrite (newEvents_app s s []) by now rewrite app_nil_r.
    split; [reflexivity|].
    rewrite H5, failed_text_initial.
    split; [exact Hinit|].
    apply initialText_without_rawText.
Qed.

(** The scan that already has OCR text is retried on a host that cannot
    read its image file, and the user aborts while the request to the model
    is in flight: the file is never read, the record is cancelled and
    still holds "Dear teacher". *)
Lemma cancelled_run_record_witness :
  exists record,
    fst (processEssayAgent scannedEssay openaiConfig
           (mkOptions true (abortedFromTime 1))
           (agentWorld (Some "sk-test") false) start) = Ok record /\
    status record = CANCELLED /\
    progressStep record = Some cancelled /\
    ocrText record = "Dear teacher".
Proof.
  destruct (cancelled_run_record (agentWorld (Some "sk-test") false)
              scannedEssay openaiConfig
              (mkOptions true (abortedFromTime 1)) (mkSignal (Some 1%nat))
              start eq_refl)
    as (record & Hr & Hst & Hstep & _ & _ & Htext).
  - vm_compute. reflexivity.
  - vm_compute. reflexivity.
  - exists record. repeat (split; [assumption|]).
    destruct Htext as [(t & Hin & _) | (_ & _ & Hkeep)].
    + vm_compute in Hin. destruct Hin as [Hin | [Hin | []]]; discriminate.
    + apply Hkeep. reflexivity.
Defined.

End AgentFacts.

(* ===================================================================== *)
(** * Facts about App.tsx *)
(* ===================================================================== *)

Module AppFacts.
Import App Agent Observe OcrExamples AgentExamples AppExamples TraceFacts
  AgentFacts.

Lemma grading_event_is_no_ocr_call ev :
  isGradingEvent ev = true -> negb (isOcrCall ev) = true.
Proof. now destruct ev. Qed.

(** The grading half opens with its progress report. *)
Lemma gradePhase_opens essay config options textForModel w s r s' :
  gradePhase essay config options textForModel w s = (r, s') ->
  exists rest,
    trace s'
    = (trace s
       ++ EvProgress
            (mkProgress None grading
               (if skipOcr options then "AI批改重试中..." else "AI批改中..."))
       :: rest)%list /\
    forallb isGradingEvent rest = true.
Proof.
  intros E. unfold gradePhase in E.
  set (body := bind (signalAborted (signal options)) _) in E.
  assert (Hbody : Emits isGradingEvent body).
  { unfold body.
    apply Emits_bind; [apply Emits_signalAborted|intros aborted].
    destruct aborted; [apply Emits_throw|].
    apply Emits_bind; [apply Emits_buildPromptBundle|intros bundle].
    apply Emits_bind; [apply Emits_routeModel|intros jsonText].
    apply Emits_bind; [apply Emits_ask|intros parsed].
    destruct parsed.
    - apply Emits_throw.
    - apply Emits_bind; [now apply Emits_setProgress|intros _].
      apply Emits_throw.
    - apply Emits_bind; [now apply Emits_setProgress|intros _].
      apply Emits_bind; [apply Emits_ask|intros today]. apply Emits_ret. }
  unfold bind at 1 in E.
  destruct (skipOcr options);
    destruct (Hbody _ _ _ _ E) as (rest & T & F);
    exists rest; (split; [|exact F]);
    rewrite T; simpl; rewrite <- app_assoc; reflexivity.
Qed.

(** With [skipOcr] the agent does nothing before grading: a run whose
    signal is aborted from the start adds no event at all, any other opens
    with the report of the step "grading"; all it does belongs to
    grading. *)
Lemma processEssayAgent_skipOcr essay config signal w s :
  exists d,
    trace (snd (processEssayAgent essay config (mkOptions true signal) w s))
    = (trace s ++ d)%list /\
    forallb isGradingEvent d = true /\
    if abortedAt signal (clock s) then d = []
    else exists rest,
           d = EvProgress (mkProgress None grading "AI批改重试中...") :: rest.
Proof.
  unfold processEssayAgent.
  destruct (ocrPhase essay (mkOptions true signal) (initialText essay) w s)
    as [[t|e] s1] eqn:Eocr.
  - assert (Hs1 : s1 = s /\ abortedAt signal (clock s) = false).
    { revert Eocr. unfold ocrPhase. run.
      destruct (abortedAt signal (clock s)); [discriminate|].
      destruct (submissionType essay), (file essay);
        intros E; now inversion E. }
    destruct Hs1 as (-> & ->).
    destruct (gradePhase essay config (mkOptions true signal) t w s)
      as [[g|e] s2] eqn:Eg;
      destruct (gradePhase_opens _ _ _ _ _ _ _ _ Eg) as (rest & T & F);
      simpl in T; cbn [snd];
      (eexists; split; [exact T|]; split; [exact F|eauto]).
  - assert (Hs1 : s1 = s /\ abortedAt signal (clock s) = true).
    { revert Eocr. unfold ocrPhase. run.
      destruct (abortedAt signal (clock s)); [intros E; now inversion E|].
      destruct (submissionType essay), (file essay); discriminate. }
    destruct Hs1 as (-> & ->). exists []. cbn [snd]. rewrite app_nil_r. auto.
Qed.

(** A new controller is not aborted. *)
Lemma new_controller_not_aborted w essayId t :
  isAborted (mkSignal (userAborts w essayId t)) t = false.
Proof.
  unfold isAborted, userAborts. cbn [abortedFrom].
  destruct (abortsAfter w essayId t) as [later|]; cbn [option_map];
    [|reflexivity].
  apply Nat.leb_gt. lia.
Qed.




(** A retry of the scan that already has OCR text: the essay is sent to the
    model as it is and comes back graded. *)
Example retry_of_scanned_essay :
  trace (fst (handleRetry "e8" (agentWorld (Some "sk-test") true) start
                idleApp))
  = [EvProgress (mkProgress None grading "AI批改重试中...");
     EvModelRequest "https://api.openai.com/v1/chat/completions";
     EvProgress (mkProgress None done "批改完成")] /\
  map (fun e => (id e, status e, ocrText e))
    (essays (snd (handleRetry "e8" (agentWorld (Some "sk-test") true) start
                    idleApp)))
  = [("e7", COMPLETED, "I go to school.");
     ("e8", COMPLETED, "Dear teacher");
     ("e9", PENDING, "")] /\
  abortControllers (snd (handleRetry "e8" (agentWorld (Some "sk-test") true)
                           start idleApp)) = [].
Proof. repeat split; vm_compute; reflexivity. Qed.


End AppFacts.

(* ===================================================================== *)
(** * Facts about persistence.ts: what is loaded, saving, reloading *)
(* ===================================================================== *)

Module SaveFacts.
Import Persistence PersistenceSave PersistenceExamples SaveExamples.

(** ** What a revived essay looks like *)

Lemma status_reset essay :
  status (resetIfInterrupted essay) <> PROCESSING.
Proof.
  unfold resetIfInterrupted.
  destruct (status essay) eqn:E; simpl; rewrite ?E; discriminate.
Qed.

Lemma markMissingSource_status essay :
  status essay <> PROCESSING ->
  status (markMissingSource essay) <> PROCESSING.
Proof.
  unfold markMissingSource.
  destruct (negb _ || negb _); [trivial|simpl; discriminate].
Qed.

Lemma markMissingSource_keeps essay :
  id (markMissingSource essay) = id essay /\
  submissionType (markMissingSource essay) = submissionType essay /\
  file (markMissingSource essay) = file essay /\
  rawText (markMissingSource essay) = rawText essay /\
  ocrText (markMissingSource essay) = ocrText essay /\
  gradingResult (markMissingSource essay) = gradingResult essay /\
  addedAt (markMissingSource essay) = addedAt essay.
Proof.
  unfold markMissingSource.
  destruct (negb _ || negb _); repeat split.
Qed.

Lemma resetIfInterrupted_identity essay :
  id (resetIfInterrupted essay) = id essay /\
  file (resetIfInterrupted essay) = file essay /\
  gradingResult (resetIfInterrupted essay) = gradingResult essay /\
  addedAt (resetIfInterrupted essay) = addedAt essay.
Proof.
  unfold resetIfInterrupted.
  destruct (negb _); repeat split.
Qed.

Lemma orStr_truthy a s : JS.truthyStr s = true -> JS.truthyStr (JS.orStr a s) = true.
Proof.
  intros H. unfold JS.orStr. destruct a as [[|c r]|]; simpl; auto.
Qed.

Lemma orOpt_truthy a s :
  JS.truthyStr s = true -> JS.truthy (JS.orOpt a (Some s)) = true.
Proof.
  intros H. unfold JS.orOpt. destruct (JS.truthy a) eqn:E; auto.
Qed.

(** A revived essay is settled, whatever was stored. *)
Lemma reviveEssay_settled essay fallback :
  settled (reviveEssay essay fallback) = true.
Proof.
  unfold reviveEssay, settled, markedMissing.
  set (d := withDefaults essay fallback).
  assert (Hmsg : JS.truthy (progressMessage d) = true)
    by (simpl; now apply orStr_truthy).
  assert (Hstep : isSome (progressStep d) = true) by reflexivity.
  assert (Hocr : isSome (ocrStatus d) = true) by reflexivity.
  assert (Hgr : isSome (gradingStatus d) = true) by reflexivity.
  clearbody d.
  assert (Hreset :
    let r := resetIfInterrupted d in
    negb (ProcessingStatus_beq (status r) PROCESSING) = true /\
    isSome (progressStep r) = true /\ JS.truthy (progressMessage r) = true /\
    isSome (ocrStatus r) = true /\ isSome (gradingStatus r) = true).
  { unfold resetIfInterrupted.
    destruct (status d) eqn:E; simpl; rewrite ?E; simpl; repeat split; auto;
      try (destruct (gradingStatus d) as [[]|]; reflexivity || discriminate);
      try (destruct (ocrStatus d) as [[]|]; reflexivity || discriminate). }
  set (r := resetIfInterrupted d) in *. clearbody r. cbv zeta in Hreset.
  destruct Hreset as (H1 & H2 & H3 & H4 & H5).
  unfold markMissingSource.
  destruct (SubmissionType_beq (submissionType r) image) eqn:Eimg; simpl.
  2:{ rewrite Eimg, H1, H2, H3, H4, H5. reflexivity. }
  destruct (lacksText r) eqn:El; simpl.
  - rewrite Eimg. unfold lacksText. simpl. fold (lacksText r). rewrite El.
    simpl.
    assert (Ht : JS.truthyStr (JS.orStr (errorMessage r) REUPLOAD_MESSAGE)
                 = true) by now apply orStr_truthy.
    rewrite Ht. reflexivity.
  - rewrite Eimg, El, H1, H2, H3, H4, H5. reflexivity.
Qed.

Lemma reviveEssay_addedAt essay fallback :
  JS.truthyStr fallback = true ->
  JS.truthy (addedAt (reviveEssay essay (Some fallback))) = true.
Proof.
  intros Hfb. unfold reviveEssay.
  destruct (markMissingSource_keeps
              (resetIfInterrupted (withDefaults essay (Some fallback))))
    as (_ & _ & _ & _ & _ & _ & ->).
  destruct (resetIfInterrupted_identity (withDefaults essay (Some fallback)))
    as (_ & _ & _ & ->).
  now apply orOpt_truthy.
Qed.

Lemma reviveEssay_atRest essay fallback :
  JS.truthyStr fallback = true ->
  atRest (reviveEssay essay (Some fallback)) = true.
Proof.
  intros Hfb. unfold atRest.
  now rewrite reviveEssay_settled, reviveEssay_addedAt.
Qed.

Lemma reviveEssay_file essay fallback :
  file (reviveEssay essay fallback) = None.
Proof.
  unfold reviveEssay.
  destruct (markMissingSource_keeps
              (resetIfInterrupted (withDefaults essay fallback)))
    as (_ & _ & -> & _).
  destruct (resetIfInterrupted_identity (withDefaults essay fallback))
    as (_ & -> & _).
  reflexivity.
Qed.

(** Every loaded essay was revived from a stored one. *)
Lemma mapRes_revived fallback elements essays :
  mapRes (reviveElement fallback) elements = Ok essays ->
  Forall (fun e => exists stored, e = reviveEssay stored (Some fallback))
    essays.
Proof.
  revert essays. induction elements as [|el rest IH]; intros essays; simpl.
  - intros E. inversion E. constructor.
  - destruct el as [stored|]; simpl; [|discriminate].
    destruct (mapRes (reviveElement fallback) rest) as [ys|e];
      [|discriminate].
    intros E. inversion E; subst. constructor; [eauto|now apply IH].
Qed.

Lemma loaded_are_revived b :
  Forall (fun e => exists stored savedAt,
              e = reviveEssay stored (Some (JS.orStr savedAt (nowISO b))))
    (loadPersistedEssays b).
Proof.
  unfold loadPersistedEssays.
  destruct (negb (hasWindow b)); [constructor|].
  destruct (loadBody b) as [essays|e] eqn:E; [|constructor].
  unfold loadBody in E.
  destruct (getItem b STORAGE_KEY) as [e| |raw]; try discriminate.
  { inversion E. constructor. }
  destruct (negb (JS.truthyStr raw)); [inversion E; constructor|].
  destruct (JSON_parse b raw) as [[|savedAt [| |elements]]|];
    try discriminate; try (inversion E; constructor).
  apply mapRes_revived in E.
  eapply Forall_impl; [|exact E].
  intros e (stored & ->). eauto.
Qed.

(** ** Reviving what was saved *)

Local Opaque String.eqb.

(** Saving an essay at rest and reviving it gives the essay back, without
    its [File] handle. *)
Lemma revive_stripped e fallback :
  atRest e = true ->
  reviveEssay (stripTransient e) fallback = withoutFile e.
Proof.
  unfold atRest, settled, markedMissing. intros H.
  repeat (apply andb_true_iff in H; destruct H as [H ?]).
  destruct e as [i ty f prev raw ocrT st step msg name dt top added batch
                   ocrS grS srcN srcP res err].
  simpl in *.
  destruct step as [step|]; [|discriminate].
  destruct ocrS as [ocrS|]; [|discriminate].
  destruct grS as [grS|]; [|discriminate].
  destruct msg as [[|c0 msg]|]; try discriminate.
  destruct added as [[|c1 added]|]; try discriminate.
  unfold reviveEssay, withDefaults, stripTransient, withoutFile; simpl.
  assert (Hocr : (if JS.truthyStr ocrT then ocrT else "") = ocrT)
    by now destruct ocrT.
  rewrite Hocr. unfold JS.orOpt; simpl.
  unfold resetIfInterrupted; simpl.
  destruct (ProcessingStatus_beq st PROCESSING); [discriminate|]. simpl.
  unfold markMissingSource, lacksText in *; simpl in *.
  destruct (SubmissionType_beq ty image); simpl in *; [|reflexivity].
  destruct (negb (JS.truthyStr ocrT) && negb (JS.truthy raw)); simpl in *;
    [|reflexivity].
  repeat (match goal with
          | Hm : _ && _ = true |- _ =>
              apply andb_true_iff in Hm; destruct Hm
          end).
  destruct st; try discriminate.
  destruct ocrS; try discriminate.
  destruct grS; try discriminate.
  destruct step; try discriminate.
  destruct err as [[|c2 err]|]; try discriminate.
  match goal with
  | Hm : String.eqb _ _ = true |- _ => apply String.eqb_eq in Hm; rewrite Hm
  end.
  reflexivity.
Qed.

Local Transparent String.eqb.

Lemma map_revive_stripped essays fallback :
  forallb atRest essays = true ->
  map (fun stored => reviveEssay stored fallback)
    (stripTransientFields essays)
  = map withoutFile essays.
Proof.
  unfold stripTransientFields. rewrite map_map.
  induction essays as [|e rest IH]; simpl; [reflexivity|].
  intros H. apply andb_true_iff in H. destruct H as [He Hrest].
  now rewrite revive_stripped, IH.
Qed.

Lemma storage_key_eqb : String.eqb STORAGE_KEY STORAGE_KEY = true.
Proof. apply String.eqb_refl. Qed.

(** Loading what was just saved. *)
Lemma load_saved h parse nowISO store essays :
  host_hasWindow h = true ->
  ParsesBack h parse essays ->
  loadPersistedEssays (browserOn (persistEssays h essays store) parse nowISO)
  = map (fun stored =>
           reviveEssay stored
             (Some (JS.orStr (Some (host_nowISO h)) nowISO)))
        (stripTransientFields essays).
Proof.
  intros Hwin (Hroom & Htext & Hparse).
  unfold persistEssays. rewrite Hwin. simpl negb. cbv iota.
  destruct essays as [|e rest].
  - unfold loadPersistedEssays, loadBody, browserOn, removeItem. simpl.
    reflexivity.
  - cbv zeta. rewrite Hroom.
    rewrite (PersistenceFacts.load_holds _ (Some (host_nowISO h))
               (stripTransientFields (e :: rest))); [reflexivity|].
    split; [reflexivity|].
    eexists. split; [|split; [exact Htext|exact Hparse]].
    unfold browserOn, setItem. simpl. reflexivity.
Qed.

(** What [settled] says, spelled out. *)
Lemma settled_spec e :
  settled e = true ->
  status e <> PROCESSING /\
  progressStep e <> None /\
  JS.truthy (progressMessage e) = true /\
  ocrStatus e <> None /\
  gradingStatus e <> None /\
  (submissionType e = image -> lacksText e = true ->
   status e = ERROR /\ progressStep e = Some error /\
   progressMessage e = Some REUPLOAD_MESSAGE /\
   JS.truthy (errorMessage e) = true).
Proof.
  unfold settled, markedMissing. intros H.
  repeat (apply andb_true_iff in H; destruct H as [H ?]).
  split; [intros E; rewrite E in H; discriminate|].
  split; [now destruct (progressStep e)|].
  split; [assumption|].
  split; [now destruct (ocrStatus e)|].
  split; [now destruct (gradingStatus e)|].
  intros Himg Hlack.
  match goal with
  | Hm : (_ || _) = true |- _ => rename Hm into Hmark
  end.
  rewrite Himg, Hlack in Hmark. simpl in Hmark.
  repeat (apply andb_true_iff in Hmark; destruct Hmark as [Hmark ?]).
  split; [now destruct (status e)|].
  split; [now destruct (progressStep e) as [[]|]|].
  split; [|assumption].
  destruct (progressMessage e) as [m|]; [|discriminate].
  f_equal. now apply String.eqb_eq.
Qed.

(** ** What loading guarantees *)

(** X1: whatever the storage holds, every essay [loadPersistedEssays]
    returns is settled: it is not in status PROCESSING, it has no [File]
    handle, its progress step, progress message and both sub-statuses are
    set, and an image essay without any text is in status ERROR with the
    request to upload the image again. *)
Theorem loaded_essays_are_settled :
  forall b,
    Forall (fun e =>
              status e <> PROCESSING /\
              file e = None /\
              progressStep e <> None /\
              JS.truthy (progressMessage e) = true /\
              ocrStatus e <> None /\
              gradingStatus e <> None /\
              (submissionType e = image -> lacksText e = true ->
               status e = ERROR /\ progressStep e = Some error /\
               progressMessage e = Some REUPLOAD_MESSAGE /\
               JS.truthy (errorMessage e) = true))
      (loadPersistedEssays b).
Proof.
  intros b. eapply Forall_impl; [|apply loaded_are_revived].
  intros e (stored & savedAt & ->).
  destruct (settled_spec _ (reviveEssay_settled stored
                              (Some (JS.orStr savedAt (nowISO b)))))
    as (H1 & H2 & H3 & H4 & H5 & H6).
  repeat (split; [assumption || apply reviveEssay_file|]).
  exact H6.
Qed.

(** X2: loading a well-formed entry neither drops, nor adds, nor reorders
    essays, and it never touches what was written or graded: the loaded
    list has the stored ids in the stored order, and each essay keeps its
    submission type, its raw text, its OCR text (the empty string when none
    was stored) and its grading result. *)
Theorem load_keeps_essays_and_text :
  forall b savedAt stored,
    Holds b savedAt stored ->
    map id (loadPersistedEssays b) = map s_id stored /\
    map submissionType (loadPersistedEssays b)
    = map s_submissionType stored /\
    map rawText (loadPersistedEssays b) = map s_rawText stored /\
    map ocrText (loadPersistedEssays b)
    = map (fun essay => JS.orStr (s_ocrText essay) "") stored /\
    map gradingResult (loadPersistedEssays b) = map s_gradingResult stored.
Proof.
  intros b savedAt stored H.
  rewrite (PersistenceFacts.load_holds _ _ _ H). rewrite !map_map.
  repeat split; apply map_ext; intros essay; unfold reviveEssay;
    set (d := withDefaults essay _);
    assert (D : id d = s_id essay /\
                submissionType d = s_submissionType essay /\
                rawText d = s_rawText essay /\
                ocrText d = JS.orStr (s_ocrText essay) "" /\
                gradingResult d = s_gradingResult essay)
      by (repeat split; reflexivity);
    destruct D as (D1 & D2 & D3 & D4 & D5); clearbody d;
    destruct (markMissingSource_keeps (resetIfInterrupted d))
      as (K1 & K2 & K3 & K4 & K5 & K6 & K7);
    destruct (resetIfInterrupted_identity d) as (I1 & I2 & I3 & I4);
    destruct (PersistenceFacts.resetIfInterrupted_keeps d)
      as (R1 & R2 & R3 & R4);
    congruence.
Qed.

Lemma load_keeps_essays_and_text_witness :
  map id (loadPersistedEssays (browserWith [interruptedScan; interruptedTyped]))
  = ["e1"; "e2"] /\
  map rawText
    (loadPersistedEssays (browserWith [interruptedScan; interruptedTyped]))
  = [None; Some "My summer holiday"].
Proof.
  destruct (load_keeps_essays_and_text
              (browserWith [interruptedScan; interruptedTyped])
              (Some "2024-05-02T09:30:00.000Z")
              [interruptedScan; interruptedTyped]
              (PersistenceFacts.browserWith_holds _))
    as (Hid & _ & Hraw & _).
  split; [exact Hid|exact Hraw].
Defined.

(** ** Saving, then loading *)

(** X3: what is saved is what a later session loads.  When the write
    succeeds and the saved text parses back, loading returns the essays
    that were saved, in order and unchanged except for the [File] handle,
    which is not stored, provided each was at rest: not in status
    PROCESSING, with its display keys and the time it was added, and no
    unmarked image essay without text.  Saving the empty list removes the
    entry, and loading then returns the empty list. *)
Theorem save_then_load_round_trip :
  forall h parse nowISO store essays,
    host_hasWindow h = true ->
    ParsesBack h parse essays ->
    forallb atRest essays = true ->
    loadPersistedEssays
      (browserOn (persistEssays h essays store) parse nowISO)
    = map withoutFile essays /\
    loadPersistedEssays (browserOn (persistEssays h [] store) parse nowISO)
    = [].
Proof.
  intros h parse nowISO store essays Hwin Hback Hrest. split.
  - rewrite (load_saved _ _ _ _ _ Hwin Hback).
    now apply map_revive_stripped.
  - unfold persistEssays. rewrite Hwin. simpl.
    unfold loadPersistedEssays, loadBody, browserOn, removeItem. simpl.
    reflexivity.
Qed.

Lemma save_then_load_round_trip_witness :
  loadPersistedEssays
    (browserOn (persistEssays roomyHost sessionEssays otherStorage)
       (parseAs sessionPayload) "2024-05-05T07:00:00.000Z")
  = [withoutFile gradedTyped; withoutFile failedScan].
Proof.
  apply (save_then_load_round_trip roomyHost (parseAs sessionPayload)
           "2024-05-05T07:00:00.000Z" otherStorage sessionEssays).
  - reflexivity.
  - repeat split; reflexivity.
  - reflexivity.
Defined.

(** X4: saving touches nothing but its own entry: every other key of the
    storage keeps its value, and when there is no [window] or the write
    throws (a full quota), the storage is left as it was, the previous entry
    included. *)
Theorem persistEssays_touches_only_its_entry :
  forall h essays store,
    (forall k, k <> STORAGE_KEY -> persistEssays h essays store k = store k)
    /\
    (host_hasWindow h = false -> persistEssays h essays store = store) /\
    (essays <> [] ->
     setItemThrows h STORAGE_KEY
       (JSON_stringify h
          (mkPayload 1 (host_nowISO h) (stripTransientFields essays)))
     = true ->
     persistEssays h essays store = store).
Proof.
  intros h essays store. unfold persistEssays. repeat split.
  - intros k Hk.
    assert (Hneq : String.eqb k STORAGE_KEY = false)
      by now apply String.eqb_neq.
    destruct (negb (host_hasWindow h)); [reflexivity|].
    destruct essays as [|e rest].
    + unfold removeItem. now rewrite Hneq.
    + cbv zeta. destruct (setItemThrows h STORAGE_KEY _); [reflexivity|].
      unfold setItem. now rewrite Hneq.
  - now intros ->.
  - intros Hne Hthrow.
    destruct (negb (host_hasWindow h)); [reflexivity|].
    destruct essays as [|e rest]; [now elim Hne|].
    cbv zeta. now rewrite Hthrow.
Qed.

Lemma persistEssays_touches_only_its_entry_witness :
  persistEssays roomyHost sessionEssays otherStorage "ocr_md_note.md"
  = Some "# OCR Transcript".
Proof.
  destruct (persistEssays_touches_only_its_entry roomyHost sessionEssays
              otherStorage) as (Hother & _).
  rewrite Hother; [reflexivity|discriminate].
Defined.

(** X5: a reload is stable.  When the clock of the loading session reads a
    non-empty time stamp, the essays [loadPersistedEssays] returns are at
    rest, so saving them and loading again returns the same list: the
    repairs made on load (interrupted essays reset, images without text
    marked) are made once. *)
Theorem reload_is_stable :
  forall b h parse nowISO' store,
    JS.truthyStr (nowISO b) = true ->
    host_hasWindow h = true ->
    ParsesBack h parse (loadPersistedEssays b) ->
    forallb atRest (loadPersistedEssays b) = true /\
    loadPersistedEssays
      (browserOn (persistEssays h (loadPersistedEssays b) store) parse
         nowISO')
    = loadPersistedEssays b.
Proof.
  intros b h parse nowISO' store Hnow Hwin Hback.
  assert (Hrest : forallb atRest (loadPersistedEssays b) = true).
  { apply forallb_forall. intros e Hin.
    pose proof (loaded_are_revived b) as Hall.
    rewrite Forall_forall in Hall.
    destruct (Hall e Hin) as (stored & savedAt & ->).
    apply reviveEssay_atRest. now apply orStr_truthy. }
  split; [exact Hrest|].
  rewrite (load_saved _ _ _ _ _ Hwin Hback).
  rewrite (map_revive_stripped _ _ Hrest).
  assert (Hfiles : forall l,
             Forall (fun e => exists stored savedAt,
                         e = reviveEssay stored
                               (Some (JS.orStr savedAt (nowISO b)))) l ->
             map withoutFile l = l).
  { induction 1 as [|e rest (stored & savedAt & He) _ IH]; simpl;
      [reflexivity|].
    rewrite IH. f_equal.
    assert (Hf : file e = None) by (rewrite He; apply reviveEssay_file).
    clear He. destruct e. simpl in Hf. subst. reflexivity. }
  apply Hfiles, loaded_are_revived.
Qed.

Lemma reload_is_stable_witness :
  map status
    (loadPersistedEssays
       (browserOn
          (persistEssays roomyHost
             (loadPersistedEssays
                (browserWith [interruptedScan; interruptedTyped]))
             otherStorage)
          (parseAs
             (mkPayload 1 "2024-05-04T10:00:00.000Z"
                (stripTransientFields
                   (loadPersistedEssays
                      (browserWith [interruptedScan; interruptedTyped])))))
          "2024-05-05T07:00:00.000Z"))
  = [ERROR; PENDING].
Proof.
  destruct (reload_is_stable
              (browserWith [interruptedScan; interruptedTyped]) roomyHost
              (parseAs
                 (mkPayload 1 "2024-05-04T10:00:00.000Z"
                    (stripTransientFields
                       (loadPersistedEssays
                          (browserWith [interruptedScan; interruptedTyped])))))
              "2024-05-05T07:00:00.000Z" otherStorage)
    as (_ & Hload).
  - reflexivity.
  - reflexivity.
  - repeat split; reflexivity.
  - rewrite Hload. reflexivity.
Defined.

End SaveFacts.

(* ===================================================================== *)
(** * Facts about the markdown copy of a transcript *)
(* ===================================================================== *)

Module MarkdownFacts.
Import Markdown JSFacts.

(** ** Character classes *)

(** No white-space character starts with a safe byte. *)
Lemma safe_is_no_space c :
  isSafeChar c = true ->
  existsb (Nat.eqb (nat_of_ascii c))
    [9; 10; 11; 12; 13; 32; 194; 225; 226; 227; 239]%nat = false.
Proof.
  destruct c as [[] [] [] [] [] [] [] []]; intros H;
    first [reflexivity | discriminate H].
Qed.

Lemma safe_head_no_space c r space :
  isSafeChar c = true -> In space JS.whiteSpace ->
  String.prefix space (String c r) = false.
Proof.
  intros Hc Hin.
  destruct (whiteSpace_first_byte _ Hin) as (c' & r' & -> & Hbyte).
  simpl. destruct (ascii_dec c' c) as [->|]; [|reflexivity].
  rewrite (safe_is_no_space _ Hc) in Hbyte. discriminate.
Qed.

Lemma afterSpace_safe c r :
  isSafeChar c = true -> JS.afterSpace (String c r) = None.
Proof.
  intros Hc.
  destruct (JS.afterSpace (String c r)) as [rest|] eqn:E; [|reflexivity].
  destruct (afterSpace_some _ _ E) as (space & Hin & Hp & _).
  now rewrite (safe_head_no_space c r space Hc Hin) in Hp.
Qed.

Lemma isWhiteSpace_safe c r :
  isSafeChar c = true -> JS.isWhiteSpace (String c r) = false.
Proof.
  intros Hc.
  destruct (JS.isWhiteSpace (String c r)) eqn:E; [|reflexivity].
  apply isWhiteSpace_in in E.
  pose proof (safe_head_no_space c r _ Hc E) as Hp.
  now rewrite prefix_reflexive in Hp.
Qed.

Lemma safe_is_no_dot c : isSafeChar c = true -> Ascii.eqb c "." = false.
Proof.
  destruct c as [[] [] [] [] [] [] [] []]; intros H;
    first [reflexivity | discriminate H].
Qed.

Lemma alnum_is_safe c : isAlnum c = true -> isSafeChar c = true.
Proof. unfold isSafeChar. now intros ->. Qed.

(** ** The steps of [sanitizeSegment] *)

Lemma allChars_squash inRun s : allChars isSafeChar (squash inRun s) = true.
Proof.
  revert inRun. induction s as [|c r IH]; intros inRun; simpl.
  - reflexivity.
  - destruct (isSafeChar c) eqn:E; simpl.
    + now rewrite E, IH.
    + destruct inRun; simpl; now rewrite ?IH.
Qed.

Lemma allChars_slice0 p n s :
  allChars p s = true -> allChars p (slice0 n s) = true.
Proof.
  revert s. induction n as [|n IH]; intros [|c r]; simpl; auto.
  intros H. apply andb_true_iff in H. destruct H as [Hc Hr].
  now rewrite Hc, IH.
Qed.

Lemma allChars_dropStart p q s :
  allChars p s = true -> allChars p (dropStart q s) = true.
Proof.
  induction s as [|c r IH]; simpl; auto.
  intros H. destruct (q c); [|exact H].
  apply andb_true_iff in H. now apply IH.
Qed.

Lemma allChars_dropEnd p q s :
  allChars p s = true -> allChars p (dropEnd q s) = true.
Proof.
  induction s as [|c r IH]; simpl; auto.
  intros H. apply andb_true_iff in H. destruct H as [Hc Hr].
  specialize (IH Hr).
  destruct (dropEnd q r) as [|c' r'].
  - destruct (q c); simpl; now rewrite ?Hc.
  - simpl in *. now rewrite Hc.
Qed.

Lemma length_slice0 n s : (String.length (slice0 n s) <= n)%nat.
Proof.
  revert s. induction n as [|n IH]; intros [|c r]; simpl; try lia.
  specialize (IH r). lia.
Qed.

Lemma length_dropStart p s :
  (String.length (dropStart p s) <= String.length s)%nat.
Proof.
  induction s as [|c r IH]; simpl; [lia|].
  destruct (p c); simpl; lia.
Qed.

Lemma length_dropEnd p s :
  (String.length (dropEnd p s) <= String.length s)%nat.
Proof.
  induction s as [|c r IH]; simpl; [lia|].
  destruct (dropEnd p r); [destruct (p c)|]; simpl in *; lia.
Qed.

Lemma dropStart_first p s c :
  firstChar (dropStart p s) = Some c -> p c = false.
Proof.
  induction s as [|a r IH]; simpl; [discriminate|].
  destruct (p a) eqn:E; [exact IH|].
  simpl. intros H. now inversion H; subst.
Qed.

Lemma dropEnd_first p s c :
  firstChar (dropEnd p s) = Some c -> firstChar s = Some c.
Proof.
  destruct s as [|a r]; simpl; [discriminate|].
  destruct (dropEnd p r); [destruct (p a)|]; simpl; auto; discriminate.
Qed.

Lemma dropEnd_last p s c :
  lastChar (dropEnd p s) = Some c -> p c = false.
Proof.
  induction s as [|a r IH]; simpl; [discriminate|].
  destruct (dropEnd p r) as [|b r'] eqn:E.
  - destruct (p a) eqn:Ea; simpl; [discriminate|].
    intros H. now inversion H; subst.
  - intros H. apply IH. exact H.
Qed.

(** ** Strings of safe characters are left alone *)

Lemma trimStart_safe s :
  allChars isSafeChar s = true -> JS.trimStart s = s.
Proof.
  destruct s as [|c r]; [reflexivity|].
  cbn [allChars]. intros H. apply andb_true_iff in H. destruct H as [Hc _].
  apply trimStart_fixed. now apply afterSpace_safe.
Qed.

Lemma trimEnd_safe s :
  allChars isSafeChar s = true -> JS.trimEnd s = s.
Proof.
  induction s as [|c r IH]; [reflexivity|].
  cbn [allChars]. intros H. apply andb_true_iff in H. destruct H as [Hc Hr].
  cbn [JS.trimEnd]. cbv zeta. rewrite (IH Hr).
  now rewrite (isWhiteSpace_safe c r Hc).
Qed.

Lemma stripExtension_safe s :
  allChars isSafeChar s = true -> stripExtension s = s.
Proof.
  induction s as [|c r IH]; simpl; [reflexivity|].
  intros H. apply andb_true_iff in H. destruct H as [Hc Hr].
  now rewrite (safe_is_no_dot _ Hc), (IH Hr).
Qed.

Lemma squash_safe s :
  allChars isSafeChar s = true -> squash false s = s.
Proof.
  induction s as [|c r IH]; simpl; [reflexivity|].
  intros H. apply andb_true_iff in H. destruct H as [Hc Hr].
  now rewrite Hc, (IH Hr).
Qed.

Lemma slice0_short n s :
  (String.length s <= n)%nat -> slice0 n s = s.
Proof.
  revert s. induction n as [|n IH]; intros [|c r]; simpl; auto; try lia.
  intros H. rewrite IH; [reflexivity|lia].
Qed.

Lemma dropStart_fixed p s :
  (forall c, firstChar s = Some c -> p c = false) -> dropStart p s = s.
Proof.
  destruct s as [|c r]; simpl; [reflexivity|].
  intros H. now rewrite (H c eq_refl).
Qed.

Lemma dropEnd_fixed p s :
  (forall c, lastChar s = Some c -> p c = false) -> dropEnd p s = s.
Proof.
  induction s as [|a r IH]; simpl; [reflexivity|].
  intros H. destruct r as [|b r'].
  - simpl. now rewrite (H a eq_refl).
  - rewrite IH; [reflexivity|exact H].
Qed.

(** A segment [sanitizeSegment] returns is safe, and a fixed point. *)
Lemma sanitizeSegment_safe :
  forall value segment,
    sanitizeSegment value = Some segment ->
    segment <> "" /\
    (String.length segment <= 50)%nat /\
    allChars isSafeChar segment = true /\
    firstChar segment <> Some "_"%char /\
    lastChar segment <> Some "_"%char /\
    sanitizeSegment segment = Some segment.
Proof.
  intros value segment. unfold sanitizeSegment.
  set (squashed := squash false (stripExtension (JS.trim value))).
  set (cut := dropStart isUnderscore (slice0 50 squashed)).
  cbv zeta.
  destruct (JS.truthyStr (dropEnd isUnderscore cut)) eqn:Ht; [|discriminate].
  intros E. injection E as <-.
  assert (Hne : dropEnd isUnderscore cut <> "")
    by (intros E; rewrite E in Ht; discriminate).
  assert (Hlen : (String.length (dropEnd isUnderscore cut) <= 50)%nat).
  { pose proof (length_dropEnd isUnderscore cut).
    pose proof (length_dropStart isUnderscore (slice0 50 squashed)).
    pose proof (length_slice0 50 squashed). fold cut in H0. lia. }
  assert (Hsafe : allChars isSafeChar (dropEnd isUnderscore cut) = true).
  { apply allChars_dropEnd, allChars_dropStart, allChars_slice0,
      allChars_squash. }
  assert (Hfirst : forall c, firstChar (dropEnd isUnderscore cut) = Some c ->
                             isUnderscore c = false).
  { intros c Hc. apply dropEnd_first in Hc.
    exact (dropStart_first _ _ _ Hc). }
  assert (Hlast : forall c, lastChar (dropEnd isUnderscore cut) = Some c ->
                            isUnderscore c = false)
    by (intros c; apply dropEnd_last).
  repeat (split; [assumption|]).
  split; [intros Hc; now specialize (Hfirst _ Hc)|].
  split; [intros Hc; now specialize (Hlast _ Hc)|].
  set (segment := dropEnd isUnderscore cut) in *.
  unfold JS.trim.
  rewrite (trimStart_safe _ Hsafe), (trimEnd_safe _ Hsafe),
    (stripExtension_safe _ Hsafe), (squash_safe _ Hsafe),
    (slice0_short _ _ Hlen), (dropStart_fixed _ _ Hfirst),
    (dropEnd_fixed _ _ Hlast), Ht.
  reflexivity.
Qed.

(** ** The image slug *)

Lemma allChars_keepAlnum s : allChars isAlnum (keepAlnum s) = true.
Proof.
  induction s as [|c r IH]; simpl; [reflexivity|].
  destruct (isAlnum c) eqn:E; simpl; now rewrite ?E, IH.
Qed.

(** Nothing is kept exactly when there is no letter or digit. *)
Lemma keepAlnum_empty s :
  keepAlnum s = "" <-> allChars (fun c => negb (isAlnum c)) s = true.
Proof.
  induction s as [|c r IH]; simpl; [tauto|].
  destruct (isAlnum c); simpl; [|exact IH].
  split; discriminate.
Qed.

(** The image slug is never empty and alphanumeric; there is none exactly
    when the name is missing or holds no letter or digit before its
    extension. *)
Lemma extractImageSlug_alphanumeric :
  forall fileName,
    match extractImageSlug fileName with
    | Some slug => slug <> "" /\ allChars isAlnum slug = true
    | None => True
    end /\
    (extractImageSlug fileName = None <->
     match fileName with
     | Some name =>
         allChars (fun c => negb (isAlnum c)) (stripExtension name) = true
     | None => True
     end).
Proof.
  intros [name|]; [|split; [exact I|split; reflexivity]].
  unfold extractImageSlug.
  destruct (negb (JS.truthyStr name)) eqn:Hn.
  { destruct name; [|discriminate]. split; [exact I|split; reflexivity]. }
  cbv zeta.
  pose proof (allChars_keepAlnum (stripExtension name)) as Hall.
  pose proof (keepAlnum_empty (stripExtension name)) as Hempty.
  destruct (keepAlnum (stripExtension name)) as [|a slug];
    cbn [JS.truthyStr].
  - split; [exact I|]. split; [intros _; now apply Hempty|reflexivity].
  - split; [split; [discriminate|exact Hall]|].
    split; [discriminate|]. intros H. apply Hempty in H. discriminate.
Qed.

(** X6: the slugs that make up the name of the markdown copy are safe in a
    file name.  A segment [sanitizeSegment] returns is not empty, has at
    most 50 characters, all of them letters, digits, hyphens or
    underscores, neither starts nor ends with an underscore, and sanitizing
    it again returns it unchanged.  An image slug [extractImageSlug]
    returns is not empty and holds letters and digits only; there is no
    slug exactly when the file name is missing or holds no letter or digit
    before its extension (as the empty name). *)
Theorem markdown_slugs_are_safe :
  forall value fileName,
    match sanitizeSegment value with
    | Some segment =>
        segment <> "" /\
        (String.length segment <= 50)%nat /\
        allChars isSafeChar segment = true /\
        firstChar segment <> Some "_"%char /\
        lastChar segment <> Some "_"%char /\
        sanitizeSegment segment = Some segment
    | None => True
    end /\
    match extractImageSlug fileName with
    | Some slug => slug <> "" /\ allChars isAlnum slug = true
    | None => True
    end /\
    (extractImageSlug fileName = None <->
     match fileName with
     | Some name =>
         allChars (fun c => negb (isAlnum c)) (stripExtension name) = true
     | None => True
     end).
Proof.
  intros value fileName. split.
  - destruct (sanitizeSegment value) as [segment|] eqn:E; [|exact I].
    exact (sanitizeSegment_safe value segment E).
  - apply extractImageSlug_alphanumeric.
Qed.

(** The slugs on examples: names with spaces, brackets and ideographs, and
    names that leave nothing. *)
Example slug_examples :
  sanitizeSegment "  Li Lei (Class 3).final.md " = Some "Li_Lei_Class_3_final"
  /\
  sanitizeSegment "Li_Lei_Class_3_final" = Some "Li_Lei_Class_3_final" /\
  sanitizeSegment (JS.bytes [227; 128; 128]%nat ++ "Han Meimei"
                     ++ JS.bytes [194; 160]%nat)
  = Some "Han_Meimei" /\
  sanitizeSegment "李雷" = None /\
  extractImageSlug (Some "IMG 0042 (copy).jpeg") = Some "IMG0042copy" /\
  extractImageSlug (Some "扫描件.jpg") = None /\
  extractImageSlug (Some "--.png") = None /\
  extractImageSlug (Some "") = None /\
  extractImageSlug None = None.
Proof. repeat split; vm_compute; reflexivity. Qed.

(** ** The image link *)

Lemma normalizeSlashes_idempotent s :
  normalizeSlashes (normalizeSlashes s) = normalizeSlashes s.
Proof.
  induction s as [|c r IH]; simpl; [reflexivity|].
  rewrite IH. f_equal.
  destruct (Ascii.eqb c backslash) eqn:E; [reflexivity|now rewrite E].
Qed.

Lemma normalizeSlashes_truthy s :
  JS.truthyStr (normalizeSlashes s) = JS.truthyStr s.
Proof. now destruct s. Qed.

Lemma prefix_app_left a b s :
  String.prefix a s = true -> String.prefix a (s ++ b) = true.
Proof.
  revert s. induction a as [|c a IH]; intros s; simpl.
  - intros _. now destruct (s ++ b)%string.
  - destruct s as [|c' s]; simpl; [discriminate|].
    destruct (ascii_dec c c'); [apply IH|discriminate].
Qed.

Lemma prefix_refl a : String.prefix a a = true.
Proof.
  induction a as [|c a IH]; simpl; [reflexivity|].
  destruct (ascii_dec c c) as [_|Hne]; [exact IH|now elim Hne].
Qed.

Lemma appended_includes payload link :
  JS.includes (JS.trimEnd payload ++ JS.LF ++ link ++ JS.LF) link = true.
Proof.
  replace (JS.trimEnd payload ++ JS.LF ++ link ++ JS.LF)%string
    with ((JS.trimEnd payload ++ JS.LF) ++ link ++ JS.LF)%string.
  - apply OcrFacts.includes_app.
  - generalize (JS.trimEnd payload). intros t.
    induction t as [|c t IH]; [reflexivity|].
    change ((String c t ++ JS.LF) ++ link ++ JS.LF)%string
      with (String c ((t ++ JS.LF) ++ link ++ JS.LF)%string).
    now rewrite IH.
Qed.

Lemma appendImageLink_some payload p :
  JS.truthyStr p = true ->
  appendImageLink payload (Some p)
  = if JS.includes payload (linkLine p) then payload
    else (JS.trimEnd payload ++ JS.LF ++ linkLine p ++ JS.LF)%string.
Proof. intros H. unfold appendImageLink. now rewrite H. Qed.

Lemma appendImageLink_empty payload p :
  JS.truthyStr p = false -> appendImageLink payload (Some p) = payload.
Proof. intros H. unfold appendImageLink. now rewrite H. Qed.

(** X7: adding the image link to a payload is idempotent, also when the
    path is given once with backslashes and once with slashes; with a
    non-empty path the result contains the link line, and it always starts
    with the payload, trailing white space apart. *)
Theorem appendImageLink_is_idempotent :
  forall payload path,
    appendImageLink (appendImageLink payload path) path
    = appendImageLink payload path /\
    appendImageLink (appendImageLink payload path)
      (option_map normalizeSlashes path)
    = appendImageLink payload path /\
    String.prefix (JS.trimEnd payload) (appendImageLink payload path) = true
    /\
    match path with
    | Some p =>
        JS.truthyStr p = true ->
        JS.includes (appendImageLink payload path) (linkLine p) = true
    | None => True
    end.
Proof.
  intros payload [p|]; cbn [option_map].
  2:{ cbn [appendImageLink]. repeat split. apply prefix_trimEnd. }
  destruct (JS.truthyStr p) eqn:Hp.
  2:{ assert (Hn : JS.truthyStr (normalizeSlashes p) = false)
        by now rewrite normalizeSlashes_truthy.
      rewrite (appendImageLink_empty _ _ Hn), !(appendImageLink_empty _ _ Hp).
      split; [reflexivity|]. split; [reflexivity|].
      split; [apply prefix_trimEnd|discriminate]. }
  assert (Hn : JS.truthyStr (normalizeSlashes p) = true)
    by now rewrite normalizeSlashes_truthy.
  assert (Hlink : linkLine (normalizeSlashes p) = linkLine p)
    by (unfold linkLine; now rewrite normalizeSlashes_idempotent).
  rewrite (appendImageLink_some _ _ Hn), Hlink.
  rewrite !(appendImageLink_some _ _ Hp).
  generalize (linkLine p). intros link.
  destruct (JS.includes payload link) eqn:Hin.
  - rewrite Hin. split; [reflexivity|]. split; [reflexivity|].
    split; [apply prefix_trimEnd|]. intros _. reflexivity.
  - rewrite (appended_includes payload link).
    split; [reflexivity|]. split; [reflexivity|].
    split; [apply prefix_app_left, prefix_refl|reflexivity].
Qed.

Lemma appendImageLink_is_idempotent_witness :
  appendImageLink "# OCR Transcript" (Some "..\tasks\class3\essay.jpg")
  = "# OCR Transcript" ++ JS.LF ++ "![500](../tasks/class3/essay.jpg)"
      ++ JS.LF /\
  JS.includes
    (appendImageLink "# OCR Transcript" (Some "..\tasks\class3\essay.jpg"))
    (linkLine "..\tasks\class3\essay.jpg") = true.
Proof.
  split; [reflexivity|].
  destruct (appendImageLink_is_idempotent "# OCR Transcript"
              (Some "..\tasks\class3\essay.jpg")) as (_ & _ & _ & Hin).
  apply Hin. reflexivity.
Defined.

End MarkdownFacts.

(* ===================================================================== *)
(** * More facts about handwritingOcr.ts: failures, waits, cancellation *)
(* ===================================================================== *)

Module OcrMoreFacts.
Import Ocr OcrExamples MoreWorlds Observe JSFacts OcrFacts.

(** Once aborted, a signal stays aborted. *)
Lemma abortedAt_earlier signal t t' :
  (t <= t')%nat -> abortedAt signal t' = false -> abortedAt signal t = false.
Proof.
  unfold abortedAt, isAborted.
  destruct signal as [[[a|]]|]; simpl; auto.
  intros Hle H. apply Nat.leb_gt in H. apply Nat.leb_gt. lia.
Qed.

(** The call, step by step. *)
Lemma transcribeHandwriting_steps file options w s :
  transcribeHandwriting file options w s
  = if abortedAt (o_signal options) (clock s)
    then (Throw cancelledError, s)
    else
      match uploadDocument file (o_signal options) w s with
      | (Throw e, s2) => (Throw e, s2)
      | (Ok documentId, s2) =>
          match pollLoop documentId (o_signal options)
                  (nullish (o_pollIntervalMs options) 2000)
                  (nullish (o_maxWaitMs options) (4 * 60 * 1000))
                  (dateNow w (clock s))
                  (Z.to_nat (nullish (o_maxAttempts options) 120))
                  (nullish (o_pollIntervalMs options) 2000) w s2 with
          | (Ok (Some transcript), s3) => (Ok transcript, s3)
          | (Ok None, s3) => afterLoop documentId (o_signal options) w s3
          | (Throw e, s3) => (Throw e, s3)
          end
      end.
Proof.
  unfold transcribeHandwriting, throwIfCancelled.
  unfold bind, now, signalAborted, ret.
  destruct (abortedAt (o_signal options) (clock s)); [reflexivity|].
  destruct (uploadDocument file (o_signal options) w s)
    as [[documentId|e] s2]; [|reflexivity].
  destruct (pollLoop _ _ _ _ _ _ _ w s2) as [[[t|]|e] s3]; reflexivity.
Qed.

(** ** Failing before the first poll *)

(** X8: without an OCR API key the client makes no request at all: the call
    fails at once, in the state it started in, with "Handwriting OCR API
    key is missing" (with "Processing cancelled" when the signal is already
    aborted). *)
Theorem ocr_without_key_makes_no_request :
  forall file options w s,
    JS.truthy (HANDWRITING_OCR_API_KEY w) = false ->
    transcribeHandwriting file options w s
    = (Throw (if abortedAt (o_signal options) (clock s)
              then newError "Processing cancelled"
              else newError "Handwriting OCR API key is missing"),
       s).
Proof.
  intros file options w s Hkey.
  unfold transcribeHandwriting. cbv zeta.
  unfold bind at 1, now. unfold bind at 1, throwIfCancelled.
  unfold bind at 1, signalAborted.
  destruct (abortedAt (o_signal options) (clock s)); [reflexivity|].
  unfold ret at 1. unfold bind at 1, uploadDocument.
  unfold bind at 1, ask. rewrite Hkey. reflexivity.
Qed.

Lemma ocr_without_key_makes_no_request_witness :
  transcribeHandwriting scan defaults (withOcrKey None helloWorld) start
  = (Throw (newError "Handwriting OCR API key is missing"), start).
Proof.
  apply (ocr_without_key_makes_no_request scan defaults
           (withOcrKey None helloWorld) start).
  reflexivity.
Defined.

(** What the upload does when the vendor answers and the signal stays
    quiet. *)
Lemma uploadDocument_answered file signal w s response data :
  JS.truthy (HANDWRITING_OCR_API_KEY w) = true ->
  abortedAt signal (S (S (clock s))) = false ->
  uploadResponse w (clock s) = Resolved response ->
  ur_body response = Some data ->
  uploadDocument file signal w s
  = ((if negb (ur_ok response) then
        Throw (newError
                 (JS.orStr (JS.orOpt (ub_message data) (ub_error0 data))
                    "OCR upload failed"))
      else if negb (JS.truthy (ub_id data)) then
        Throw (newError "OCR upload did not return an id")
      else Ok (JS.orStr (ub_id data) "")),
     mkSt (S (S (clock s))) (trace s ++ [EvOcrUpload file])).
Proof.
  intros Hkey Hab Hresp Hbody.
  assert (H0 : abortedAt signal (clock s) = false)
    by (apply (abortedAt_earlier _ _ _ (Nat.le_succ_diag_r _)),
          (abortedAt_earlier _ _ _ (Nat.le_succ_diag_r _)), Hab).
  assert (H1 : abortedAt signal (S (clock s)) = false)
    by (apply (abortedAt_earlier _ _ _ (Nat.le_succ_diag_r _)), Hab).
  unfold uploadDocument. run. rewrite Hkey. simpl. rewrite H0. simpl.
  rewrite H1, Hresp. simpl. rewrite Hab, Hbody.
  destruct (ur_ok response); simpl; [|reflexivity].
  destruct (JS.truthy (ub_id data)); reflexivity.
Qed.

(** X9: when the vendor refuses the upload, or accepts it without
    returning a document id, the call ends there: it fails with the
    vendor's message (its [message], else its [error], else "OCR upload
    failed"), or with "OCR upload did not return an id", having made the
    upload request and no status request. *)
Theorem refused_upload_ends_the_call :
  forall file options w s response data,
    JS.truthy (HANDWRITING_OCR_API_KEY w) = true ->
    abortedAt (o_signal options) (S (S (clock s))) = false ->
    uploadResponse w (clock s) = Resolved response ->
    ur_body response = Some data ->
    ur_ok response = false \/ JS.truthy (ub_id data) = false ->
    transcribeHandwriting file options w s
    = (Throw (newError
                (if ur_ok response then "OCR upload did not return an id"
                 else JS.orStr (JS.orOpt (ub_message data) (ub_error0 data))
                        "OCR upload failed")),
       mkSt (S (S (clock s))) (trace s ++ [EvOcrUpload file])).
Proof.
  intros file options w s response data Hkey Hab Hresp Hbody Hbad.
  assert (H0 : abortedAt (o_signal options) (clock s) = false)
    by (apply (abortedAt_earlier _ _ _ (Nat.le_succ_diag_r _)),
          (abortedAt_earlier _ _ _ (Nat.le_succ_diag_r _)), Hab).
  unfold transcribeHandwriting. cbv zeta.
  unfold bind at 1, now. unfold bind at 1, throwIfCancelled.
  unfold bind at 1, signalAborted. rewrite H0. unfold ret at 1.
  unfold bind at 1.
  rewrite (uploadDocument_answered _ _ _ _ _ _ Hkey Hab Hresp Hbody).
  destruct (ur_ok response); simpl; [|reflexivity].
  destruct Hbad as [Hbad|Hbad]; [discriminate|]. now rewrite Hbad.
Qed.

Lemma refused_upload_ends_the_call_witness :
  transcribeHandwriting scan defaults (withUpload refusedUpload helloWorld)
    start
  = (Throw (newError "File too large"), mkSt 2 [EvOcrUpload scan]).
Proof.
  apply (refused_upload_ends_the_call scan defaults
           (withUpload refusedUpload helloWorld) start
           (mkUploadResponse false
              (Some (mkUploadBody None (Some "File too large") None)))
           (mkUploadBody None (Some "File too large") None));
    try reflexivity.
  left. reflexivity.
Defined.

(** ** A document the vendor could not process *)

(** X10: when a poll of the loop reports the status "failed", the call
    fails at once with the vendor's message, or with "Handwriting OCR
    processing failed" when there is none; it neither waits nor polls
    again. *)
Theorem failed_document_ends_the_call :
  forall file options w s documentId s2 results remaining d s3 result s4,
    uploadDocument file (o_signal options) w s = (Ok documentId, s2) ->
    Reaches documentId (o_signal options)
      (nullish (o_pollIntervalMs options) 2000)
      (nullish (o_maxWaitMs options) (4 * 60 * 1000))
      (dateNow w (clock s)) w results
      (Z.to_nat (nullish (o_maxAttempts options) 120),
       JS.ofZ (nullish (o_pollIntervalMs options) 2000), s2)
      (S remaining, d, s3) ->
    (dateNow w (clock s3) - dateNow w (clock s)
     <? nullish (o_maxWaitMs options) (4 * 60 * 1000)) = true ->
    fetchDocumentStatus documentId (o_signal options) w s3
    = (Ok result, s4) ->
    dr_status result = Some "failed" ->
    transcribeHandwriting file options w s
    = (Throw (newError
                (JS.orStr (dr_message result)
                   "Handwriting OCR processing failed")),
       s4) /\
    trace s4 = (trace s3 ++ [EvOcrPoll documentId])%list.
Proof.
  intros file options w s documentId s2 results remaining d s3 result s4
    Hup Hreach Hok Hfetch Hst.
  assert (Hp : isStatus result "processed" = false)
    by (unfold isStatus; now rewrite Hst).
  assert (Hf : isStatus result "failed" = true)
    by (unfold isStatus; now rewrite Hst).
  pose proof (pollLoop_reaches _ _ _ _ _ _ _ _ _ Hreach) as Hloop.
  cbn [fst snd] in Hloop.
  split.
  - rewrite (transcribeHandwriting_run _ _ _ _ _ _ Hup), Hloop.
    rewrite (pollLoop_turn _ _ _ _ _ _ _ _ _ _ _ Hok Hfetch), Hp, Hf.
    reflexivity.
  - destruct (fetchDocumentStatus_ok _ _ _ _ _ _ Hfetch)
      as (_ & _ & _ & _ & _ & Htr & _). exact Htr.
Qed.

Lemma failed_document_ends_the_call_witness :
  fst (transcribeHandwriting scan defaults failedDocument start)
  = Throw (newError "Unreadable image").
Proof.
  pose (s2 := snd (uploadDocument scan None failedDocument start)).
  destruct (failed_document_ends_the_call scan defaults failedDocument start
              "doc-42" s2 [] 119%nat 2000 s2
              (mkResult (Some "failed") ResultsFalsy
                 (Some "Unreadable image") None 200)
              (snd (fetchDocumentStatus "doc-42" None failedDocument s2))
              eq_refl (reaches_here _ _ _ _ _ _ _) eq_refl eq_refl eq_refl)
    as (Hrun & _).
  rewrite Hrun. reflexivity.
Defined.

(** ** What each step adds to the trace *)

Lemma uploadDocument_trace file signal w s r s1 :
  uploadDocument file signal w s = (r, s1) ->
  trace s1 = trace s \/ trace s1 = (trace s ++ [EvOcrUpload file])%list.
Proof.
  unfold uploadDocument. run.
  destruct (JS.truthy (HANDWRITING_OCR_API_KEY w)); simpl.
  2:{ intros E. inversion E. now left. }
  destruct (abortedAt signal (clock s)); simpl.
  { intros E. inversion E. now left. }
  destruct (abortedAt signal (S (clock s))); simpl.
  { intros E. inversion E. now right. }
  destruct (uploadResponse w (clock s)) as [response|e]; simpl.
  2:{ intros E. inversion E. now right. }
  destruct (abortedAt signal (S (S (clock s)))); simpl.
  { intros E. inversion E. now right. }
  destruct (ur_body response) as [data|]; simpl.
  2:{ intros E. inversion E. now right. }
  destruct (ur_ok response); simpl.
  2:{ intros E. inversion E. now right. }
  destruct (JS.truthy (ub_id data)); simpl; intros E; inversion E;
    now right.
Qed.

Lemma fetchDocumentStatus_trace documentId signal w s r s1 :
  fetchDocumentStatus documentId signal w s = (r, s1) ->
  trace s1 = trace s \/
  trace s1 = (trace s ++ [EvOcrPoll documentId])%list.
Proof.
  unfold fetchDocumentStatus. run.
  destruct (JS.truthy (HANDWRITING_OCR_API_KEY w)); simpl.
  2:{ intros E. inversion E. now left. }
  destruct (abortedAt signal (clock s)); simpl.
  { intros E. inversion E. now left. }
  destruct (abortedAt signal (S (clock s))); simpl.
  { intros E. inversion E. now right. }
  destruct (statusResponse w (clock s)) as [response|e]; simpl.
  2:{ intros E. inversion E. now right. }
  destruct (abortedAt signal (S (S (clock s)))); simpl.
  { intros E. inversion E. now right. }
  destruct (sr_body response) as [data|]; simpl; intros E; inversion E;
    now right.
Qed.

Lemma delay_run ms signal w s :
  exists r,
    delay ms signal w s
    = (r, mkSt (S (clock s)) (trace s ++ [EvDelay ms])%list).
Proof.
  unfold delay. run.
  destruct (negb (abortedAt signal (clock s))
            && abortedAt signal (S (clock s))); eauto.
Qed.

(** ** The waits between polls *)


Section Waits.

Variable w : World.
Hypothesis noRetryAfter :
  forall t response,
    statusResponse w t = Resolved response ->
    retryAfterOf (sr_retryAfter response) = None.

Variable documentId : string.
Variable signal : option AbortSignal.
Variable base : Z.
Variable maxWaitMs : Z.
Variable startedAt : Z.
Hypothesis base_range : 0 <= base <= 20000.


End Waits.




(** ** Cancellation *)

Lemma fetchDocumentStatus_aborted documentId signal w s :
  JS.truthy (HANDWRITING_OCR_API_KEY w) = true ->
  abortedAt signal (clock s) = true ->
  fetchDocumentStatus documentId signal w s = (Throw cancelledError, s).
Proof.
  intros Hkey Hab. unfold fetchDocumentStatus. run.
  rewrite Hkey. simpl. now rewrite Hab.
Qed.

(** X12: once the signal is aborted the client makes no further request.
    A call that starts then fails at once with "Processing cancelled"; so
    does the rest of a call that stands at the head of its polling loop
    (whether the loop has attempts and time left or goes on to the final
    request); and a wait during which the abort happens is cut short with
    the same error.  None of them adds a request to the trace. *)
Theorem aborted_signal_stops_the_client :
  forall file options documentId pollIntervalMs maxWaitMs startedAt
         remaining d w s,
    abortedAt (o_signal options) (clock s) = true ->
    transcribeHandwriting file options w s
    = (Throw (newError "Processing cancelled"), s) /\
    (JS.truthy (HANDWRITING_OCR_API_KEY w) = true ->
     match pollLoop documentId (o_signal options) pollIntervalMs maxWaitMs
             startedAt remaining d w s with
     | (Ok (Some transcript), s') => (Ok transcript, s')
     | (Ok None, s') => afterLoop documentId (o_signal options) w s'
     | (Throw e, s') => (Throw e, s')
     end
     = (Throw (newError "Processing cancelled"), s)) /\
    (forall ms s0,
        abortedAt (o_signal options) (clock s0) = false ->
        S (clock s0) = clock s ->
        delay ms (o_signal options) w s0
        = (Throw (newError "Processing cancelled"),
           mkSt (clock s) (trace s0 ++ [EvDelay ms]))).
Proof.
  intros file options documentId pollIntervalMs maxWaitMs startedAt
    remaining d w s Hab.
  split; [|split].
  - rewrite transcribeHandwriting_steps, Hab. reflexivity.
  - intros Hkey.
    assert (Hafter : afterLoop documentId (o_signal options) w s
                     = (Throw cancelledError, s)).
    { unfold afterLoop, bind at 1.
      now rewrite (fetchDocumentStatus_aborted _ _ _ _ Hkey Hab). }
    destruct remaining as [|remaining]; [exact Hafter|].
    simpl. unfold bind at 1, now.
    destruct (dateNow w (clock s) - startedAt <? maxWaitMs);
      [|exact Hafter].
    unfold bind at 1.
    now rewrite (fetchDocumentStatus_aborted _ _ _ _ Hkey Hab).
  - intros ms s0 H0 Hs. unfold delay. run.
    rewrite H0, Hs, Hab. reflexivity.
Qed.

Lemma aborted_signal_stops_the_client_witness :
  transcribeHandwriting scan
    (mkOptions None None None (Some (mkSignal (Some 0%nat)))) helloWorld
    start
  = (Throw (newError "Processing cancelled"), start).
Proof.
  destruct (aborted_signal_stops_the_client scan
              (mkOptions None None None (Some (mkSignal (Some 0%nat))))
              "doc-42" 2000 240000 0 120%nat 2000 helloWorld start eq_refl)
    as (Hrun & _).
  exact Hrun.
Defined.

(** ** The transcript a call returns *)

Lemma collectTranscript_trimmed results :
  JS.trim (collectTranscript results) = collectTranscript results.
Proof.
  destruct results as [| |pages]; try reflexivity.
  apply JSFacts.trim_idempotent.
Qed.

Lemma noPersist_nil_or_one (s s1 : St) (ev : Event) :
  noPersist ev = true ->
  trace s1 = trace s \/ trace s1 = (trace s ++ [ev])%list ->
  exists d, trace s1 = (trace s ++ d)%list /\ forallb noPersist d = true.
Proof.
  intros Hev [T|T]; rewrite T.
  - exists []. now rewrite app_nil_r.
  - exists [ev]. simpl. now rewrite Hev.
Qed.

Lemma pollLoop_copy documentId signal pollIntervalMs maxWaitMs startedAt
    remaining :
  forall d w s r s',
    pollLoop documentId signal pollIntervalMs maxWaitMs startedAt remaining
      d w s = (r, s') ->
    exists ev,
      trace s' = (trace s ++ ev)%list /\
      match r with
      | Ok (Some t) =>
          JS.truthyStr t = true /\ JS.trim t = t /\ EndsWithCopy t ev
      | _ => forallb noPersist ev = true
      end.
Proof.
  induction remaining as [|remaining IH]; intros d w s r s' E.
  { inversion E. exists []. now rewrite app_nil_r. }
  simpl in E. unfold bind at 1, now in E.
  destruct (dateNow w (clock s) - startedAt <? maxWaitMs).
  2:{ inversion E. exists []. now rewrite app_nil_r. }
  unfold bind at 1 in E.
  destruct (fetchDocumentStatus documentId signal w s) as [[result|e] s1]
    eqn:Hfetch.
  2:{ inversion E; subst.
      apply (noPersist_nil_or_one _ _ (EvOcrPoll documentId) eq_refl).
      exact (fetchDocumentStatus_trace _ _ _ _ _ _ Hfetch). }
  destruct (fetchDocumentStatus_ok _ _ _ _ _ _ Hfetch)
    as (_ & _ & _ & _ & _ & Htr & _).
  destruct (isStatus result "processed").
  { destruct (JS.truthyStr (collectTranscript (dr_results result))) eqn:Ht.
    - inversion E; subst. simpl. rewrite Htr, <- app_assoc.
      eexists. split; [reflexivity|].
      split; [exact Ht|]. split; [apply collectTranscript_trimmed|].
      exists [EvOcrPoll documentId]. split; reflexivity.
    - inversion E; subst. rewrite Htr. exists [EvOcrPoll documentId].
      split; reflexivity. }
  destruct (isStatus result "failed").
  { inversion E; subst. rewrite Htr. exists [EvOcrPoll documentId].
    split; reflexivity. }
  unfold bind at 1 in E.
  destruct (delay_run (waitMs pollIntervalMs d result) signal w s1)
    as (rd & Hdelay).
  rewrite Hdelay in E.
  destruct rd as [[]|e].
  - destruct (IH _ _ _ _ _ E) as (ev & T & Q).
    exists (EvOcrPoll documentId
              :: EvDelay (waitMs pollIntervalMs d result) :: ev).
    split.
    + rewrite T. simpl. rewrite Htr, <- !app_assoc. reflexivity.
    + destruct r as [[t|]|e']; try exact Q.
      destruct Q as (Q1 & Q2 & before & -> & Q3).
      split; [exact Q1|]. split; [exact Q2|].
      exists (EvOcrPoll documentId
                :: EvDelay (waitMs pollIntervalMs d result) :: before).
      split; reflexivity || exact Q3.
  - inversion E; subst. simpl.
    exists [EvOcrPoll documentId; EvDelay (waitMs pollIntervalMs d result)].
    split; [|reflexivity].
    rewrite Htr, <- app_assoc. reflexivity.
Qed.

Lemma afterLoop_copy documentId signal w s r s' :
  afterLoop documentId signal w s = (r, s') ->
  exists ev,
    trace s' = (trace s ++ ev)%list /\
    match r with
    | Ok t => JS.truthyStr t = true /\ JS.trim t = t /\ EndsWithCopy t ev
    | Throw _ => forallb noPersist ev = true
    end.
Proof.
  unfold afterLoop. unfold bind at 1.
  destruct (fetchDocumentStatus documentId signal w s) as [[fin|e] s1]
    eqn:Hfetch.
  2:{ intros E. inversion E; subst.
      apply (noPersist_nil_or_one _ _ (EvOcrPoll documentId) eq_refl).
      exact (fetchDocumentStatus_trace _ _ _ _ _ _ Hfetch). }
  destruct (fetchDocumentStatus_ok _ _ _ _ _ _ Hfetch)
    as (_ & _ & _ & _ & _ & Htr & _).
  cbv zeta.
  destruct (isStatus fin "processed").
  2:{ intros E. inversion E; subst. rewrite Htr.
      exists [EvOcrPoll documentId]. split; reflexivity. }
  destruct (JS.truthyStr (collectTranscript (dr_results fin))) eqn:Ht.
  2:{ intros E. inversion E; subst. rewrite Htr.
      exists [EvOcrPoll documentId]. split; reflexivity. }
  intros E. inversion E; subst. simpl. rewrite Htr, <- app_assoc.
  eexists. split; [reflexivity|].
  split; [exact Ht|]. split; [apply collectTranscript_trimmed|].
  exists [EvOcrPoll documentId]. split; reflexivity.
Qed.

Lemma EndsWithCopy_after t before ev :
  forallb noPersist before = true ->
  EndsWithCopy t ev -> EndsWithCopy t (before ++ ev).
Proof.
  intros Hb (d & -> & Hd). exists (before ++ d)%list.
  split; [now rewrite app_assoc|now rewrite forallb_app, Hb, Hd].
Qed.

(** X13: a call that returns a transcript returns a text that is not
    empty and has no white space at either end, and it hands that very
    text to the markdown copy exactly once, as the last thing it does; a
    call that fails copies nothing. *)
Theorem transcript_is_copied_once :
  forall file options w s,
    exists d,
      trace (snd (transcribeHandwriting file options w s))
      = (trace s ++ d)%list /\
      match fst (transcribeHandwriting file options w s) with
      | Ok t => JS.truthyStr t = true /\ JS.trim t = t /\ EndsWithCopy t d
      | Throw _ => forallb noPersist d = true
      end.
Proof.
  intros file options w s. rewrite transcribeHandwriting_steps.
  destruct (abortedAt (o_signal options) (clock s)).
  { exists []. cbn [fst snd]. now rewrite app_nil_r. }
  destruct (uploadDocument file (o_signal options) w s)
    as [[documentId|e] s2] eqn:Hup.
  2:{ cbn [fst snd].
      apply (noPersist_nil_or_one _ _ (EvOcrUpload file) eq_refl).
      exact (uploadDocument_trace _ _ _ _ _ _ Hup). }
  destruct (noPersist_nil_or_one _ _ (EvOcrUpload file) eq_refl
              (uploadDocument_trace _ _ _ _ _ _ Hup)) as (up & T2 & F2).
  destruct (pollLoop _ _ _ _ _ _ _ w s2) as [[[t|]|e] s3] eqn:Hloop;
    destruct (pollLoop_copy _ _ _ _ _ _ _ _ _ _ _ Hloop) as (ev & T3 & Q3).
  - cbn [fst snd]. exists (up ++ ev)%list.
    split; [now rewrite T3, T2, app_assoc|].
    destruct Q3 as (Q1 & Q2 & Q3).
    split; [exact Q1|]. split; [exact Q2|].
    now apply EndsWithCopy_after.
  - destruct (afterLoop documentId (o_signal options) w s3) as [r s4]
      eqn:Hafter.
    destruct (afterLoop_copy _ _ _ _ _ _ Hafter) as (fin & T4 & Q4).
    cbn [fst snd]. exists (up ++ ev ++ fin)%list.
    split; [now rewrite T4, T3, T2, !app_assoc|].
    destruct r as [t|e].
    + destruct Q4 as (Q1 & Q2 & Q4).
      split; [exact Q1|]. split; [exact Q2|].
      apply EndsWithCopy_after; [exact F2|].
      now apply EndsWithCopy_after.
    + now rewrite !forallb_app, F2, Q3, Q4.
  - cbn [fst snd]. exists (up ++ ev)%list.
    split; [now rewrite T3, T2, app_assoc|].
    now rewrite forallb_app, F2, Q3.
Qed.

(** A returned transcript is not empty and trimmed. *)
Lemma transcript_is_trimmed file options w s t s' :
  transcribeHandwriting file options w s = (Ok t, s') ->
  JS.truthyStr t = true /\ JS.trim t = t.
Proof.
  rewrite transcribeHandwriting_steps.
  destruct (abortedAt (o_signal options) (clock s)); [discriminate|].
  destruct (uploadDocument file (o_signal options) w s)
    as [[documentId|e] s2]; [|discriminate].
  destruct (pollLoop _ _ _ _ _ _ _ w s2) as [[[u|]|e] s3] eqn:Hloop;
    destruct (pollLoop_copy _ _ _ _ _ _ _ _ _ _ _ Hloop) as (ev & T3 & Q3).
  - intros E. inversion E; subst. destruct Q3 as (Q1 & Q2 & _). auto.
  - intros E. destruct (afterLoop_copy _ _ _ _ _ _ E) as (fin & T4 & Q4).
    destruct Q4 as (Q1 & Q2 & _). auto.
  - discriminate.
Qed.

(** ** One upload per call *)

Lemma pollLoop_loop_events documentId signal pollIntervalMs maxWaitMs
    startedAt remaining :
  forall d w s r s',
    pollLoop documentId signal pollIntervalMs maxWaitMs startedAt remaining
      d w s = (r, s') ->
    exists ev,
      trace s' = (trace s ++ ev)%list /\ forallb isLoopEvent ev = true.
Proof.
  induction remaining as [|remaining IH]; intros d w s r s' E.
  { inversion E. exists []. now rewrite app_nil_r. }
  simpl in E. unfold bind at 1, now in E.
  destruct (dateNow w (clock s) - startedAt <? maxWaitMs).
  2:{ inversion E. exists []. now rewrite app_nil_r. }
  unfold bind at 1 in E.
  destruct (fetchDocumentStatus documentId signal w s) as [[result|e] s1]
    eqn:Hfetch.
  2:{ inversion E; subst.
      destruct (fetchDocumentStatus_trace _ _ _ _ _ _ Hfetch) as [T|T];
        rewrite T; [exists []; now rewrite app_nil_r|eauto]. }
  destruct (fetchDocumentStatus_ok _ _ _ _ _ _ Hfetch)
    as (_ & _ & _ & _ & _ & Htr & _).
  destruct (isStatus result "processed").
  { destruct (JS.truthyStr (collectTranscript (dr_results result))).
    - inversion E; subst. simpl. rewrite Htr, <- app_assoc. eauto.
    - inversion E; subst. rewrite Htr. eauto. }
  destruct (isStatus result "failed").
  { inversion E; subst. rewrite Htr. eauto. }
  unfold bind at 1 in E.
  destruct (delay_run (waitMs pollIntervalMs d result) signal w s1)
    as (rd & Hdelay).
  rewrite Hdelay in E.
  destruct rd as [[]|e].
  - destruct (IH _ _ _ _ _ E) as (ev & T & F).
    exists (EvOcrPoll documentId
              :: EvDelay (waitMs pollIntervalMs d result) :: ev).
    split; [|exact F].
    rewrite T. simpl. rewrite Htr, <- !app_assoc. reflexivity.
  - inversion E; subst. simpl.
    exists [EvOcrPoll documentId; EvDelay (waitMs pollIntervalMs d result)].
    split; [|reflexivity].
    rewrite Htr, <- app_assoc. reflexivity.
Qed.

Lemma afterLoop_loop_events documentId signal w s r s' :
  afterLoop documentId signal w s = (r, s') ->
  exists ev,
    trace s' = (trace s ++ ev)%list /\ forallb isLoopEvent ev = true.
Proof.
  unfold afterLoop. unfold bind at 1.
  destruct (fetchDocumentStatus documentId signal w s) as [[fin|e] s1]
    eqn:Hfetch.
  2:{ intros E. inversion E; subst.
      destruct (fetchDocumentStatus_trace _ _ _ _ _ _ Hfetch) as [T|T];
        rewrite T; [exists []; now rewrite app_nil_r|eauto]. }
  destruct (fetchDocumentStatus_ok _ _ _ _ _ _ Hfetch)
    as (_ & _ & _ & _ & _ & Htr & _).
  cbv zeta.
  destruct (isStatus fin "processed").
  2:{ intros E. inversion E; subst. rewrite Htr. eauto. }
  destruct (JS.truthyStr (collectTranscript (dr_results fin))).
  2:{ intros E. inversion E; subst. rewrite Htr. eauto. }
  intros E. inversion E; subst. simpl. rewrite Htr, <- app_assoc. eauto.
Qed.

Lemma loop_event_is_no_upload ev :
  isLoopEvent ev = true -> isUpload ev = false.
Proof. now destruct ev. Qed.

Lemma countOf_app P d1 d2 :
  countOf P (d1 ++ d2) = (countOf P d1 + countOf P d2)%nat.
Proof. unfold countOf. now rewrite filter_app, length_app. Qed.

Lemma countOf_none P Q d :
  (forall ev, Q ev = true -> P ev = false) ->
  forallb Q d = true -> countOf P d = 0%nat.
Proof.
  intros H. unfold countOf. induction d as [|ev d IH]; [reflexivity|].
  simpl. intros F. apply andb_true_iff in F. destruct F as [Hev Hd].
  rewrite (H _ Hev). now apply IH.
Qed.

(** A call uploads the image at most once. *)
Lemma transcribeHandwriting_one_upload file options w s r s' :
  transcribeHandwriting file options w s = (r, s') ->
  exists d,
    trace s' = (trace s ++ d)%list /\ (countOf isUpload d <= 1)%nat.
Proof.
  rewrite transcribeHandwriting_steps.
  destruct (abortedAt (o_signal options) (clock s)).
  { intros E. inversion E. exists []. rewrite app_nil_r.
      split; [reflexivity|apply Nat.le_0_l]. }
  destruct (uploadDocument file (o_signal options) w s)
    as [[documentId|e] s2] eqn:Hup.
  2:{ intros E. inversion E; subst.
      destruct (uploadDocument_trace _ _ _ _ _ _ Hup) as [T|T]; rewrite T.
      - exists []. rewrite app_nil_r.
      split; [reflexivity|apply Nat.le_0_l].
      - exists [EvOcrUpload file]. split; [reflexivity|].
        unfold countOf. simpl. lia. }
  assert (Hup' : exists up,
             trace s2 = (trace s ++ up)%list /\
             (countOf isUpload up <= 1)%nat).
  { destruct (uploadDocument_trace _ _ _ _ _ _ Hup) as [T|T]; rewrite T.
    - exists []. rewrite app_nil_r.
      split; [reflexivity|apply Nat.le_0_l].
    - exists [EvOcrUpload file]. split; [reflexivity|].
      unfold countOf. simpl. lia. }
  destruct Hup' as (up & T2 & C2).
  destruct (pollLoop _ _ _ _ _ _ _ w s2) as [[[t|]|e] s3] eqn:Hloop;
    destruct (pollLoop_loop_events _ _ _ _ _ _ _ _ _ _ _ Hloop)
      as (ev & T3 & F3);
    pose proof (countOf_none isUpload isLoopEvent ev loop_event_is_no_upload
                  F3) as C3.
  - intros E. inversion E; subst. exists (up ++ ev)%list.
    split; [now rewrite T3, T2, app_assoc|]. rewrite countOf_app. lia.
  - intros E.
    destruct (afterLoop_loop_events _ _ _ _ _ _ E) as (fin & T4 & F4).
    pose proof (countOf_none isUpload isLoopEvent fin
                  loop_event_is_no_upload F4) as C4.
    exists (up ++ ev ++ fin)%list.
    split; [now rewrite T4, T3, T2, !app_assoc|].
    rewrite !countOf_app. lia.
  - intros E. inversion E; subst. exists (up ++ ev)%list.
    split; [now rewrite T3, T2, app_assoc|]. rewrite countOf_app. lia.
Qed.

End OcrMoreFacts.

(* ===================================================================== *)
(** * More facts about aiAgent.ts: the router, the record of a run *)
(* ===================================================================== *)

Module AgentMoreFacts.
Import Agent Providers Observe OcrExamples AgentExamples MoreWorlds
  TraceFacts AgentFacts.

(** ** The router *)

(** X14: every provider needs its own key.  When the key of the selected
    provider is missing or empty, the router fails at once, in the state it
    started in and so without any request: with "<Provider> API key is
    missing" when the signal is not aborted, with "Processing cancelled"
    when it is. *)
Theorem provider_without_key_fails_fast :
  forall w bundle config signal s,
    JS.truthy (apiKeyOf w (provider (modelSettings config))) = false ->
    routeModel bundle config signal w s
    = (Throw (if abortedAt signal (clock s)
              then newError "Processing cancelled"
              else newError
                     (providerName (provider (modelSettings config))
                        ++ " API key is missing")),
       s).
Proof.
  intros w bundle config signal s Hkey.
  unfold routeModel. cbv zeta.
  unfold bind at 1, signalAborted.
  destruct (abortedAt signal (clock s)); [reflexivity|].
  destruct (provider (modelSettings config)); simpl in Hkey;
    unfold bind at 1, ask; unfold bind at 1;
    unfold runOpenAIStyleModel, runGeminiModel; rewrite Hkey; reflexivity.
Qed.

Lemma provider_without_key_fails_fast_witness :
  routeModel aBundle geminiConfig neverAborted
    (withoutGeminiKey (agentWorld (Some "sk-test") true)) start
  = (Throw (newError "Gemini API key is missing"), start).
Proof.
  apply (provider_without_key_fails_fast
           (withoutGeminiKey (agentWorld (Some "sk-test") true)) aBundle
           geminiConfig neverAborted start).
  reflexivity.
Defined.

Lemma runOpenAIStyleModel_request bundle modelId apiKey baseUrl name signal
    w s r s' :
  runOpenAIStyleModel bundle modelId apiKey baseUrl name signal w s = (r, s')
  -> OneRequest (baseUrl ++ "/chat/completions") s r s'.
Proof.
  unfold runOpenAIStyleModel, OneRequest.
  destruct (negb (JS.truthy apiKey)).
  { intros E. inversion E. left. eauto. }
  unfold bind at 1, signalAborted.
  destruct (abortedAt signal (clock s)).
  { intros E. inversion E. left. eauto. }
  unfold bind at 1, emit. unfold bind at 1, fetch. cbn [clock trace tick].
  destruct (abortedAt signal (S (clock s))).
  { intros E. inversion E. now right. }
  destruct (modelResponse w (clock s)) as [response|e].
  2:{ intros E. inversion E. now right. }
  unfold bind at 1, json. cbn [clock trace tick].
  destruct (abortedAt signal (S (S (clock s)))).
  { intros E. inversion E. now right. }
  destruct (mr_body response) as [data|].
  2:{ intros E. inversion E. now right. }
  destruct (negb (mr_ok response)).
  { intros E. inversion E. now right. }
  destruct (mb_content data) as [|content|parts|].
  - intros E. inversion E. now right.
  - destruct (JS.truthyStr content) eqn:Ht; intros E; inversion E; subst;
      right; cbn [clock trace]; auto.
  - destruct (textPartOf parts) as [textPart|].
    + destruct (JS.truthyStr textPart) eqn:Ht; intros E; inversion E; subst;
        right; cbn [clock trace]; auto.
    + intros E. inversion E. now right.
  - intros E. inversion E. now right.
Qed.

Lemma runGeminiModel_request bundle modelId apiKey baseUrl name signal
    w s r s' :
  runGeminiModel bundle modelId apiKey baseUrl name signal w s = (r, s') ->
  OneRequest
    (stripTrailingSlash baseUrl ++ "/models/" ++ modelId
       ++ ":generateContent?key=" ++ JS.orStr apiKey "") s r s'.
Proof.
  unfold runGeminiModel, OneRequest.
  destruct (negb (JS.truthy apiKey)).
  { intros E. inversion E. left. eauto. }
  unfold bind at 1, signalAborted.
  destruct (abortedAt signal (clock s)).
  { intros E. inversion E. left. eauto. }
  unfold bind at 1, emit. unfold bind at 1, fetch. cbn [clock trace tick].
  destruct (abortedAt signal (S (clock s))).
  { intros E. inversion E. now right. }
  destruct (modelResponse w (clock s)) as [response|e].
  2:{ intros E. inversion E. now right. }
  unfold bind at 1, json. cbn [clock trace tick].
  destruct (abortedAt signal (S (S (clock s)))).
  { intros E. inversion E. now right. }
  destruct (mr_body response) as [data|].
  2:{ intros E. inversion E. now right. }
  destruct (negb (mr_ok response)).
  { intros E. inversion E. now right. }
  destruct (mb_candidateParts data) as [candidateParts|].
  2:{ intros E. inversion E. now right. }
  destruct (find JS.truthy candidateParts) as [[textPart|]|] eqn:Hfind;
    intros E; inversion E; subst; right; cbn [clock trace]; auto.
  split; [reflexivity|]. split; [|reflexivity].
  apply find_some in Hfind. exact (proj2 Hfind).
Qed.

Lemma routeModel_request bundle config signal w s r s' :
  routeModel bundle config signal w s = (r, s') ->
  OneRequest (requestUrl w config) s r s'.
Proof.
  unfold routeModel, requestUrl. cbv zeta.
  unfold bind at 1, signalAborted.
  destruct (abortedAt signal (clock s)).
  { intros E. inversion E. left. eauto. }
  destruct (provider (modelSettings config));
    unfold bind at 1, ask; unfold bind at 1; cbn [apiKeyOf baseUrlOf];
    first [apply runOpenAIStyleModel_request|apply runGeminiModel_request].
Qed.

(** X15: the router makes at most one request, to the endpoint of the
    selected provider: the chat completions of its base URL, or for Gemini
    the [generateContent] of the model (gemini-1.5-flash when none is
    named) with the key in the query.  When it returns a text, that
    request was made, the text is not empty, and two units of time have
    passed. *)
Theorem routeModel_makes_one_request :
  forall bundle config signal w s,
    let run := routeModel bundle config signal w s in
    (trace (snd run) = trace s \/
     trace (snd run)
     = (trace s ++ [EvModelRequest (requestUrl w config)])%list) /\
    (length (modelRequestsOf (newEvents s (snd run))) <= 1)%nat /\
    match fst run with
    | Ok content =>
        JS.truthyStr content = true /\
        newEvents s (snd run) = [EvModelRequest (requestUrl w config)] /\
        clock (snd run) = S (S (clock s))
    | Throw _ => True
    end.
Proof.
  intros bundle config signal w s run. subst run.
  destruct (routeModel bundle config signal w s) as [r s'] eqn:E.
  cbn [fst snd].
  destruct (routeModel_request _ _ _ _ _ _ _ E) as [(T & e & ->)|(T & Q)].
  - rewrite (newEvents_app s s' []) by now rewrite app_nil_r.
    split; [now left|]. split; [simpl; lia|exact I].
  - rewrite (newEvents_app s s' _ T).
    split; [now right|]. split; [simpl; lia|].
    destruct r as [content|e]; [|exact I].
    destruct Q as (Q1 & Q2). repeat split; assumption.
Qed.

(** X16: an HTTP error of the provider is reported with the provider's own
    words: when the response is not ok and its body is JSON, the router
    fails with the body's [error.message], else its [message], else
    "<Provider> request failed". *)
Theorem model_http_error_is_reported :
  forall bundle config signal w s response data,
    JS.truthy (apiKeyOf w (provider (modelSettings config))) = true ->
    abortedAt signal (S (S (clock s))) = false ->
    modelResponse w (clock s) = Resolved response ->
    mr_ok response = false ->
    mr_body response = Some data ->
    routeModel bundle config signal w s
    = (Throw (newError
                (JS.orStr (JS.orOpt (mb_errorMessage data) (mb_message data))
                   (providerName (provider (modelSettings config))
                      ++ " request failed"))),
       mkSt (S (S (clock s)))
         (trace s ++ [EvModelRequest (requestUrl w config)])).
Proof.
  intros bundle config signal w s response data Hkey Hab Hresp Hok Hbody.
  assert (H0 : abortedAt signal (clock s) = false)
    by (apply (OcrMoreFacts.abortedAt_earlier _ _ _ (Nat.le_succ_diag_r _)),
          (OcrMoreFacts.abortedAt_earlier _ _ _ (Nat.le_succ_diag_r _)),
          Hab).
  assert (H1 : abortedAt signal (S (clock s)) = false)
    by (apply (OcrMoreFacts.abortedAt_earlier _ _ _ (Nat.le_succ_diag_r _)),
          Hab).
  unfold routeModel, requestUrl. cbv zeta.
  unfold bind at 1, signalAborted. rewrite H0.
  destruct (provider (modelSettings config)); cbn [apiKeyOf baseUrlOf providerName] in *;
    unfold bind at 1, ask; unfold bind at 1;
    unfold runOpenAIStyleModel, runGeminiModel; rewrite Hkey;
    cbn [negb]; unfold bind at 1, signalAborted; rewrite H0;
    unfold bind at 1, emit; unfold bind at 1, fetch; cbn [clock trace tick];
    rewrite H1, Hresp;
    unfold bind at 1, json; cbn [clock trace tick];
    rewrite Hab, Hbody, Hok; reflexivity.
Qed.

Lemma model_http_error_is_reported_witness :
  routeModel aBundle openaiConfig neverAborted
    (withModel modelOverloaded (agentWorld (Some "sk-test") true)) start
  = (Throw (newError "Rate limit reached"),
     mkSt 2 [EvModelRequest "https://api.openai.com/v1/chat/completions"]).
Proof.
  apply (model_http_error_is_reported aBundle openaiConfig neverAborted
           (withModel modelOverloaded (agentWorld (Some "sk-test") true))
           start
           (mkModelResponse false
              (Some (mkModelBody (Some "Rate limit reached") None
                       ContentFalsy None)))
           (mkModelBody (Some "Rate limit reached") None ContentFalsy None));
    reflexivity.
Defined.

(** ** The record of a run *)

(** A grading half that returns, returns the success record. *)
Lemma gradePhase_ok essay config options textForModel w s graded s' :
  gradePhase essay config options textForModel w s = (Ok graded, s') ->
  exists today result,
    graded = completed essay textForModel today result.
Proof.
  intros E. unfold gradePhase in E.
  unfold bind at 1 in E.
  destruct ((if skipOcr options
             then setProgress None grading "AI批改重试中..."
             else setProgress None grading "AI批改中...") w s)
    as [[[]|e0] sa]; [|discriminate].
  unfold bind at 1, signalAborted in E.
  destruct (abortedAt (signal options) (clock sa)); [discriminate|].
  unfold bind at 1 in E.
  destruct (buildPromptBundle essay config textForModel w sa)
    as [[bundle|e0] sb]; [|discriminate].
  unfold bind at 1 in E.
  destruct (routeModel bundle config (signal options) w sb)
    as [[jsonText|e0] sc]; [|discriminate].
  unfold bind at 1, ask in E.
  destruct (parseReply w jsonText) as [| |result].
  - discriminate.
  - unfold bind, setProgress, emit in E. discriminate.
  - unfold bind, setProgress, emit, ask, ret in E.
    inversion E. eauto.
Qed.

(** The two records a run resolves to. *)
Lemma processEssayAgent_record essay config options w s :
  exists textForModel,
    (textForModel = initialText essay \/ JS.truthyStr textForModel = true) /\
    ((exists today result,
         fst (processEssayAgent essay config options w s)
         = Ok (completed essay textForModel today result)) \/
     (exists err,
         fst (processEssayAgent essay config options w s)
         = Ok (failed essay textForModel err))).
Proof.
  unfold processEssayAgent.
  destruct (ocrPhase essay options (initialText essay) w s)
    as [[t|e] s1] eqn:Eocr.
  - assert (Ht : t = initialText essay \/ JS.truthyStr t = true).
    { destruct (ocrPhase_cases _ _ _ _ _ _ _ Eocr)
        as [(Hr & _) | [(Hr & _) | (t' & d & Hr & Ht & _)]].
      - discriminate.
      - injection Hr as ->. now left.
      - injection Hr as ->. now right. }
    exists t. split; [exact Ht|].
    destruct (gradePhase essay config options t w s1) as [[g|e] s2] eqn:Eg.
    + left. destruct (gradePhase_ok _ _ _ _ _ _ _ _ Eg)
        as (today & result & ->).
      exists today, result. reflexivity.
    + right. exists e. reflexivity.
  - exists (initialText essay). split; [now left|]. right.
    exists e. reflexivity.
Qed.

Lemma agent_record_id essay config options w s :
  exists record,
    fst (processEssayAgent essay config options w s) = Ok record /\
    id record = id essay.
Proof.
  destruct (processEssayAgent_record essay config options w s)
    as (t & _ & [(today & result & ->) | (err & ->)]);
    eexists; split; reflexivity.
Qed.

Lemma orStr_literal_truthy a (s : string) :
  JS.truthyStr s = true -> JS.truthyStr (JS.orStr a s) = true.
Proof. unfold JS.orStr. destruct a as [[|c r]|]; simpl; auto. Qed.

(** X17: a run never throws and never changes what the essay is: it
    resolves to a record with the essay's id, submission type, [File]
    handle, raw text, preview, topic, time stamp, batch, sub-statuses and
    source names.  The record is COMPLETED at step "done" with a student
    name, or it is in status ERROR or CANCELLED with an error message and
    the grading result the essay had. *)
Theorem agent_record_keeps_the_essay :
  forall essay config options w s,
    exists record,
      fst (processEssayAgent essay config options w s) = Ok record /\
      id record = id essay /\
      submissionType record = submissionType essay /\
      file record = file essay /\
      rawText record = rawText essay /\
      imagePreview record = imagePreview essay /\
      topic record = topic essay /\
      addedAt record = addedAt essay /\
      batchId record = batchId essay /\
      ocrStatus record = ocrStatus essay /\
      gradingStatus record = gradingStatus essay /\
      sourceFileName record = sourceFileName essay /\
      sourcePath record = sourcePath essay /\
      ((status record = COMPLETED /\ progressStep record = Some done /\
        JS.truthy (studentName record) = true) \/
       ((status record = ERROR \/ status record = CANCELLED) /\
        JS.truthy (errorMessage record) = true /\
        gradingResult record = gradingResult essay /\
        studentName record = studentName essay)).
Proof.
  intros essay config options w s.
  destruct (processEssayAgent_record essay config options w s)
    as (t & _ & [(today & result & ->) | (err & ->)]).
  - eexists. split; [reflexivity|].
    repeat (split; [reflexivity|]).
    left. repeat split. simpl.
    now apply orStr_literal_truthy.
  - eexists. split; [reflexivity|].
    repeat (split; [reflexivity|]).
    right. unfold failed. destruct (isCancelled err); simpl.
    + repeat split. now right.
    + repeat split; [now left|]. now apply orStr_literal_truthy.
Qed.

Lemma initialText_truthy essay :
  JS.truthy (rawText essay) || JS.truthyStr (ocrText essay) = true ->
  JS.truthyStr (initialText essay) = true.
Proof.
  unfold initialText, JS.orStr, JS.orS.
  destruct (rawText essay) as [[|c r]|]; simpl;
    destruct (ocrText essay); simpl; auto.
Qed.

(** X18: a run never loses the text of an essay.  When the essay has raw
    text or OCR text, the record the run resolves to has a non-empty
    [ocrText], whether the run was graded, failed or was cancelled. *)
Theorem agent_never_loses_text :
  forall essay config options w s,
    JS.truthy (rawText essay) || JS.truthyStr (ocrText essay) = true ->
    exists record,
      fst (processEssayAgent essay config options w s) = Ok record /\
      JS.truthyStr (ocrText record) = true.
Proof.
  intros essay config options w s Htext.
  destruct (processEssayAgent_record essay config options w s)
    as (t & Ht & Hrec).
  assert (Htruthy : JS.truthyStr t = true).
  { destruct Ht as [->|Ht]; [now apply initialText_truthy|exact Ht]. }
  destruct Hrec as [(today & result & ->) | (err & ->)];
    eexists; (split; [reflexivity|]).
  - simpl. unfold JS.orStr.
    destruct (r_ocrText result) as [[|c r]|]; simpl;
      try reflexivity; now rewrite (orS_truthy _ _ Htruthy).
  - unfold failed; simpl. now rewrite (orS_truthy _ _ Htruthy).
Qed.

Lemma agent_never_loses_text_witness :
  exists record,
    fst (processEssayAgent scannedEssay openaiConfig
           (mkOptions true neverAborted)
           (withModel modelOverloaded (agentWorld (Some "sk-test") true))
           start) = Ok record /\
    JS.truthyStr (ocrText record) = true.
Proof.
  apply (agent_never_loses_text scannedEssay openaiConfig
           (mkOptions true neverAborted)
           (withModel modelOverloaded (agentWorld (Some "sk-test") true))
           start).
  reflexivity.
Defined.

(** X19: whatever happens to the OCR step, a run that is not cancelled at
    its start goes on to grading: a failing OCR (no key, a refused upload, a
    time-out, even a cancellation during OCR) is caught, and the report of
    the step "grading" is among the events of the run. *)
Theorem agent_always_reaches_grading :
  forall essay config options w s,
    abortedAt (signal options) (clock s) = false ->
    In (EvProgress
          (mkProgress None grading
             (if skipOcr options then "AI批改重试中..." else "AI批改中...")))
       (newEvents s (snd (processEssayAgent essay config options w s))).
Proof.
  intros essay config options w s Hab.
  unfold processEssayAgent.
  destruct (ocrPhase essay options (initialText essay) w s)
    as [[t|e] s1] eqn:Eocr.
  - assert (Hd : exists d, trace s1 = (trace s ++ d)%list).
    { destruct (ocrPhase_cases _ _ _ _ _ _ _ Eocr)
        as [(Hr & _) | [(_ & d & Td & _) | (t' & d & _ & _ & Td & _)]];
        [discriminate|eauto|eauto]. }
    destruct Hd as (d & Td).
    destruct (gradePhase essay config options t w s1) as [[g|e] s2] eqn:Eg;
      destruct (AppFacts.gradePhase_opens _ _ _ _ _ _ _ _ Eg)
        as (rest & T & _);
      cbn [snd];
      rewrite (newEvents_app s s2 (d ++ _ :: rest))
        by (rewrite T, Td, <- app_assoc; reflexivity);
      apply in_or_app; right; now left.
  - destruct (ocrPhase_cases _ _ _ _ _ _ _ Eocr)
      as [(_ & _ & Habs) | [(Hr & _) | (t' & d & Hr & _)]];
      [congruence|discriminate|discriminate].
Qed.

Lemma agent_always_reaches_grading_witness :
  In (EvProgress (mkProgress None grading "AI批改中..."))
     (newEvents start
        (snd (processEssayAgent freshScan openaiConfig
                (mkOptions false neverAborted)
                (withOcrKey None (agentWorld (Some "sk-test") true))
                start))).
Proof.
  apply (agent_always_reaches_grading freshScan openaiConfig
           (mkOptions false neverAborted)
           (withOcrKey None (agentWorld (Some "sk-test") true)) start).
  reflexivity.
Defined.

(** Without the OCR branch the first half of the agent does nothing. *)
Lemma ocrPhase_skipped essay options textForModel w s :
  submissionType essay <> image \/ file essay = None \/
  skipOcr options = true ->
  snd (ocrPhase essay options textForModel w s) = s.
Proof.
  intros H. unfold ocrPhase. unfold bind at 1, signalAborted.
  destruct (abortedAt (signal options) (clock s)); [reflexivity|].
  destruct (submissionType essay), (file essay) as [f|],
    (skipOcr options); try reflexivity.
  destruct H as [H|[H|H]]; [now elim H|discriminate|discriminate].
Qed.

(** X20: only image essays are transcribed.  For an essay that is no image
    submission or has no [File] handle, and for any essay when [skipOcr] is
    set, a run issues no request to the OCR vendor, neither the upload nor
    a status poll: all it does is grading. *)
Theorem only_images_are_transcribed :
  forall essay config options w s,
    submissionType essay <> image \/ file essay = None \/
    skipOcr options = true ->
    forallb isGradingEvent
      (newEvents s (snd (processEssayAgent essay config options w s)))
    = true /\
    forallb (fun ev => negb (isOcrCall ev))
      (newEvents s (snd (processEssayAgent essay config options w s)))
    = true.
Proof.
  intros essay config options w s H.
  assert (Hg : forallb isGradingEvent
                 (newEvents s
                    (snd (processEssayAgent essay config options w s)))
               = true).
  { pose proof (ocrPhase_skipped essay options (initialText essay) w s H)
      as Hs.
    unfold processEssayAgent.
    destruct (ocrPhase essay options (initialText essay) w s)
      as [[t|e] s1]; cbn [snd] in Hs; subst s1.
    - destruct (gradePhase essay config options t w s) as [[g|e] s2] eqn:Eg;
        destruct (Emits_gradePhase _ _ _ _ _ _ _ _ Eg) as (d & T & F);
        cbn [snd]; now rewrite (newEvents_app _ _ _ T).
    - cbn [snd]. rewrite (newEvents_app s s []); [reflexivity|].
      now rewrite app_nil_r. }
  split; [exact Hg|].
  rewrite forallb_forall in *. intros ev Hin.
  apply AppFacts.grading_event_is_no_ocr_call. auto.
Qed.

Lemma only_images_are_transcribed_witness :
  forallb (fun ev => negb (isOcrCall ev))
    (newEvents start
       (snd (processEssayAgent editedEssay openaiConfig
               (mkOptions false neverAborted)
               (agentWorld (Some "sk-test") true) start)))
  = true.
Proof.
  apply (only_images_are_transcribed editedEssay openaiConfig
           (mkOptions false neverAborted)
           (agentWorld (Some "sk-test") true) start).
  left. discriminate.
Defined.

(** ** What a run costs *)

Lemma ocr_event_counts d :
  forallb isOcrEvent d = true ->
  modelRequestsOf d = [] /\ countOf isFileRead d = 0%nat.
Proof.
  intros F. split.
  - induction d as [|ev d IH]; [reflexivity|].
    simpl in F. apply andb_true_iff in F. destruct F as [Hev Hd].
    destruct ev; simpl; try discriminate; auto.
  - apply (OcrMoreFacts.countOf_none isFileRead isOcrEvent); [|exact F].
    intros ev. now destruct ev.
Qed.

Lemma grading_event_counts d :
  forallb isGradingEvent d = true ->
  countOf isUpload d = 0%nat /\ pollsOf d = [].
Proof.
  intros F. split.
  - apply (OcrMoreFacts.countOf_none isUpload isGradingEvent); [|exact F].
    intros ev. now destruct ev.
  - induction d as [|ev d IH]; [reflexivity|].
    simpl in F. apply andb_true_iff in F. destruct F as [Hev Hd].
    destruct ev; simpl; try discriminate; auto.
Qed.

Lemma progress_counts step message text d :
  countOf isUpload (EvProgress (mkProgress text step message) :: d)
  = countOf isUpload d /\
  pollsOf (EvProgress (mkProgress text step message) :: d) = pollsOf d /\
  modelRequestsOf (EvProgress (mkProgress text step message) :: d)
  = modelRequestsOf d /\
  countOf isFileRead (EvProgress (mkProgress text step message) :: d)
  = countOf isFileRead d.
Proof. repeat split. Qed.

(** The first half of the agent: at most one upload and 121 polls, no
    request to a model, no read of the image. *)
Lemma ocrPhase_costs essay options textForModel w s r s1 :
  ocrPhase essay options textForModel w s = (r, s1) ->
  exists d,
    trace s1 = (trace s ++ d)%list /\
    (countOf isUpload d <= 1)%nat /\
    (length (pollsOf d) <= 121)%nat /\
    modelRequestsOf d = [] /\
    countOf isFileRead d = 0%nat.
Proof.
  unfold ocrPhase. unfold bind at 1, signalAborted.
  assert (Hnone : forall (r0 : Res string),
    (r0, s) = (r, s1) ->
    exists d,
      trace s1 = (trace s ++ d)%list /\
      (countOf isUpload d <= 1)%nat /\
      (length (pollsOf d) <= 121)%nat /\
      modelRequestsOf d = [] /\
      countOf isFileRead d = 0%nat).
  { intros r0 E. inversion E; subst. exists []. rewrite app_nil_r.
    repeat split; simpl; try lia. unfold countOf. simpl. lia. }
  destruct (abortedAt (signal options) (clock s)); [apply Hnone|].
  destruct (submissionType essay), (file essay) as [f|], (skipOcr options);
    try apply Hnone.
  clear Hnone.
  unfold bind at 1, setProgress, emit. unfold tryCatch. unfold bind at 1.
  set (sa := {| clock := clock s;
                trace := (trace s ++ [EvProgress
                  (mkProgress None ocr "正在执行手写OCR...")])%list |}).
  destruct (Ocr.transcribeHandwriting f
              (Ocr.mkOptions None None None (signal options)) w sa)
    as [[t|e] sb] eqn:Eocr;
    destruct (Emits_transcribeHandwriting isOcrEvent (fun ev H => H) f _ _ _
                _ _ Eocr) as (d & Td & Fd);
    destruct (OcrFacts.PollsAtMost_transcribeHandwriting f _ _ _ _ _ Eocr)
      as (d1 & Td1 & Pd);
    destruct (OcrMoreFacts.transcribeHandwriting_one_upload _ _ _ _ _ _ Eocr)
      as (d2 & Td2 & Ud);
    assert (d1 = d) by (rewrite Td in Td1; now apply app_inv_head in Td1);
    assert (d2 = d) by (rewrite Td in Td2; now apply app_inv_head in Td2);
    subst d1 d2;
    destruct (ocr_event_counts d Fd) as (Md & Rd);
    unfold bind at 1; simpl; intros E; inversion E; subst; simpl;
    rewrite Td; unfold sa; simpl; rewrite <- !app_assoc; simpl;
    eexists; (split; [reflexivity|]).
  - cbn [countOf] in *. unfold countOf in *. simpl.
    rewrite filter_app, length_app. simpl.
    rewrite OcrFacts.pollsOf_app. simpl. rewrite app_nil_r.
    repeat split; try lia.
    + simpl in Pd. lia.
    + clear - Md. induction d as [|ev d IH]; [reflexivity|].
      destruct ev; simpl in *; try discriminate; auto.
    + rewrite filter_app, length_app. simpl. lia.
  - unfold countOf in *. simpl.
    rewrite filter_app, length_app. simpl.
    rewrite OcrFacts.pollsOf_app. simpl. rewrite app_nil_r.
    repeat split; try lia.
    + simpl in Pd. lia.
    + clear - Md. induction d as [|ev d IH]; [reflexivity|].
      destruct ev; simpl in *; try discriminate; auto.
    + rewrite filter_app, length_app. simpl. lia.
Qed.

Lemma buildPromptBundle_trace essay config providedText w s r s1 :
  buildPromptBundle essay config providedText w s = (r, s1) ->
  trace s1 = trace s \/
  (JS.truthyStr
     (JS.trim (JS.orS providedText (JS.orStr (rawText essay) ""))) = false
   /\ exists f, trace s1 = (trace s ++ [EvFileRead f])%list).
Proof.
  unfold buildPromptBundle. cbv zeta.
  destruct (JS.truthyStr _) eqn:Ht.
  { intros E. inversion E. now left. }
  destruct (file essay) as [f|].
  2:{ intros E. inversion E. now left. }
  unfold fileToBase64. run.
  destruct (readFile w f); intros E; inversion E; subst; right;
    (split; [reflexivity|exists f; reflexivity]).
Qed.

(** The second half of the agent: nothing but grading, with at most one
    request to a model and at most one read of the image, and no read at
    all when there is text to grade. *)
Lemma gradePhase_costs essay config options textForModel w s r s' :
  gradePhase essay config options textForModel w s = (r, s') ->
  exists d,
    trace s' = (trace s ++ d)%list /\
    forallb isGradingEvent d = true /\
    (length (modelRequestsOf d) <= 1)%nat /\
    (countOf isFileRead d <= 1)%nat /\
    (JS.truthyStr
       (JS.trim (JS.orS textForModel (JS.orStr (rawText essay) ""))) = true
     -> countOf isFileRead d = 0%nat).
Proof.
  intros E.
  destruct (Emits_gradePhase _ _ _ _ _ _ _ _ E) as (d & T & F).
  exists d. split; [exact T|]. split; [exact F|].
  unfold gradePhase in E.
  set (body := bind (signalAborted (signal options)) _) in E.
  assert (Hbody : forall sa,
    body w sa = (r, s') ->
    exists db,
      trace s' = (trace sa ++ db)%list /\
      (length (modelRequestsOf db) <= 1)%nat /\
      (countOf isFileRead db <= 1)%nat /\
      (JS.truthyStr
         (JS.trim (JS.orS textForModel (JS.orStr (rawText essay) "")))
       = true -> countOf isFileRead db = 0%nat)).
  { clear E T F d. intros sa E. unfold body in E. clear body.
    unfold bind at 1, signalAborted in E.
    destruct (abortedAt (signal options) (clock sa)).
    { inversion E. exists []. rewrite app_nil_r.
      repeat split; auto; apply Nat.le_0_l. }
    unfold bind at 1 in E.
    destruct (buildPromptBundle essay config textForModel w sa)
      as [[bundle|e] sb] eqn:Eb.
    2:{ inversion E; subst.
        destruct (buildPromptBundle_trace _ _ _ _ _ _ _ Eb)
          as [Tb | (Hno & f & Tb)]; rewrite Tb.
        - exists []. rewrite app_nil_r.
          repeat split; auto; apply Nat.le_0_l.
        - exists [EvFileRead f]. split; [reflexivity|].
          split; [apply Nat.le_0_l|]. split; [apply Nat.le_refl|].
          intros Hyes. congruence. }
    assert (Hb : exists b,
               trace sb = (trace sa ++ b)%list /\
               modelRequestsOf b = [] /\
               (countOf isFileRead b <= 1)%nat /\
               (JS.truthyStr
                  (JS.trim
                     (JS.orS textForModel (JS.orStr (rawText essay) "")))
                = true -> countOf isFileRead b = 0%nat)).
    { destruct (buildPromptBundle_trace _ _ _ _ _ _ _ Eb)
        as [Tb | (Hno & f & Tb)]; rewrite Tb.
      - exists []. rewrite app_nil_r.
        repeat split; auto; apply Nat.le_0_l.
      - exists [EvFileRead f]. split; [reflexivity|].
        split; [reflexivity|]. split; [apply Nat.le_refl|].
        intros Hyes. congruence. }
    destruct Hb as (b & Tb & Mb & Rb & Zb).
    unfold bind at 1 in E.
    destruct (routeModel bundle config (signal options) w sb)
      as [[jsonText|e] sc] eqn:Er.
    - assert (Tc : trace sc
                   = (trace sb ++ [EvModelRequest (requestUrl w config)])%list).
      { destruct (routeModel_request _ _ _ _ _ _ _ Er)
          as [(_ & e & He)|(Tc & _)]; [discriminate|exact Tc]. }
      assert (Hend : exists fin,
                 trace s' = (trace sc ++ fin)%list /\
                 modelRequestsOf fin = [] /\
                 countOf isFileRead fin = 0%nat).
      { revert E. run.
        destruct (parseReply w jsonText); intros E; inversion E; subst;
          simpl.
        - exists []. now rewrite app_nil_r.
        - eexists. split; [reflexivity|]. split; reflexivity.
        - eexists. split; [reflexivity|]. split; reflexivity. }
      destruct Hend as (fin & Tf & Mf & Rf).
      exists (b ++ [EvModelRequest (requestUrl w config)] ++ fin)%list.
      split; [now rewrite Tf, Tc, Tb, <- !app_assoc|].
      assert (Hm : modelRequestsOf
                     (b ++ [EvModelRequest (requestUrl w config)] ++ fin)
                   = [requestUrl w config]).
      { unfold modelRequestsOf in *. rewrite !flat_map_app, Mb, Mf.
        reflexivity. }
      assert (Hr : countOf isFileRead
                     (b ++ [EvModelRequest (requestUrl w config)] ++ fin)
                   = countOf isFileRead b).
      { rewrite !OcrMoreFacts.countOf_app, Rf. unfold countOf at 2. simpl.
        lia. }
      rewrite Hm, Hr. split; [simpl; lia|]. split; [exact Rb|exact Zb].
    - inversion E; subst.
      destruct (routeModel_request _ _ _ _ _ _ _ Er)
        as [(Tc & _)|(Tc & _)]; rewrite Tc, Tb.
      + exists b. repeat split; auto. rewrite Mb. apply Nat.le_0_l.
      + exists (b ++ [EvModelRequest (requestUrl w config)])%list.
        split; [now rewrite <- app_assoc|].
        unfold modelRequestsOf in *. rewrite flat_map_app, Mb.
        rewrite OcrMoreFacts.countOf_app. unfold countOf at 2 4. simpl.
        rewrite !Nat.add_0_r. split; [lia|]. split; [exact Rb|exact Zb]. }
  unfold bind at 1 in E.
  assert (Hd : exists db,
    d = (EvProgress
           (mkProgress None grading
              (if skipOcr options then "AI批改重试中..." else "AI批改中..."))
           :: db)%list /\
    (length (modelRequestsOf db) <= 1)%nat /\
    (countOf isFileRead db <= 1)%nat /\
    (JS.truthyStr
       (JS.trim (JS.orS textForModel (JS.orStr (rawText essay) "")))
     = true -> countOf isFileRead db = 0%nat)).
  { destruct (skipOcr options);
      destruct (Hbody _ E) as (db & Tdb & H1 & H2 & H3);
      exists db; (split; [|auto]);
      simpl in Tdb; rewrite T, <- app_assoc in Tdb;
      apply app_inv_head in Tdb; exact Tdb. }
  destruct Hd as (db & -> & H1 & H2 & H3).
  auto.
Qed.

(** X21: what a run costs.  Whatever the vendors answer, one run of
    [processEssayAgent] uploads the image to the OCR vendor at most once,
    polls it at most 121 times, sends at most one request to a model and
    reads the image for the prompt at most once; when the essay has text
    that is not blank, the image is not read for the prompt at all: the
    model is given the text. *)
Theorem run_costs_are_bounded :
  forall essay config options w s,
    let d := newEvents s (snd (processEssayAgent essay config options w s)) in
    (countOf isUpload d <= 1)%nat /\
    (length (pollsOf d) <= 121)%nat /\
    (length (modelRequestsOf d) <= 1)%nat /\
    (countOf isFileRead d <= 1)%nat /\
    (JS.truthyStr (JS.trim (initialText essay)) = true ->
     countOf isFileRead d = 0%nat).
Proof.
  intros essay config options w s d. subst d.
  unfold processEssayAgent.
  destruct (ocrPhase essay options (initialText essay) w s)
    as [[t|e] s1] eqn:Eocr;
    destruct (ocrPhase_costs _ _ _ _ _ _ _ Eocr)
      as (d1 & T1 & U1 & P1 & M1 & R1).
  2:{ cbn [snd]. rewrite (newEvents_app _ _ _ T1), M1, R1.
      repeat split; auto; try apply Nat.le_0_l. }
  assert (Htext : JS.truthyStr (JS.trim (initialText essay)) = true ->
                  JS.truthyStr
                    (JS.trim (JS.orS t (JS.orStr (rawText essay) "")))
                  = true).
  { intros Hinit.
    assert (Ht : t = initialText essay \/
                 (JS.truthyStr t = true /\ JS.trim t = t)).
    { revert Eocr. clear. unfold ocrPhase. unfold bind at 1, signalAborted.
      destruct (abortedAt (signal options) (clock s)); [discriminate|].
      assert (Hplain : forall u : string,
                (ret u : M string) w s = (Ok t, s1) -> t = u)
        by (intros u E; now inversion E).
      destruct (submissionType essay), (file essay) as [f|],
        (skipOcr options);
        try (intros E; left; exact (Hplain _ E)).
      unfold bind at 1, setProgress, emit. unfold tryCatch.
      unfold bind at 1.
      match goal with
      | |- context [Ocr.transcribeHandwriting f ?o w ?sa] =>
          destruct (Ocr.transcribeHandwriting f o w sa) as [[u|e] sb] eqn:Eo
      end.
      - unfold bind at 1. simpl. intros E. inversion E; subst. right.
        destruct (OcrMoreFacts.transcript_is_trimmed _ _ _ _ _ _ Eo)
          as (H1 & H2). auto.
      - unfold bind at 1. simpl. intros E. inversion E. left.
        apply orS_empty. }
    destruct Ht as [->|(Ht1 & Ht2)].
    - assert (Hi : JS.truthyStr (initialText essay) = true)
        by (destruct (initialText essay); [discriminate|reflexivity]).
      now rewrite (orS_truthy _ _ Hi).
    - rewrite (orS_truthy _ _ Ht1), Ht2. exact Ht1. }
  destruct (gradePhase essay config options t w s1) as [[g|e] s2] eqn:Eg;
    destruct (gradePhase_costs _ _ _ _ _ _ _ _ Eg)
      as (d2 & T2 & F2 & M2 & R2 & Z2);
    destruct (grading_event_counts d2 F2) as (U2 & P2);
    cbn [snd];
    rewrite (newEvents_app s s2 (d1 ++ d2))
      by (rewrite T2, T1, app_assoc; reflexivity);
    rewrite !OcrMoreFacts.countOf_app, OcrFacts.pollsOf_app, length_app;
    unfold modelRequestsOf in *; rewrite flat_map_app, length_app, M1, P2, U2,
      R1; simpl;
    (split; [lia|]); (split; [lia|]); (split; [lia|]); (split; [lia|]);
    intros Hinit; apply Z2, Htext, Hinit.
Qed.

End AgentMoreFacts.

(* ===================================================================== *)
(** * Facts about App.tsx: the steps, the queue, submissions *)
(* ===================================================================== *)

Module QueueFacts.
Import App Agent Queue PersistenceSave Observe OcrExamples AgentExamples
  AppExamples MoreWorlds SaveExamples TraceFacts AgentFacts.

(** ** Lists that differ in some essays only *)

Lemma OnlyChanges_refl ids essays : OnlyChanges ids essays essays.
Proof.
  induction essays as [|e rest IH]; constructor; auto.
Qed.

Lemma OnlyChanges_trans ids a b c :
  OnlyChanges ids a b -> OnlyChanges ids b c -> OnlyChanges ids a c.
Proof.
  intros Hab. revert c.
  induction Hab as [|e e' a b (Hid & Hsame) _ IH]; intros c Hbc;
    inversion Hbc as [|e1 e'' b1 c1 (Hid' & Hsame') Hrest]; subst.
  - constructor.
  - constructor; [|now apply IH].
    split; [congruence|].
    intros Hnot. rewrite Hsame'; [now apply Hsame|].
    now rewrite Hid.
Qed.

Lemma OnlyChanges_weaken ids ids' a b :
  (forall i, In i ids -> In i ids') ->
  OnlyChanges ids a b -> OnlyChanges ids' a b.
Proof.
  intros Hsub H. induction H as [|e e' a b (Hid & Hsame) _ IH];
    constructor; auto.
  split; [exact Hid|]. intros Hnot. apply Hsame. auto.
Qed.

Lemma OnlyChanges_ids ids a b :
  OnlyChanges ids a b -> map id b = map id a.
Proof.
  induction 1 as [|e e' a b (Hid & _) _ IH]; simpl; [reflexivity|].
  now rewrite Hid, IH.
Qed.

Lemma OnlyChanges_other ids a b e :
  OnlyChanges ids a b -> In e a -> ~ In (id e) ids -> In e b.
Proof.
  induction 1 as [|x x' a b (Hid & Hsame) _ IH]; simpl; [tauto|].
  intros [->|Hin] Hnot.
  - left. now apply Hsame.
  - right. now apply IH.
Qed.

Lemma OnlyChanges_map essayId (payload : EssayData -> EssayData) essays :
  (forall e, id e = essayId -> id (payload e) = essayId) ->
  OnlyChanges [essayId] essays
    (map (fun e => if String.eqb (id e) essayId then payload e else e)
       essays).
Proof.
  intros Hid. induction essays as [|e rest IH]; simpl; constructor; auto.
  destruct (String.eqb (id e) essayId) eqn:E.
  - apply String.eqb_eq in E. split; [now rewrite Hid|].
    intros Hnot. elim Hnot. now left.
  - auto.
Qed.

(** ** What the steps leave alone *)

Lemma Frame_refl ids app : Frame ids app app.
Proof. repeat split. apply OnlyChanges_refl. Qed.

Lemma Frame_trans ids a b c : Frame ids a b -> Frame ids b c -> Frame ids a c.
Proof.
  intros (A1 & A2 & A3 & A4) (B1 & B2 & B3 & B4).
  repeat split; try congruence.
  exact (OnlyChanges_trans _ _ _ _ A4 B4).
Qed.

Lemma Frame_weaken ids ids' a b :
  (forall i, In i ids -> In i ids') -> Frame ids a b -> Frame ids' a b.
Proof.
  intros Hsub (A1 & A2 & A3 & A4). repeat split; auto.
  exact (OnlyChanges_weaken _ _ _ _ Hsub A4).
Qed.

Lemma Frame_updateEssay essayId payload app :
  (forall e, id e = essayId -> id (payload e) = essayId) ->
  Frame [essayId] app (updateEssay essayId payload app) /\
  abortControllers (updateEssay essayId payload app) = abortControllers app.
Proof.
  intros Hid. split; [|reflexivity].
  repeat split. now apply OnlyChanges_map.
Qed.

Lemma Frame_replayProgress essayId events :
  forall app,
    Frame [essayId] app (replayProgress essayId events app) /\
    abortControllers (replayProgress essayId events app)
    = abortControllers app.
Proof.
  unfold replayProgress.
  induction events as [|ev rest IH]; intros app; simpl.
  - split; [apply Frame_refl|reflexivity].
  - destruct ev; try apply IH.
    destruct (IH (onProgress essayId u app)) as (F & C).
    assert (Hstep : Frame [essayId] app (onProgress essayId u app) /\
                    abortControllers (onProgress essayId u app)
                    = abortControllers app).
    { unfold onProgress. apply Frame_updateEssay.
      intros e He. now destruct (pu_ocrText u). }
    destruct Hstep as (F0 & C0).
    split; [exact (Frame_trans _ _ _ _ F0 F)|congruence].
Qed.

Lemma withoutController_idempotent essayId registry :
  withoutController essayId (withoutController essayId registry)
  = withoutController essayId registry.
Proof.
  unfold withoutController.
  induction registry as [|entry rest IH]; simpl; [reflexivity|].
  destruct (negb (String.eqb (fst entry) essayId)) eqn:E; simpl;
    now rewrite ?E, IH.
Qed.

Lemma withoutController_absent essayId registry :
  ~ In essayId (map fst (withoutController essayId registry)).
Proof.
  unfold withoutController. intros Hin.
  apply in_map_iff in Hin. destruct Hin as (entry & Hfst & Hin).
  apply filter_In in Hin. destruct Hin as (_ & Hne).
  rewrite Hfst, String.eqb_refl in Hne. discriminate.
Qed.

(** Registering and cleaning up around a step that touches essays only. *)
Lemma registered_step essayId w st app (step : State -> State) :
  (forall a, Frame [essayId] a (step a) /\
             abortControllers (step a) = abortControllers a) ->
  Frame [essayId] app
    (cleanupController essayId
       (step (snd (registerController essayId w st app)))) /\
  abortControllers
    (cleanupController essayId
       (step (snd (registerController essayId w st app))))
  = withoutController essayId (abortControllers app).
Proof.
  intros Hstep.
  set (a1 := snd (registerController essayId w st app)).
  assert (Hreg : abortControllers a1
                 = (essayId, mkSignal (userAborts w essayId (clock st)))
                     :: withoutController essayId (abortControllers app))
    by reflexivity.
  assert (Hframe : Frame [essayId] app a1)
    by (repeat split; apply OnlyChanges_refl).
  clearbody a1.
  destruct (Hstep a1) as (F & C).
  split.
  - apply (Frame_trans _ _ _ _ Hframe).
    destruct F as (F1 & F2 & F3 & F4). repeat split; assumption.
  - change (abortControllers (cleanupController essayId (step a1)))
      with (withoutController essayId (abortControllers (step a1))).
    rewrite C, Hreg. unfold withoutController at 1. cbn [filter fst].
    rewrite String.eqb_refl. cbn [negb].
    apply withoutController_idempotent.
Qed.

Lemma spread_id written e payload :
  id (spread written e payload) = id payload.
Proof. reflexivity. Qed.

(** The record of a run has the id of the essay that was sent. *)
Lemma processEssayAgent_id essay config options w s record s' :
  processEssayAgent essay config options w s = (Ok record, s') ->
  id record = id essay.
Proof.
  intros E.
  destruct (AgentMoreFacts.agent_record_id essay config options w s)
    as (record' & Hr & Hid).
  rewrite E in Hr. simpl in Hr. injection Hr as <-. exact Hid.
Qed.

Lemma updateEssay_changed essayId payload app e' :
  In e' (essays (updateEssay essayId payload app)) ->
  id e' = essayId ->
  exists e, In e (essays app) /\ e' = payload e.
Proof.
  unfold updateEssay, setEssays. simpl. intros Hin Hid.
  apply in_map_iff in Hin. destruct Hin as (e & He & Hin).
  destruct (String.eqb (id e) essayId) eqn:E.
  - eauto.
  - subst e'. apply String.eqb_neq in E. contradiction.
Qed.

Lemma withoutController_incl essayId registry :
  incl (withoutController essayId registry) registry.
Proof. intros entry Hin. now apply filter_In in Hin. Qed.

(** ** The grading step *)

Lemma runGradingStep_spec essay w st app :
  exists updated st' app',
    runGradingStep essay w st app = (Ok updated, st', app') /\
    (id updated = id essay /\ status updated = COMPLETED /\
     gradingStatus updated = Some step_done /\
     progressStep updated = Some done /\
     progressMessage updated = Some "批改完成") /\
    Frame [id essay] app app' /\
    abortControllers app'
    = withoutController (id essay) (abortControllers app) /\
    (forall e, In e (essays app') -> id e = id essay ->
               status e = COMPLETED /\ gradingStatus e = Some step_done /\
               progressStep e = Some done) /\
    (exists d,
        trace st' = (trace st ++ d)%list /\
        forallb isGradingEvent d = true /\
        exists rest,
          d = EvProgress (mkProgress None grading "AI批改重试中...") :: rest).
Proof.
  unfold runGradingStep.
  change (registerController (id essay) w st app)
    with (mkSignal (userAborts w (id essay) (clock st)),
          snd (registerController (id essay) w st app)).
  cbv iota beta.
  set (controller := mkSignal (userAborts w (id essay) (clock st))).
  set (sent := with_ocrText _ essay).
  destruct (AppFacts.processEssayAgent_skipOcr sent (config app)
              (Some controller) w st) as (d & T & F & Hd).
  assert (Hfresh : abortedAt (Some controller) (clock st) = false)
    by apply AppFacts.new_controller_not_aborted.
  rewrite Hfresh in Hd.
  destruct (processEssayAgent sent (config app)
              (mkOptions true (Some controller)) w st)
    as [[result|err] st1] eqn:Erun.
  2:{ destruct (processEssayAgent_resolves sent (config app)
                  (mkOptions true (Some controller)) w st) as (record & Hr).
      rewrite Erun in Hr. discriminate. }
  cbn [snd] in T.
  assert (Hid : id result = id essay)
    by exact (processEssayAgent_id _ _ _ _ _ _ _ Erun).
  set (updated :=
         with_progressMessage (Some "批改完成")
           (with_progressStep (Some done)
              (with_ocrStatus
                 (if JS.truthyStr (ocrText result)
                  then Some (JS.orDefault (ocrStatus essay) step_done)
                  else ocrStatus essay)
                 (with_gradingStatus (Some step_done)
                    (with_status COMPLETED
                       (spread (recordKeys result) essay result)))))).
  assert (Hup : id updated = id essay) by exact Hid.
  set (first := fun e : EssayData =>
         with_progressMessage
           (Some ("AI批改中（"
                    ++ providerId (provider (modelSettings (config app)))
                    ++ ":" ++ model (modelSettings (config app)) ++ "）"))
           (with_progressStep (Some grading)
              (with_gradingStatus (Some step_processing)
                 (with_status PROCESSING e)))).
  pose (step := fun a : State =>
          updateEssay (id essay)
            (fun e => spread (gradingStepKeys ++ recordKeys result) e updated)
            (replayProgress (id essay) (newEvents st st1)
               (updateEssay (id essay) first a))).
  assert (Hstep : forall a,
             Frame [id essay] a (step a) /\
             abortControllers (step a) = abortControllers a).
  { intros a. unfold step.
    destruct (Frame_updateEssay (id essay) first a) as (F1 & C1);
      [intros e He; exact He|].
    destruct (Frame_replayProgress (id essay) (newEvents st st1)
                (updateEssay (id essay) first a)) as (F2 & C2).
    destruct (Frame_updateEssay (id essay)
                (fun e =>
                   spread (gradingStepKeys ++ recordKeys result) e updated)
                (replayProgress (id essay) (newEvents st st1)
                   (updateEssay (id essay) first a))) as (F3 & C3);
      [intros e He; exact Hup|].
    split; [|congruence].
    exact (Frame_trans _ _ _ _ F1 (Frame_trans _ _ _ _ F2 F3)). }
  destruct (registered_step (id essay) w st app step Hstep) as (Fr & Cr).
  exists updated, st1, (cleanupController (id essay)
                          (step (snd (registerController (id essay) w st
                                        app)))).
  split; [reflexivity|].
  split; [repeat split; exact Hid|].
  split; [exact Fr|]. split; [exact Cr|]. split.
  - intros e Hin He.
    change (essays (cleanupController (id essay)
                      (step (snd (registerController (id essay) w st app)))))
      with (essays (step (snd (registerController (id essay) w st app))))
      in Hin.
    unfold step in Hin.
    destruct (updateEssay_changed _ _ _ _ Hin He) as (e0 & _ & ->).
    repeat split.
  - exists d. repeat split; assumption.
Qed.

(** X22: the grading step always ends in COMPLETED.  Because the agent
    resolves to a record whatever happens, [runGradingStep] never throws,
    and it overrides the status of that record: the essay it returns and
    every essay of the list with that id are COMPLETED, at step "done",
    with grading "done", also when the run behind it failed or was
    cancelled.  The step touches no other essay and leaves no controller
    for the essay behind. *)
Theorem grading_step_always_marks_completed :
  forall essay w st app,
    exists updated st' app',
      runGradingStep essay w st app = (Ok updated, st', app') /\
      status updated = COMPLETED /\
      gradingStatus updated = Some step_done /\
      progressStep updated = Some done /\
      (forall e, In e (essays app') -> id e = id essay ->
                 status e = COMPLETED /\ gradingStatus e = Some step_done /\
                 progressStep e = Some done) /\
      OnlyChanges [id essay] (essays app) (essays app') /\
      ~ In (id essay) (map fst (abortControllers app')).
Proof.
  intros essay w st app.
  destruct (runGradingStep_spec essay w st app)
    as (updated & st' & app' & Hrun & (_ & H1 & H2 & H3 & _) & Fr & Cr
        & Hall & _).
  exists updated, st', app'.
  repeat (split; [assumption|]).
  split; [exact (proj2 (proj2 (proj2 Fr)))|].
  rewrite Cr. apply withoutController_absent.
Qed.

(** A retry during which the user cancels: the request to the model is cut,
    the agent's record is CANCELLED, and the list shows the essay as
    COMPLETED with the cancellation as its error message. *)
Example cancelled_retry_reads_completed :
  map (fun e => (id e, status e, gradingStatus e, errorMessage e))
    (essays (snd (handleRetry "e8"
                    (withUserAbort 0 (agentWorld (Some "sk-test") true))
                    start idleApp)))
  = [("e7", COMPLETED, Some step_done, None);
     ("e8", COMPLETED, Some step_done, Some "用户已取消批改");
     ("e9", PENDING, Some step_idle, None)].
Proof. vm_compute. reflexivity. Qed.

(** ** The OCR step *)

Lemma runOcrStep_spec essay continueToAi w st app r st' app' :
  runOcrStep essay continueToAi w st app = (r, st', app') ->
  Frame [id essay] app app' /\
  incl (abortControllers app') (abortControllers app) /\
  (exists d,
      trace st' = (trace st ++ d)%list /\ forallb isOcrEvent d = true) /\
  match r with
  | Ok current =>
      id current = id essay /\
      (current = essay \/ JS.truthyStr (ocrText current) = true)
  | Throw err =>
      forall e, In e (essays app') -> id e = id essay ->
        (status e = ERROR \/ status e = CANCELLED) /\
        errorMessage e = errMessage err
  end.
Proof.
  unfold runOcrStep.
  assert (Hskip :
    (Ok essay, st, app) = (r, st', app') ->
    Frame [id essay] app app' /\
    incl (abortControllers app') (abortControllers app) /\
    (exists d,
        trace st' = (trace st ++ d)%list /\ forallb isOcrEvent d = true) /\
    match r with
    | Ok current =>
        id current = id essay /\
        (current = essay \/ JS.truthyStr (ocrText current) = true)
    | Throw err =>
        forall e, In e (essays app') -> id e = id essay ->
          (status e = ERROR \/ status e = CANCELLED) /\
          errorMessage e = errMessage err
    end).
  { intros E. inversion E; subst.
    split; [apply Frame_refl|]. split; [apply incl_refl|].
    split; [exists []; now rewrite app_nil_r|]. split; [reflexivity|now left]. }
  destruct (submissionType essay); try exact Hskip.
  destruct (file essay) as [f|]; [|exact Hskip].
  clear Hskip.
  change (registerController (id essay) w st app)
    with (mkSignal (userAborts w (id essay) (clock st)),
          snd (registerController (id essay) w st app)).
  cbv iota beta.
  set (controller := mkSignal (userAborts w (id essay) (clock st))).
  set (first := fun e : EssayData =>
         with_progressMessage (Some "正在执行手写OCR...")
           (with_progressStep (Some ocr)
              (with_ocrStatus (Some step_processing)
                 (with_status PROCESSING e)))).
  destruct (Ocr.transcribeHandwriting f
              (Ocr.mkOptions None None None (Some controller)) w st)
    as [[transcript|err] st1] eqn:Eocr;
    destruct (Emits_transcribeHandwriting isOcrEvent (fun ev H => H) f _ _ _
                _ _ Eocr) as (d & T & F).
  - set (updated :=
           with_status (if continueToAi then PROCESSING else PENDING)
             (with_progressMessage
                (Some (if continueToAi then "OCR完成，准备AI批改"
                       else "OCR完成，等待AI"))
                (with_progressStep (Some ocr_complete)
                   (with_ocrStatus (Some step_done)
                      (with_ocrText transcript essay))))).
    pose (step := fun a : State =>
            updateEssay (id essay) (fun e => spread ocrStepKeys e updated)
              (updateEssay (id essay) first a)).
    assert (Hstep : forall a,
               Frame [id essay] a (step a) /\
               abortControllers (step a) = abortControllers a).
    { intros a. unfold step.
      destruct (Frame_updateEssay (id essay) first a) as (F1 & C1);
        [intros e He; exact He|].
      destruct (Frame_updateEssay (id essay)
                  (fun e => spread ocrStepKeys e updated)
                  (updateEssay (id essay) first a)) as (F3 & C3);
        [intros e He; reflexivity|].
      split; [|congruence]. exact (Frame_trans _ _ _ _ F1 F3). }
    destruct (registered_step (id essay) w st app step Hstep) as (Fr & Cr).
    pose proof (withoutController_incl (id essay) (abortControllers app))
      as Hincl.
    rewrite <- Cr in Hincl.
    intros E. inversion E; subst.
    split; [exact Fr|]. split; [exact Hincl|].
    split; [eauto|]. split; [reflexivity|]. right.
    exact (transcribeHandwriting_truthy _ _ _ _ _ _ Eocr).
  - set (failure := fun e : EssayData =>
           with_errorMessage (errMessage err)
             (with_progressMessage
                (Some (if isCancelled err then "用户已取消批改"
                       else JS.orStr (errMessage err) "OCR失败"))
                (with_progressStep
                   (Some (if isCancelled err then cancelled else error))
                   (with_ocrStatus
                      (Some (if isCancelled err then step_skipped
                             else step_error))
                      (with_status
                         (if isCancelled err then CANCELLED else ERROR)
                         e))))).
    pose (step := fun a : State =>
            updateEssay (id essay) failure
              (updateEssay (id essay) first a)).
    assert (Hstep : forall a,
               Frame [id essay] a (step a) /\
               abortControllers (step a) = abortControllers a).
    { intros a. unfold step.
      destruct (Frame_updateEssay (id essay) first a) as (F1 & C1);
        [intros e He; exact He|].
      destruct (Frame_updateEssay (id essay) failure
                  (updateEssay (id essay) first a)) as (F3 & C3);
        [intros e He; exact He|].
      split; [|congruence]. exact (Frame_trans _ _ _ _ F1 F3). }
    destruct (registered_step (id essay) w st app step Hstep) as (Fr & Cr).
    pose proof (withoutController_incl (id essay) (abortControllers app))
      as Hincl.
    rewrite <- Cr in Hincl.
    intros E. inversion E; subst.
    split; [exact Fr|]. split; [exact Hincl|].
    split; [eauto|].
    intros e Hin He.
    destruct (updateEssay_changed (id essay) failure
                (updateEssay (id essay) first
                   (snd (registerController (id essay) w st app)))
                e Hin He) as (e0 & _ & ->).
    unfold failure. destruct (isCancelled err); simpl; auto.
Qed.

(** ** One target of the queue *)

Lemma allowedIn_grading mode ev :
  mode <> ocr_only -> isGradingEvent ev = true -> allowedIn mode ev = true.
Proof.
  destruct mode; simpl; intros Hm H; try (now elim Hm); rewrite H;
    auto using orb_true_r.
Qed.

Lemma allowedIn_ocr mode ev :
  mode <> ai_only -> isOcrEvent ev = true -> allowedIn mode ev = true.
Proof.
  destruct mode; simpl; intros Hm H; try (now elim Hm); now rewrite H.
Qed.

Lemma Frame_markMissingText essayId app :
  Frame [essayId] app (markMissingText essayId app) /\
  abortControllers (markMissingText essayId app) = abortControllers app.
Proof.
  unfold markMissingText. apply Frame_updateEssay. intros e He. exact He.
Qed.

Lemma processTarget_spec mode essay w st app :
  Frame [id essay] app (snd (processTarget mode essay w st app)) /\
  incl (abortControllers (snd (processTarget mode essay w st app)))
    (abortControllers app) /\
  exists d,
    trace (fst (processTarget mode essay w st app)) = (trace st ++ d)%list /\
    forallb (allowedIn mode) d = true.
Proof.
  unfold processTarget. cbv zeta.
  set (ocrStep :=
         match mode with
         | ai_only => (Ok essay, st, app)
         | _ =>
             if needsOcr essay
             then runOcrStep essay
                    match mode with auto => true | _ => false end w st app
             else (Ok essay, st, app)
         end).
  assert (Hocr :
    Frame [id essay] app (snd ocrStep) /\
    incl (abortControllers (snd ocrStep)) (abortControllers app) /\
    (exists d,
        trace (snd (fst ocrStep)) = (trace st ++ d)%list /\
        forallb (allowedIn mode) d = true) /\
    match fst (fst ocrStep) with
    | Ok current => id current = id essay
    | Throw _ => True
    end).
  { assert (Hnone :
      Frame [id essay] app (snd (Ok essay, st, app)) /\
      incl (abortControllers (snd (Ok essay, st, app)))
        (abortControllers app) /\
      (exists d,
          trace (snd (fst (Ok essay, st, app))) = (trace st ++ d)%list /\
          forallb (allowedIn mode) d = true) /\
      match fst (fst (@Ok EssayData essay, st, app)) with
      | Ok current => id current = id essay
      | Throw _ => True
      end).
    { cbn [fst snd]. split; [apply Frame_refl|]. split; [apply incl_refl|].
      split; [exists []; now rewrite app_nil_r|reflexivity]. }
    assert (Hrun : forall continueToAi,
      mode <> ai_only ->
      let r := runOcrStep essay continueToAi w st app in
      Frame [id essay] app (snd r) /\
      incl (abortControllers (snd r)) (abortControllers app) /\
      (exists d,
          trace (snd (fst r)) = (trace st ++ d)%list /\
          forallb (allowedIn mode) d = true) /\
      match fst (fst r) with
      | Ok current => id current = id essay
      | Throw _ => True
      end).
    { intros continueToAi Hm r. subst r.
      destruct (runOcrStep essay continueToAi w st app) as [[r st1] app1]
        eqn:E.
      destruct (runOcrStep_spec _ _ _ _ _ _ _ _ E)
        as (Fr & Ci & (d & T & F) & Hr).
      cbn [fst snd]. split; [exact Fr|]. split; [exact Ci|]. split.
      - exists d. split; [exact T|].
        rewrite forallb_forall in *. intros ev Hin.
        apply allowedIn_ocr; auto.
      - destruct r; [exact (proj1 Hr)|exact I]. }
    unfold ocrStep.
    destruct mode; try exact Hnone;
      (destruct (needsOcr essay); [apply Hrun; discriminate|exact Hnone]). }
  clearbody ocrStep.
  destruct ocrStep as [[[current|err] st1] app1]; cbn [fst snd] in *;
    destruct Hocr as (Fr & Ci & (d & T & F) & Hid).
  2:{ split; [exact Fr|]. split; [exact Ci|]. eauto. }
  destruct (match mode with ocr_only => false | _ => needsAi essay end)
    eqn:Hgrade.
  2:{ cbn [fst snd]. split; [exact Fr|]. split; [exact Ci|]. eauto. }
  assert (Hm : mode <> ocr_only) by (intros ->; discriminate).
  destruct (negb (hasTextContent current)).
  - cbn [fst snd]. rewrite Hid.
    destruct (Frame_markMissingText (id essay) app1) as (Fm & Cm).
    split; [exact (Frame_trans _ _ _ _ Fr Fm)|].
    split; [rewrite Cm; exact Ci|]. eauto.
  - destruct (runGradingStep_spec current w st1 app1)
      as (updated & st2 & app2 & Hrun & _ & Fg & Cg & _ & (dg & Tg & Fgr & _)).
    rewrite Hrun. cbn [fst snd]. rewrite Hid in Fg.
    split; [exact (Frame_trans _ _ _ _ Fr Fg)|].
    split.
    + rewrite Cg. intros entry Hin. apply Ci.
      exact (withoutController_incl _ _ _ Hin).
    + exists (d ++ dg)%list. split; [now rewrite Tg, T, app_assoc|].
      rewrite forallb_app, F. simpl.
      rewrite forallb_forall in *. intros ev Hin.
      apply allowedIn_grading; auto.
Qed.

(** ** The queue *)

Lemma processTargets_cons mode essay rest w st app :
  processTargets mode (essay :: rest) w st app
  = processTargets mode rest w (fst (processTarget mode essay w st app))
      (snd (processTarget mode essay w st app)).
Proof.
  unfold processTargets. cbn [fold_left fst snd].
  now destruct (processTarget mode essay w st app).
Qed.

Lemma processTargets_spec mode ids w targets :
  (forall e, In e targets -> In (id e) ids) ->
  forall st app,
    Frame ids app (snd (processTargets mode targets w st app)) /\
    incl (abortControllers (snd (processTargets mode targets w st app)))
      (abortControllers app) /\
    exists d,
      trace (fst (processTargets mode targets w st app))
      = (trace st ++ d)%list /\
      forallb (allowedIn mode) d = true.
Proof.
  induction targets as [|essay rest IH]; intros Hids st app.
  - split; [apply Frame_refl|]. split; [apply incl_refl|].
    exists []. simpl. now rewrite app_nil_r.
  - rewrite processTargets_cons.
    destruct (processTarget_spec mode essay w st app)
      as (F1 & C1 & d1 & T1 & A1).
    destruct (IH (fun e H => Hids e (or_intror H))
                (fst (processTarget mode essay w st app))
                (snd (processTarget mode essay w st app)))
      as (F2 & C2 & d2 & T2 & A2).
    assert (Hsub : forall i, In i [id essay] -> In i ids).
    { intros i [<-|[]]. apply Hids. now left. }
    split.
    + exact (Frame_trans _ _ _ _ (Frame_weaken _ _ _ _ Hsub F1) F2).
    + split; [exact (incl_tran C2 C1)|].
      exists (d1 ++ d2)%list.
      split; [now rewrite T2, T1, app_assoc|now rewrite forallb_app, A1, A2].
Qed.

Lemma Frame_markBatchTargets ids batch app :
  Frame ids app (markBatchTargets ids batch app) /\
  abortControllers (markBatchTargets ids batch app) = abortControllers app.
Proof.
  unfold markBatchTargets.
  destruct ids as [|i ids]; [split; [apply Frame_refl|reflexivity]|].
  split; [|reflexivity]. repeat split. simpl.
  induction (essays app) as [|e rest IH]; simpl; constructor; auto.
  destruct (String.eqb (id e) i || existsb (String.eqb (id e)) ids) eqn:E.
  - split; [reflexivity|]. intros Hnot. elim Hnot.
    apply orb_true_iff in E. destruct E as [E|E].
    + left. apply String.eqb_eq in E. now symmetry.
    + right. apply existsb_exists in E. destruct E as (x & Hin & Hx).
      apply String.eqb_eq in Hx. now rewrite Hx.
  - auto.
Qed.

Lemma handleStartProcessing_spec mode batch w st app :
  OnlyChanges (map id (pickTargetsForMode mode app)) (essays app)
    (essays (snd (handleStartProcessing mode batch w st app))) /\
  config (snd (handleStartProcessing mode batch w st app)) = config app /\
  incl (abortControllers (snd (handleStartProcessing mode batch w st app)))
    (abortControllers app) /\
  (pickTargetsForMode mode app <> [] ->
   isProcessing (snd (handleStartProcessing mode batch w st app)) = false /\
   activeTab (snd (handleStartProcessing mode batch w st app)) = tab_list)
  /\
  (pickTargetsForMode mode app = [] ->
   handleStartProcessing mode batch w st app = (st, app)) /\
  exists d,
    trace (fst (handleStartProcessing mode batch w st app))
    = (trace st ++ d)%list /\
    forallb (allowedIn mode) d = true.
Proof.
  unfold handleStartProcessing.
  destruct (pickTargetsForMode mode app) as [|target rest] eqn:Epick.
  { cbn [fst snd]. split; [apply OnlyChanges_refl|].
    split; [reflexivity|]. split; [apply incl_refl|].
    split; [intros H; now elim H|]. split; [reflexivity|].
    exists []. now rewrite app_nil_r. }
  set (targets := target :: rest) in *.
  destruct (Frame_markBatchTargets (map id targets) batch app)
    as ((M1 & M2 & M3 & M4) & MC).
  set (app1 := markBatchTargets (map id targets) batch app) in *.
  set (app2 := setActiveTab tab_list (setIsProcessing true app1)).
  destruct (processTargets_spec mode (map id targets) w targets
              (fun e H => in_map id _ _ H) st app2)
    as ((P1 & P2 & P3 & P4) & PC & d & T & A).
  destruct (processTargets mode targets w st app2) as [st1 app3].
  cbn [fst snd] in *.
  split; [exact (OnlyChanges_trans _ _ _ _ M4 P4)|].
  split; [simpl; rewrite P1; exact M1|].
  split; [simpl; intros entry Hin; rewrite <- MC; exact (PC entry Hin)|].
  split; [intros _; split; [reflexivity|simpl; now rewrite P3]|].
  split; [discriminate|]. eauto.
Qed.

(** X23: the queue respects the workflow mode.  Whatever the essays and
    whatever the vendors answer, a run of [handleStartProcessing] in mode
    "ai_only" sends no request to the OCR vendor, a run in mode "ocr_only"
    does nothing but OCR (no request to a model, no read of an image for a
    prompt, no progress report of the grading agent), and a run in mode
    "auto" does only the two. *)
Theorem queue_respects_the_mode :
  forall mode batch w st app,
    exists d,
      trace (fst (handleStartProcessing mode batch w st app))
      = (trace st ++ d)%list /\
      match mode with
      | ai_only =>
          forallb isGradingEvent d = true /\
          forallb (fun ev => negb (isOcrCall ev)) d = true
      | ocr_only =>
          forallb isOcrEvent d = true /\ modelRequestsOf d = []
      | auto => forallb (fun ev => isOcrEvent ev || isGradingEvent ev) d = true
      end.
Proof.
  intros mode batch w st app.
  destruct (handleStartProcessing_spec mode batch w st app)
    as (_ & _ & _ & _ & _ & d & T & A).
  exists d. split; [exact T|].
  destruct mode; simpl in A.
  - exact A.
  - split; [exact A|].
    clear T. induction d as [|ev d IH]; [reflexivity|].
    simpl in A. apply andb_true_iff in A. destruct A as [Hev Hd].
    destruct ev; simpl; try discriminate; auto.
  - split; [exact A|].
    rewrite forallb_forall in *. intros ev Hin.
    apply AppFacts.grading_event_is_no_ocr_call. auto.
Qed.

(** X24: the queue leaves the application idle and the other essays alone.
    After [handleStartProcessing] the list has the same essays in the same
    order, every essay that was no target of the mode is untouched, the
    configuration is the same, no controller has been added to the
    registry, and, when there was a target, the busy flag is off again and
    the list tab is shown; without a target nothing happens at all. *)
Theorem queue_leaves_the_app_idle :
  forall mode batch w st app,
    OnlyChanges (map id (pickTargetsForMode mode app)) (essays app)
      (essays (snd (handleStartProcessing mode batch w st app))) /\
    map id (essays (snd (handleStartProcessing mode batch w st app)))
    = map id (essays app) /\
    config (snd (handleStartProcessing mode batch w st app)) = config app /\
    incl (abortControllers (snd (handleStartProcessing mode batch w st app)))
      (abortControllers app) /\
    (pickTargetsForMode mode app <> [] ->
     isProcessing (snd (handleStartProcessing mode batch w st app)) = false
     /\
     activeTab (snd (handleStartProcessing mode batch w st app)) = tab_list)
    /\
    (pickTargetsForMode mode app = [] ->
     handleStartProcessing mode batch w st app = (st, app)).
Proof.
  intros mode batch w st app.
  destruct (handleStartProcessing_spec mode batch w st app)
    as (H1 & H2 & H3 & H4 & H5 & _).
  split; [exact H1|]. split; [exact (OnlyChanges_ids _ _ _ H1)|].
  repeat (split; [assumption|]). exact H5.
Qed.

Lemma queue_leaves_the_app_idle_witness :
  isProcessing
    (snd (handleStartProcessing auto "batch-1"
            (agentWorld (Some "sk-test") true) start idleApp)) = false /\
  map id
    (essays (snd (handleStartProcessing auto "batch-1"
                    (agentWorld (Some "sk-test") true) start idleApp)))
  = ["e7"; "e8"; "e9"].
Proof.
  destruct (queue_leaves_the_app_idle auto "batch-1"
              (agentWorld (Some "sk-test") true) start idleApp)
    as (_ & Hids & _ & _ & Hidle & _).
  split; [|exact Hids].
  apply Hidle. discriminate.
Defined.

(** The three modes on the example list: the graded typed essay is no
    target; "ocr_only" transcribes the fresh scan and leaves it PENDING,
    "ai_only" grades the scan that has text, "auto" does both. *)
Example queue_on_the_example_list :
  map (fun e => (id e, status e, ocrStatus e, gradingStatus e))
    (essays (snd (handleStartProcessing ocr_only "batch-1"
                    (agentWorld (Some "sk-test") true) start idleApp)))
  = [("e7", COMPLETED, Some step_skipped, Some step_done);
     ("e8", ERROR, Some step_done, Some step_error);
     ("e9", PENDING, Some step_done, Some step_idle)] /\
  map (fun e => (id e, status e, ocrStatus e, gradingStatus e))
    (essays (snd (handleStartProcessing ai_only "batch-1"
                    (agentWorld (Some "sk-test") true) start idleApp)))
  = [("e7", COMPLETED, Some step_skipped, Some step_done);
     ("e8", COMPLETED, Some step_done, Some step_done);
     ("e9", PENDING, Some step_idle, Some step_idle)] /\
  map (fun e => (id e, status e, ocrStatus e, gradingStatus e))
    (essays (snd (handleStartProcessing auto "batch-1"
                    (agentWorld (Some "sk-test") true) start idleApp)))
  = [("e7", COMPLETED, Some step_skipped, Some step_done);
     ("e8", COMPLETED, Some step_done, Some step_done);
     ("e9", COMPLETED, Some step_done, Some step_done)].
Proof. repeat split; vm_compute; reflexivity. Qed.

(** ** The targets of a mode *)

Lemma notDone_spec status : notDone status = true <-> status <> Some step_done.
Proof.
  destruct status as [[]|]; simpl; split; intros H; try reflexivity;
    try discriminate; try (intros E; discriminate).
  now elim H.
Qed.

Lemma needsOcr_spec e :
  needsOcr e = true <->
  submissionType e = image /\ ocrStatus e <> Some step_done.
Proof.
  unfold needsOcr. rewrite andb_true_iff, notDone_spec.
  split; intros (Hi & Hn); (split; [|exact Hn]).
  - now destruct (submissionType e).
  - now rewrite Hi.
Qed.

Lemma isTarget_spec mode e :
  isTarget mode e = true <->
  status e <> PROCESSING /\
  match mode with
  | ocr_only => submissionType e = image /\ ocrStatus e <> Some step_done
  | ai_only =>
      gradingStatus e <> Some step_done /\ hasTextContent e = true
  | auto =>
      (submissionType e = image /\ ocrStatus e <> Some step_done) \/
      gradingStatus e <> Some step_done
  end.
Proof.
  unfold isTarget.
  destruct (ProcessingStatus_beq (status e) PROCESSING) eqn:Est.
  - split; [discriminate|]. intros (Hst & _). elim Hst.
    now destruct (status e).
  - assert (Hst : status e <> PROCESSING)
      by (intros E; rewrite E in Est; discriminate).
    unfold needsAi.
    destruct mode.
    + rewrite orb_true_iff, needsOcr_spec, notDone_spec. tauto.
    + rewrite needsOcr_spec. tauto.
    + rewrite andb_true_iff, notDone_spec. tauto.
Qed.


(** On the example list: the graded typed essay is no target, the scan
    with text is one of grading only, the fresh scan one of OCR. *)
Example targets_on_the_example_list :
  map id (pickTargetsForMode ocr_only idleApp) = ["e9"] /\
  map id (pickTargetsForMode ai_only idleApp) = ["e8"] /\
  map id (pickTargetsForMode auto idleApp) = ["e8"; "e9"].
Proof. repeat split; vm_compute; reflexivity. Qed.

(** ** Grading one essay *)

Lemma find_by_id essayId essays target :
  find (fun e => String.eqb (id e) essayId) essays = Some target ->
  id target = essayId.
Proof.
  intros H. apply find_some in H. now apply String.eqb_eq.
Qed.

(** X26: [handleStartAiForEssay] never rejects, although it has no [catch]:
    the grading step under it cannot throw.  For an unknown id it does
    nothing.  For an essay without text it makes no request and marks the
    essay: status ERROR, grading "error", the message that text is
    missing.  Otherwise it runs the grading step and leaves the
    application idle, the essay COMPLETED.  In every case no other essay is
    touched and no controller is left behind. *)
Theorem start_ai_for_essay_never_rejects :
  forall essayId w st app,
    exists st' app',
      handleStartAiForEssay essayId w st app = (Ok tt, st', app') /\
      OnlyChanges [essayId] (essays app) (essays app') /\
      incl (abortControllers app') (abortControllers app) /\
      match find (fun e => String.eqb (id e) essayId) (essays app) with
      | None => st' = st /\ app' = app
      | Some target =>
          if hasTextContent target then
            isProcessing app' = false /\ activeTab app' = tab_list /\
            ~ In essayId (map fst (abortControllers app')) /\
            forall e, In e (essays app') -> id e = essayId ->
                      status e = COMPLETED
          else
            st' = st /\ isProcessing app' = isProcessing app /\
            forall e, In e (essays app') -> id e = essayId ->
                      status e = ERROR /\ gradingStatus e = Some step_error /\
                      progressStep e = Some error /\
                      errorMessage e = Some MISSING_TEXT
      end.
Proof.
  intros essayId w st app. unfold handleStartAiForEssay.
  destruct (find (fun e => String.eqb (id e) essayId) (essays app))
    as [target|] eqn:Hfind.
  2:{ exists st, app. split; [reflexivity|].
      split; [apply OnlyChanges_refl|]. split; [apply incl_refl|]. auto. }
  pose proof (find_by_id _ _ _ Hfind) as Hid.
  destruct (hasTextContent target); cbn [negb].
  - set (app1 := setActiveTab tab_list (setIsProcessing true app)).
    destruct (runGradingStep_spec target w st app1)
      as (updated & st' & app' & Hrun & _ & (F1 & F2 & F3 & F4) & Cr & Hall
          & _).
    rewrite Hrun. rewrite Hid in *.
    exists st', (setIsProcessing false app').
    split; [reflexivity|]. split; [exact F4|].
    split; [simpl; rewrite Cr; apply withoutController_incl|].
    split; [reflexivity|]. split; [simpl; now rewrite F3|].
    split; [simpl; rewrite Cr; apply withoutController_absent|].
    intros e Hin He. exact (proj1 (Hall e Hin He)).
  - exists st, (markMissingText essayId app).
    destruct (Frame_markMissingText essayId app)
      as ((F1 & F2 & F3 & F4) & C).
    split; [reflexivity|]. split; [exact F4|].
    split; [rewrite C; apply incl_refl|].
    split; [reflexivity|]. split; [exact F2|].
    intros e Hin He. unfold markMissingText in Hin.
    destruct (updateEssay_changed _ _ _ _ Hin He) as (e0 & _ & ->).
    repeat split.
Qed.

(** ** When OCR fails in the queue *)

Lemma runOcrStep_throws essay f continueToAi w st app err st1 :
  submissionType essay = image ->
  file essay = Some f ->
  Ocr.transcribeHandwriting f
    (Ocr.mkOptions None None None
       (Some (mkSignal (userAborts w (id essay) (clock st))))) w st
  = (Throw err, st1) ->
  exists app',
    runOcrStep essay continueToAi w st app = (Throw err, st1, app') /\
    forall e, In e (essays app') -> id e = id essay ->
      status e = (if isCancelled err then CANCELLED else ERROR) /\
      ocrStatus e = Some (if isCancelled err then step_skipped
                          else step_error) /\
      errorMessage e = errMessage err.
Proof.
  intros Himg Hfile Eocr. unfold runOcrStep. rewrite Himg, Hfile.
  change (registerController (id essay) w st app)
    with (mkSignal (userAborts w (id essay) (clock st)),
          snd (registerController (id essay) w st app)).
  cbv iota beta. rewrite Eocr.
  eexists. split; [reflexivity|].
  intros e Hin He.
  change (essays (cleanupController (id essay) ?a)) with (essays a) in Hin.
  destruct (updateEssay_changed _ _ _ _ Hin He) as (e0 & _ & ->).
  repeat split.
Qed.

(** X27: in the queue a failed OCR step ends the work on that essay.  When
    the OCR call for a target throws (in mode "auto" as in "ocr_only"),
    nothing else is done for the essay: no grading is attempted, the events
    of the target are those of the OCR client, and the essay is left in
    status ERROR with OCR "error" and the error's message, or CANCELLED
    with OCR "skipped" when the error is a cancellation. *)
Theorem queue_drops_an_essay_whose_ocr_fails :
  forall mode essay f w st app err st1,
    mode <> ai_only ->
    submissionType essay = image ->
    file essay = Some f ->
    ocrStatus essay <> Some step_done ->
    Ocr.transcribeHandwriting f
      (Ocr.mkOptions None None None
         (Some (mkSignal (userAborts w (id essay) (clock st))))) w st
    = (Throw err, st1) ->
    fst (processTarget mode essay w st app) = st1 /\
    forallb isOcrEvent (newEvents st st1) = true /\
    modelRequestsOf (newEvents st st1) = [] /\
    forall e,
      In e (essays (snd (processTarget mode essay w st app))) ->
      id e = id essay ->
      status e = (if isCancelled err then CANCELLED else ERROR) /\
      ocrStatus e = Some (if isCancelled err then step_skipped
                          else step_error) /\
      errorMessage e = errMessage err.
Proof.
  intros mode essay f w st app err st1 Hmode Himg Hfile Hocr Eocr.
  assert (Hneeds : needsOcr essay = true).
  { unfold needsOcr. rewrite Himg. simpl. now apply notDone_spec. }
  destruct (Emits_transcribeHandwriting isOcrEvent (fun ev H => H) f _ _ _
              _ _ Eocr) as (d & T & F).
  rewrite (newEvents_app _ _ _ T).
  assert (Hno : modelRequestsOf d = []).
  { clear T. induction d as [|ev d IH]; [reflexivity|].
    simpl in F. apply andb_true_iff in F. destruct F as [Hev Hd].
    destruct ev; simpl; try discriminate; auto. }
  assert (Hrun : forall continueToAi,
    exists app',
      runOcrStep essay continueToAi w st app = (Throw err, st1, app') /\
      forall e, In e (essays app') -> id e = id essay ->
        status e = (if isCancelled err then CANCELLED else ERROR) /\
        ocrStatus e = Some (if isCancelled err then step_skipped
                            else step_error) /\
        errorMessage e = errMessage err)
    by (intros c; exact (runOcrStep_throws _ _ c _ _ app _ _ Himg Hfile Eocr)).
  unfold processTarget. cbv zeta. rewrite Hneeds.
  destruct mode; [| |now elim Hmode].
  - destruct (Hrun true) as (app' & -> & Hall). cbn [fst snd]. auto.
  - destruct (Hrun false) as (app' & -> & Hall). cbn [fst snd]. auto.
Qed.

(** Without an OCR key the scan of the example list fails in the queue: it
    is left in status ERROR, and the model is not asked. *)
Lemma queue_drops_an_essay_whose_ocr_fails_witness :
  fst (processTarget auto freshScan
         (withOcrKey None (agentWorld (Some "sk-test") true)) start idleApp)
  = start /\
  map (fun e => (id e, status e, errorMessage e))
    (essays (snd (processTarget auto freshScan
                    (withOcrKey None (agentWorld (Some "sk-test") true))
                    start idleApp)))
  = [("e7", COMPLETED, None);
     ("e8", ERROR, Some "Failed to fetch");
     ("e9", ERROR, Some "Handwriting OCR API key is missing")].
Proof.
  destruct (queue_drops_an_essay_whose_ocr_fails auto freshScan scan
              (withOcrKey None (agentWorld (Some "sk-test") true)) start
              idleApp (newError "Handwriting OCR API key is missing") start)
    as (Hst & _).
  - discriminate.
  - reflexivity.
  - reflexivity.
  - discriminate.
  - reflexivity.
  - split; [exact Hst|]. vm_compute. reflexivity.
Defined.

(** The turn of a target that has neither a [File] handle nor text: no
    request, and the mark that text is missing unless the mode is
    "ocr_only". *)
Lemma processTarget_without_text mode essay w st app :
  file essay = None ->
  hasTextContent essay = false ->
  gradingStatus essay <> Some step_done ->
  processTarget mode essay w st app
  = (st, match mode with
         | ocr_only => app
         | _ => markMissingText (id essay) app
         end).
Proof.
  intros Hfile Htext Hgr.
  assert (Hai : needsAi essay = true) by now apply notDone_spec.
  assert (Hocr : forall c, runOcrStep essay c w st app = (Ok essay, st, app)).
  { intros c. unfold runOcrStep. rewrite Hfile.
    now destruct (submissionType essay). }
  unfold processTarget. cbv zeta. rewrite Hai.
  destruct mode; rewrite ?Hocr; destruct (needsOcr essay);
    rewrite ?Hocr; cbn [negb]; rewrite ?Htext; reflexivity.
Qed.

Lemma NoDup_map_injective {A B : Type} (f : A -> B) l x y :
  NoDup (map f l) -> In x l -> In y l -> f x = f y -> x = y.
Proof.
  induction l as [|a l IH]; simpl; intros Hnd Hx Hy Hf; [contradiction|].
  inversion Hnd as [|? ? Hnot Hrest]; subst.
  destruct Hx as [->|Hx], Hy as [->|Hy]; auto.
  - elim Hnot. rewrite Hf. now apply in_map.
  - elim Hnot. rewrite <- Hf. now apply in_map.
Qed.

Lemma NoDup_map_filter {A B : Type} (f : A -> B) p l :
  NoDup (map f l) -> NoDup (map f (filter p l)).
Proof.
  induction l as [|a l IH]; simpl; intros Hnd; [constructor|].
  inversion Hnd as [|? ? Hnot Hrest]; subst.
  destruct (p a); simpl; [|auto].
  constructor; [|auto].
  intros Hin. apply Hnot. apply in_map_iff in Hin.
  destruct Hin as (x & Hfx & Hx). apply filter_In in Hx.
  rewrite <- Hfx. now apply in_map.
Qed.

Lemma processTargets_app mode first rest w st app :
  processTargets mode (first ++ rest) w st app
  = processTargets mode rest w
      (fst (processTargets mode first w st app))
      (snd (processTargets mode first w st app)).
Proof.
  unfold processTargets. rewrite fold_left_app.
  now destruct (fold_left _ first (st, app)).
Qed.

(** The targets with other ids leave an essay as it is. *)
Lemma processTargets_keeps mode w targets e :
  (forall t, In t targets -> id t <> id e) ->
  forall st app,
    In e (essays app) ->
    In e (essays (snd (processTargets mode targets w st app))).
Proof.
  intros Hother st app Hin.
  destruct (processTargets_spec mode (map id targets) w targets
              (fun t H => in_map id _ _ H) st app)
    as ((_ & _ & _ & Hchanges) & _).
  apply (OnlyChanges_other _ _ _ _ Hchanges Hin).
  intros Hid. apply in_map_iff in Hid. destruct Hid as (t & Ht & Hint).
  exact (Hother t Hint Ht).
Qed.

Lemma updateEssay_applies essayId payload app e :
  In e (essays app) -> id e = essayId ->
  In (payload e) (essays (updateEssay essayId payload app)).
Proof.
  intros Hin Hid. unfold updateEssay, setEssays. cbn [essays].
  apply in_map_iff. exists e. split; [|exact Hin].
  now rewrite Hid, String.eqb_refl.
Qed.

Lemma markBatchTargets_stamps ids batch app e :
  In e (essays app) -> In (id e) ids ->
  In (with_batchId (Some batch) e)
    (essays (markBatchTargets ids batch app)).
Proof.
  intros Hin Hid. unfold markBatchTargets.
  destruct ids as [|i ids]; [contradiction|].
  unfold setEssays. cbn [essays].
  apply in_map_iff. exists e. split; [|exact Hin].
  assert (Hex : existsb (String.eqb (id e)) (i :: ids) = true).
  { apply existsb_exists. exists (id e). split; [exact Hid|].
    apply String.eqb_refl. }
  now rewrite Hex.
Qed.

(** What the queue leaves of an essay without a [File] handle and without
    text. *)
Lemma queue_without_text mode batch w st app essay :
  NoDup (map id (essays app)) ->
  In essay (essays app) ->
  file essay = None ->
  hasTextContent essay = false ->
  status essay <> PROCESSING ->
  gradingStatus essay <> Some step_done ->
  In (match mode with
      | ai_only => essay
      | ocr_only =>
          if needsOcr essay then with_batchId (Some batch) essay else essay
      | auto =>
          with_errorMessage (Some MISSING_TEXT)
            (with_progressMessage (Some MISSING_TEXT)
              (with_progressStep (Some error)
                (with_gradingStatus (Some step_error)
                  (with_status ERROR (with_batchId (Some batch) essay)))))
      end)
    (essays (snd (handleStartProcessing mode batch w st app))).
Proof.
  intros Hnd Hin Hfile Htext Hst Hgr.
  destruct (isTarget mode essay) eqn:Ht.
  - (* a target: stamped, then its turn *)
    assert (Hpick : In essay (pickTargetsForMode mode app))
      by (apply filter_In; auto).
    assert (Hids : NoDup (map id (pickTargetsForMode mode app)))
      by now apply NoDup_map_filter.
    unfold handleStartProcessing.
    destruct (pickTargetsForMode mode app) as [|target others] eqn:Epick;
      [contradiction|].
    set (targets := target :: others) in *.
    destruct (in_split _ _ Hpick) as (first & rest & Hsplit).
    rewrite Hsplit, map_app in Hids. cbn [map] in Hids.
    pose proof (NoDup_remove_2 _ _ _ Hids) as Hnot.
    assert (Hfirst : forall t, In t first -> id t <> id essay).
    { intros t Hint E. apply Hnot. apply in_or_app. left.
      rewrite <- E. now apply in_map. }
    assert (Hrest : forall t, In t rest -> id t <> id essay).
    { intros t Hint E. apply Hnot. apply in_or_app. right.
      rewrite <- E. now apply in_map. }
    set (stamped := with_batchId (Some batch) essay).
    assert (H1 : In stamped
                   (essays (setActiveTab tab_list
                              (setIsProcessing true
                                 (markBatchTargets (map id targets) batch
                                    app))))).
    { cbn [essays setActiveTab setIsProcessing].
      apply markBatchTargets_stamps; [exact Hin|].
      apply in_map. exact Hpick. }
    set (app2 := setActiveTab tab_list
                   (setIsProcessing true
                      (markBatchTargets (map id targets) batch app))) in *.
    rewrite Hsplit.
    change (first ++ essay :: rest)%list
      with (first ++ [essay] ++ rest)%list.
    rewrite !processTargets_app.
    set (stF := fst (processTargets mode first w st app2)).
    set (appF := snd (processTargets mode first w st app2)).
    assert (H2 : In stamped (essays appF))
      by (apply processTargets_keeps; [exact Hfirst|exact H1]).
    assert (Hturn : processTargets mode [essay] w stF appF
                    = (stF, match mode with
                            | ocr_only => appF
                            | _ => markMissingText (id essay) appF
                            end)).
    { unfold processTargets. cbn [fold_left fst snd].
      now apply processTarget_without_text. }
    rewrite Hturn. cbn [fst snd].
    destruct (processTargets mode rest w stF _) as [stR appR] eqn:Erest.
    cbn [snd essays setIsProcessing].
    change appR with (snd (stR, appR)). rewrite <- Erest.
    assert (Hneeds : mode = ocr_only -> needsOcr essay = true).
    { intros ->. unfold isTarget in Ht.
      now destruct (ProcessingStatus_beq (status essay) PROCESSING). }
    destruct mode.
    + apply (processTargets_keeps auto w rest); [exact Hrest|].
      unfold markMissingText.
      exact (updateEssay_applies _ _ _ stamped H2 eq_refl).
    + rewrite (Hneeds eq_refl).
      apply (processTargets_keeps ocr_only w rest); [exact Hrest|exact H2].
    + unfold isTarget in Ht. rewrite Htext, andb_false_r in Ht.
      now destruct (ProcessingStatus_beq (status essay) PROCESSING).
  - (* no target: untouched *)
    assert (Hauto : mode <> auto).
    { intros ->. apply not_true_iff_false in Ht. apply Ht.
      apply isTarget_spec. split; [exact Hst|]. now right. }
    assert (Hsame : In essay
                      (essays (snd (handleStartProcessing mode batch w st
                                      app)))).
    { destruct (handleStartProcessing_spec mode batch w st app)
        as (Hchanges & _).
      apply (OnlyChanges_other _ _ _ _ Hchanges Hin).
      intros Hid. apply in_map_iff in Hid. destruct Hid as (t & Hidt & Hint).
      assert (Hint' : In t (essays app))
        by (apply filter_In in Hint; tauto).
      rewrite (NoDup_map_injective id _ _ _ Hnd Hint' Hin Hidt) in Hint.
      apply filter_In in Hint. destruct Hint as (_ & Hyes). congruence. }
    destruct mode; [now elim Hauto| |exact Hsame].
    assert (Hno : needsOcr essay = false).
    { unfold isTarget in Ht.
      destruct (ProcessingStatus_beq (status essay) PROCESSING) eqn:E;
        [|exact Ht].
      elim Hst. now destruct (status essay). }
    now rewrite Hno.
Qed.

(** X28: an essay of the list that has neither a [File] handle nor any text
    (as every image essay reloaded without text) cannot be processed, and
    [handleStartProcessing] makes no request for it.  With ids that are
    unique in the list: in mode "ai_only" it is no target and stays as it
    is; in mode "ocr_only" it is a target when it is an image whose OCR is
    not done, and then only stamped with the batch id; in mode "auto" (its
    grading not being done) it is stamped with the batch id and marked with
    the error that text is missing.  Whenever its turn comes in the loop,
    nothing is added to the trace. *)
Theorem target_without_file_or_text :
  forall mode batch w st app essay,
    NoDup (map id (essays app)) ->
    In essay (essays app) ->
    file essay = None ->
    hasTextContent essay = false ->
    status essay <> PROCESSING ->
    gradingStatus essay <> Some step_done ->
    (forall st0 app0, fst (processTarget mode essay w st0 app0) = st0) /\
    forall e,
      In e (essays (snd (handleStartProcessing mode batch w st app))) ->
      id e = id essay ->
      e = match mode with
          | ai_only => essay
          | ocr_only =>
              if needsOcr essay then with_batchId (Some batch) essay
              else essay
          | auto =>
              with_errorMessage (Some MISSING_TEXT)
                (with_progressMessage (Some MISSING_TEXT)
                  (with_progressStep (Some error)
                    (with_gradingStatus (Some step_error)
                      (with_status ERROR
                         (with_batchId (Some batch) essay)))))
          end.
Proof.
  intros mode batch w st app essay Hnd Hin Hfile Htext Hst Hgr. split.
  - intros st0 app0.
    now rewrite (processTarget_without_text mode essay w st0 app0 Hfile Htext
                   Hgr).
  - intros e He Hid.
    pose proof (queue_without_text mode batch w st app essay Hnd Hin Hfile
                  Htext Hst Hgr) as Hleft.
    destruct (handleStartProcessing_spec mode batch w st app)
      as (Hchanges & _).
    pose proof (OnlyChanges_ids _ _ _ Hchanges) as Hids.
    rewrite <- Hids in Hnd.
    apply (NoDup_map_injective id _ _ _ Hnd He Hleft).
    rewrite Hid. now destruct mode; [|destruct (needsOcr essay)|].
Qed.

(** The fresh scan, reloaded without its file, next to the edited essay:
    the queue in mode "auto" stamps and marks it, and its turn adds nothing
    to the trace. *)
Lemma target_without_file_or_text_witness :
  nth 1
    (essays
       (snd (handleStartProcessing auto "batch-1"
               (agentWorld (Some "sk-test") true) start
               (mkState openaiConfig [editedEssay; withoutFile freshScan]
                  [] false tab_list))))
    editedEssay
  = with_errorMessage (Some MISSING_TEXT)
      (with_progressMessage (Some MISSING_TEXT)
        (with_progressStep (Some error)
          (with_gradingStatus (Some step_error)
            (with_status ERROR
               (with_batchId (Some "batch-1") (withoutFile freshScan))))))
  /\
  fst (processTarget auto (withoutFile freshScan)
         (agentWorld (Some "sk-test") true) start
         (mkState openaiConfig [editedEssay; withoutFile freshScan]
            [] false tab_list))
  = start.
Proof.
  destruct (target_without_file_or_text auto "batch-1"
              (agentWorld (Some "sk-test") true) start
              (mkState openaiConfig [editedEssay; withoutFile freshScan]
                 [] false tab_list)
              (withoutFile freshScan)) as (Hturn & Hentry).
  - repeat constructor; simpl; intuition discriminate.
  - right. now left.
  - reflexivity.
  - reflexivity.
  - discriminate.
  - discriminate.
  - split; [|apply Hturn].
    apply Hentry; [|reflexivity].
    vm_compute. auto.
Defined.

(** ** Submissions and clearing *)

(** X29: what a submission adds.  A blank text is not submitted; any other
    text adds exactly one essay at the end of the list, which is a target
    of grading (in the modes "ai_only" and "auto") and never of OCR, and
    which a save and reload returns unchanged.  An uploaded image is a
    target of OCR (in the modes "ocr_only" and "auto") and no target of
    "ai_only" before it has text; saved and reloaded before it has text, it
    comes back in status ERROR, its [File] handle gone. *)
Theorem submissions_enter_the_queue :
  forall newId addedAtISO name subject body preview f app fallback,
    (JS.truthyStr (JS.trim body) = false ->
     handleTextSubmit newId addedAtISO name subject body app = app) /\
    (JS.truthyStr (JS.trim body) = true ->
     essays (handleTextSubmit newId addedAtISO name subject body app)
     = (essays app ++ [newTextEssay newId addedAtISO name subject body])%list
     /\
     isTarget ai_only (newTextEssay newId addedAtISO name subject body)
     = true /\
     isTarget auto (newTextEssay newId addedAtISO name subject body) = true)
    /\
    (JS.truthyStr addedAtISO = true ->
     Persistence.reviveEssay
       (stripTransient (newTextEssay newId addedAtISO name subject body))
       fallback
     = newTextEssay newId addedAtISO name subject body) /\
    isTarget ocr_only (newTextEssay newId addedAtISO name subject body)
    = false /\
    isTarget ocr_only (newImageEssay newId addedAtISO preview f) = true /\
    isTarget auto (newImageEssay newId addedAtISO preview f) = true /\
    isTarget ai_only (newImageEssay newId addedAtISO preview f) = false /\
    status (Persistence.reviveEssay
              (stripTransient (newImageEssay newId addedAtISO preview f))
              fallback) = ERROR /\
    file (Persistence.reviveEssay
            (stripTransient (newImageEssay newId addedAtISO preview f))
            fallback) = None.
Proof.
  intros newId addedAtISO name subject body preview f app fallback.
  split; [|split; [|split]].
  - intros H. unfold handleTextSubmit. now rewrite H.
  - intros H. unfold handleTextSubmit. rewrite H. cbn [negb].
    split; [reflexivity|].
    assert (Htext : hasTextContent
                      (newTextEssay newId addedAtISO name subject body)
                    = true).
    { unfold hasTextContent, newTextEssay. cbn [rawText ocrText JS.orStr].
      destruct body; [discriminate H|]. cbn [JS.truthyStr]. now rewrite H. }
    unfold isTarget. rewrite Htext. split; reflexivity.
  - intros H. rewrite SaveFacts.revive_stripped; [reflexivity|].
    unfold atRest, settled, Persistence.lacksText. cbn.
    now rewrite H.
  - repeat split.
Qed.

Lemma submissions_enter_the_queue_witness :
  essays (handleTextSubmit "e10" "2024-05-04T10:00:00.000Z" "Han Meimei"
            "My weekend" "I visited my grandparents." idleApp)
  = [editedEssay; scannedEssay; freshScan;
     newTextEssay "e10" "2024-05-04T10:00:00.000Z" "Han Meimei"
       "My weekend" "I visited my grandparents."].
Proof.
  destruct (submissions_enter_the_queue "e10" "2024-05-04T10:00:00.000Z"
              "Han Meimei" "My weekend" "I visited my grandparents."
              "data:image/jpeg;base64,AAAA" scan idleApp None)
    as (_ & Hadd & _).
  destruct (Hadd eq_refl) as (Hessays & _).
  exact Hessays.
Defined.

(** X30: clearing all records leaves nothing behind.  After a confirmed
    [handleClearAll] the list is empty, the stored entry is gone, so that a
    later session loads no essay, and the other keys of the storage are
    untouched; when the user declines, or the list is already empty,
    nothing changes. *)
Theorem clear_all_leaves_nothing :
  forall confirmClear h app store parse nowISO,
    host_hasWindow h = true ->
    (confirmClear = true -> essays app <> [] ->
     essays (fst (handleClearAll confirmClear h app store)) = [] /\
     Persistence.loadPersistedEssays
       (browserOn (snd (handleClearAll confirmClear h app store)) parse
          nowISO) = [] /\
     forall k, k <> Persistence.STORAGE_KEY ->
               snd (handleClearAll confirmClear h app store) k = store k) /\
    (confirmClear = false \/ essays app = [] ->
     handleClearAll confirmClear h app store = (app, store)).
Proof.
  intros confirmClear h app store parse nowISO Hwin. split.
  - intros -> Hne. unfold handleClearAll.
    destruct (essays app) as [|e rest] eqn:E; [now elim Hne|].
    cbn [negb fst snd]. unfold persistEssays. rewrite Hwin. cbn [negb].
    split; [reflexivity|]. split.
    + unfold Persistence.loadPersistedEssays, Persistence.loadBody, browserOn,
        removeItem. simpl. reflexivity.
    + intros k Hk. unfold removeItem.
      apply String.eqb_neq in Hk. now rewrite Hk.
  - intros [->|Hnil]; unfold handleClearAll.
    + now destruct (essays app).
    + now rewrite Hnil.
Qed.

Lemma clear_all_leaves_nothing_witness :
  essays (fst (handleClearAll true roomyHost idleApp
                 (persistEssays roomyHost sessionEssays otherStorage))) = []
  /\
  Persistence.loadPersistedEssays
    (browserOn
       (snd (handleClearAll true roomyHost idleApp
               (persistEssays roomyHost sessionEssays otherStorage)))
       (parseAs sessionPayload) "2024-05-05T07:00:00.000Z") = [].
Proof.
  destruct (clear_all_leaves_nothing true roomyHost idleApp
              (persistEssays roomyHost sessionEssays otherStorage)
              (parseAs sessionPayload) "2024-05-05T07:00:00.000Z" eq_refl)
    as (Hclear & _).
  destruct (Hclear eq_refl) as (H1 & H2 & _); [discriminate|].
  split; assumption.
Defined.

End QueueFacts.
